(** * ModMail bot: ticket lifecycle and routing engine

    A shallow embedding of [src/index.js]: the mongoose collections, the
    part of the Discord client the engine reads and writes, the DM handler
    ([handleDM]), [createTicket], the chat-side button handlers
    ([handleCloseTicket], [handleClaimTicket]) and the mutating dashboard
    endpoints ([/api/ticket/:id/close|delete|claim|note]) behind their
    middleware ([isAuthenticated], [isStaff]).

    Conventions.
    - Discord snowflakes, role ids and custom ids are [string]s, as in the
      schemas; mongoose ObjectIds are [nat]s drawn from a counter; dates are
      [Z] milliseconds read from the world clock.
    - An [async] function is a computation in the monad [M]: it threads the
      world and either returns or throws.  Writes made before a throw stay
      in the world, as they do in the program.
    - Every platform or store call that can reject is labelled with a
      [Call]; a fault oracle [Call -> bool] says which of them reject in
      the run under consideration.
    - A collection is the list of its documents in insertion order, and
      [findOne] returns the first match.
    - The caches of the client ([client.guilds.cache],
      [guild.channels.cache], the members of a guild) mirror the platform.
    - A JavaScript string is the [string] of the bytes of its UTF-8
      encoding; [js_length] is its [length], the number of UTF-16 code
      units.
    - One handler runs at a time; interleavings of handlers are not
      modelled.  Inside [handleDM] the listeners of the selection
      collector do interleave: a listener runs up to its [await] when its
      press arrives and goes on when the awaited reply has settled, and
      every press carries both times.
    - Embeds are reduced to the notice they carry; channel names and
      permission overwrites play no part in the routing and are left out.
      The length checks of the builders that stored data can trip are
      kept: the value of an embed field (1024), the label of a button
      (80) and its custom id (100). *)

From Stdlib Require Import List String Ascii ZArith Bool Lia DecimalString.
From Stdlib Require Import Permutation.
Import ListNotations.
Local Open Scope string_scope.
Local Open Scope list_scope.

(** ** JavaScript truthiness of optional strings *)

(** [if (x)] on a value that is a string, [null] or [undefined]: the empty
    string is falsy. *)
Definition truthy (x : option string) : bool :=
  match x with
  | Some s => negb (s =? "")
  | None => false
  end.

(** [a || b] on optional strings. *)
Definition or_else (a b : option string) : option string :=
  if truthy a then a else b.

(** ** JavaScript strings *)

(** the UTF-16 code units a byte of the UTF-8 encoding accounts for: one
    for the first byte of a code point of one to three bytes, two (a
    surrogate pair) for the first byte of a code point of four bytes,
    none for a continuation byte *)
Definition code_units (a : ascii) : nat :=
  let b := nat_of_ascii a in
  if (b <? 128)%nat then 1
  else if (b <? 192)%nat then 0
  else if (b <? 240)%nat then 1
  else 2.

(** [s.length] *)
Fixpoint js_length (s : string) : nat :=
  match s with
  | EmptyString => 0
  | String a s' => code_units a + js_length s'
  end.




(** [String.prototype.replace(pat, rep)] with a string pattern: only the
    first occurrence is replaced. *)
Fixpoint drop (n : nat) (s : string) : string :=
  match n, s with
  | O, _ => s
  | S n', String _ s' => drop n' s'
  | S _, EmptyString => EmptyString
  end.

Fixpoint replace (pat rep s : string) : string :=
  if prefix pat s then rep ++ drop (String.length pat) s
  else match s with
       | EmptyString => EmptyString
       | String c s' => String c (replace pat rep s')
       end.

(** ** Collections (mongoose schemas) *)

Inductive Status := open | closed.

Definition Status_eqb (a b : Status) : bool :=
  match a, b with
  | open, open | closed, closed => true
  | _, _ => false
  end.

Inductive Priority := low | normal | high | urgent.

Record Note := mkNote {
  note_user_id : string;
  note_content : string;
  note_timestamp : Z
}.

Module Ticket.
Record t := mk {
  _id : nat;
  user_id : string;
  guild_id : option string;
  channel_id : string;
  status : Status;
  created_at : Z;
  closed_at : option Z;
  closed_by : option string;
  claimed_by : option string;
  claimed_at : option Z;
  priority : Priority;
  category : option string;
  notes : list Note
}.

(** [new Ticket({user_id, guild_id, channel_id, status: 'open', created_at})] *)
Definition create (oid : nat) (u g c : string) (now : Z) : t :=
  mk oid u (Some g) c open now None None None None normal None [].

Definition set_channel_id (x : t) (c : string) : t :=
  mk (_id x) (user_id x) (guild_id x) c (status x) (created_at x)
     (closed_at x) (closed_by x) (claimed_by x) (claimed_at x)
     (priority x) (category x) (notes x).

(** [status = 'closed'; closed_at = new Date(); closed_by = who] *)
Definition close (x : t) (now : Z) (who : string) : t :=
  mk (_id x) (user_id x) (guild_id x) (channel_id x) closed (created_at x)
     (Some now) (Some who) (claimed_by x) (claimed_at x)
     (priority x) (category x) (notes x).

(** [claimed_by = who; claimed_at = new Date()] *)
Definition claim (x : t) (now : Z) (who : string) : t :=
  mk (_id x) (user_id x) (guild_id x) (channel_id x) (status x) (created_at x)
     (closed_at x) (closed_by x) (Some who) (Some now)
     (priority x) (category x) (notes x).


Definition is_open (x : t) : bool := Status_eqb (status x) open.
End Ticket.

Module Message.
Record t := mk {
  _id : nat;
  ticket_id : nat;
  user_id : string;
  content : string;
  attachments : list string;
  timestamp : Z;
  is_staff : bool
}.
End Message.

Module GuildSetting.
Record t := mk {
  guild_id : string;
  name : option string;
  modmail_category_id : option string;
  staff_role_id : option string;
  log_channel_id : option string;
  is_default : bool;
  created_at : Z
}.
End GuildSetting.

Module BlockedUser.
Record t := mk {
  user_id : string;
  blocked_at : Z;
  blocked_by : option string;
  reason : option string
}.
End BlockedUser.

(** ** The Discord side *)

Record User := mkUser {
  u_id : string;
  u_tag : string
}.

Record Member := mkMember {
  m_user : string;
  m_roles : list string;
  m_administrator : bool
}.

Record Guild := mkGuild {
  g_id : string;
  g_members : list Member
}.

Record Channel := mkChannel {
  ch_id : string;
  ch_guild : string;
  ch_topic : option string;
  ch_parent : option string
}.

(** [process.env] *)
Record Env := mkEnv {
  GUILD_ID : option string;
  STAFF_ROLE_ID : option string;
  MODMAIL_CATEGORY_ID : option string;
  LOG_CHANNEL_ID : option string
}.

(** What the program tells somebody over Discord: one constructor per
    distinct reply or embed in the source. *)
Inductive Notice :=
| BlockedNotice (reason : string)
| NotConfiguredNotice
| NotAMemberNotice
| SelectionPrompt (customIds : list string)
| SelectionRejected
| SelectionAccepted (guild : string)
| SelectionTimeoutNotice
| NoServersNotice
| CreateFailedNotice
| TicketCreatedNotice (ticket : nat)
| RelayErrorNotice
| IntroNotice (user : string)
| LogCreatedNotice (ticket : nat)
| RelayedContent (content : string)
| ReactOk
| CloseNotFoundNotice
| ClosingNotice
| ClosedByStaffNotice (ticket : nat)
| ClosedViaDashboardNotice
| LogClosedNotice (ticket : nat)
| ClaimNotFoundNotice
| AlreadyClaimedNotice (by_ : string)
| ClaimedNotice (by_ : string)
| ButtonErrorNotice.

Inductive Effect :=
| ToUser (user : string) (n : Notice)       (* message.reply in a DM, user.send *)
| ToChannel (channel : string) (n : Notice) (* channel.send *)
| ToInteraction (user : string) (n : Notice). (* interaction.reply *)

(** ** World *)

Record World := mkWorld {
  tickets : list Ticket.t;
  messages : list Message.t;
  guildsettings : list GuildSetting.t;
  blockedusers : list BlockedUser.t;
  guilds : list Guild;            (* client.guilds.cache *)
  channels : list Channel;        (* channels that exist on the platform *)
  next_oid : nat;                 (* next ObjectId *)
  next_snowflake : nat;           (* next channel id the platform hands out *)
  now : Z;                        (* Date.now() *)
  timers : list string;           (* channel deletions scheduled by setTimeout *)
  outbox : list Effect            (* everything sent so far, oldest first *)
}.

Definition with_tickets (w : World) (ts : list Ticket.t) : World :=
  mkWorld ts (messages w) (guildsettings w) (blockedusers w) (guilds w)
          (channels w) (next_oid w) (next_snowflake w) (now w) (timers w) (outbox w).

Definition with_messages (w : World) (ms : list Message.t) : World :=
  mkWorld (tickets w) ms (guildsettings w) (blockedusers w) (guilds w)
          (channels w) (next_oid w) (next_snowflake w) (now w) (timers w) (outbox w).

Definition with_channels (w : World) (cs : list Channel) : World :=
  mkWorld (tickets w) (messages w) (guildsettings w) (blockedusers w) (guilds w)
          cs (next_oid w) (next_snowflake w) (now w) (timers w) (outbox w).

Definition with_next_oid (w : World) (n : nat) : World :=
  mkWorld (tickets w) (messages w) (guildsettings w) (blockedusers w) (guilds w)
          (channels w) n (next_snowflake w) (now w) (timers w) (outbox w).

Definition with_next_snowflake (w : World) (n : nat) : World :=
  mkWorld (tickets w) (messages w) (guildsettings w) (blockedusers w) (guilds w)
          (channels w) (next_oid w) n (now w) (timers w) (outbox w).

Definition with_timers (w : World) (l : list string) : World :=
  mkWorld (tickets w) (messages w) (guildsettings w) (blockedusers w) (guilds w)
          (channels w) (next_oid w) (next_snowflake w) (now w) l (outbox w).

Definition with_outbox (w : World) (l : list Effect) : World :=
  mkWorld (tickets w) (messages w) (guildsettings w) (blockedusers w) (guilds w)
          (channels w) (next_oid w) (next_snowflake w) (now w) (timers w) l.

(** ** The monad of async functions *)

Inductive Res (A : Type) :=
| Ok (a : A)
| Throw.
Arguments Ok {A} a.
Arguments Throw {A}.

Definition M (A : Type) : Type := World -> Res A * World.

Definition ret {A} (a : A) : M A := fun w => (Ok a, w).

Definition bind {A B} (m : M A) (k : A -> M B) : M B :=
  fun w => match m w with
           | (Ok a, w') => k a w'
           | (Throw, w') => (Throw, w')
           end.

Definition throw {A} : M A := fun w => (Throw, w).

(** [try { m } catch { h }]; also [m.catch(() => h)] *)
Definition try_catch {A} (m : M A) (h : M A) : M A :=
  fun w => match m w with
           | (Ok a, w') => (Ok a, w')
           | (Throw, w') => h w'
           end.

Definition get : M World := fun w => (Ok w, w).
Definition modify (f : World -> World) : M unit := fun w => (Ok tt, f w).

Notation "x <- m ;; k" := (bind m (fun x => k))
  (at level 61, m at next level, right associativity).
Notation "m ;;; k" := (bind m (fun _ => k))
  (at level 61, right associativity).

(** ** Call sites that can reject *)

Inductive Call :=
(* handleDM *)
| DM_blocked_findOne | DM_reply | DM_guilds_fetch | DM_settings_find
| DM_sticky_findOne | DM_prompt_reply | DM_collect_reject | DM_collect_ack
| DM_timeout_reply | DM_ticket_findOne | DM_created_reply | DM_channel_fetch
| DM_recover_save | DM_recover_fetch | DM_relay_send | DM_message_save | DM_react
(* createTicket *)
| CT_default_findOne | CT_any_findOne | CT_channel_create | CT_intro_send
| CT_ticket_save | CT_log_send
(* handleCloseTicket, handleClaimTicket, interactionCreate *)
| HC_findOne | HC_not_found_reply | HC_closing_reply | HC_user_fetch
| HC_user_send | HC_save | HC_log_send | HC_channel_delete
| HK_findOne | HK_not_found_reply | HK_claimed_reply | HK_save | HK_reply
| IC_error_reply
(* dashboard *)
| SG_member_fetch | SG_findOne
| API_member_fetch | API_findById | API_channel_fetch | API_channel_delete
| API_save | API_user_fetch | API_user_send | API_deleteMany
| API_findByIdAndDelete.

Definition Faults := Call -> bool.

Definition no_faults : Faults := fun _ => false.

(** ** Primitives *)

Definition snowflake (n : nat) : string :=
  NilEmpty.string_of_uint (Nat.to_uint n).

Definition same_id (a : option string) (b : string) : bool :=
  match a with
  | Some s => s =? b
  | None => false
  end.

(** [Collection.has(x)] on a list of ids, [x] possibly undefined *)
Definition has (l : list string) (x : option string) : bool :=
  match x with
  | Some s => existsb (String.eqb s) l
  | None => false
  end.

(** [client.guilds.cache.get(id)] *)
Definition guilds_cache_get (w : World) (id : option string) : option Guild :=
  find (fun g => same_id id (g_id g)) (guilds w).

(** [guild.channels.cache.get(id)] *)
Definition guild_channels_cache_get (w : World) (guild : string) (id : option string)
  : option Channel :=
  find (fun c => same_id id (ch_id c) && (ch_guild c =? guild)) (channels w).

(** replace the stored document that has the [_id] of [t] *)
Definition replace_ticket (t : Ticket.t) (l : list Ticket.t) : list Ticket.t :=
  map (fun x => if Nat.eqb (Ticket._id x) (Ticket._id t) then t else x) l.

Section Engine.

Variable env : Env.
Variable faults : Faults.

(** a call that rejects when the oracle says so *)
Definition fallible (c : Call) : M unit :=
  fun w => if faults c then (Throw, w) else (Ok tt, w).

Definition emit (e : Effect) : M unit :=
  modify (fun w => with_outbox w (outbox w ++ [e])).

(** [message.reply(...)] in a DM and [user.send(...)] *)
Definition user_send (c : Call) (user : string) (n : Notice) : M unit :=
  fallible c ;;; emit (ToUser user n).

(** [channel.send(...)] *)
Definition channel_send (c : Call) (ch : Channel) (n : Notice) : M unit :=
  fallible c ;;; emit (ToChannel (ch_id ch) n).

(** [interaction.reply(...)] *)
Definition interaction_reply (c : Call) (user : string) (n : Notice) : M unit :=
  fallible c ;;; emit (ToInteraction user n).

(** [Ticket.findOne(query)]: the first stored document matching *)
Definition Ticket_findOne (c : Call) (query : Ticket.t -> bool)
  : M (option Ticket.t) :=
  fallible c ;;; w <- get ;; ret (find query (tickets w)).

(** [Ticket.findById(id)] *)
Definition Ticket_findById (c : Call) (id : nat) : M (option Ticket.t) :=
  Ticket_findOne c (fun t => Nat.eqb (Ticket._id t) id).

(** [doc.save()] of a new document *)
Definition Ticket_insert (c : Call) (t : Ticket.t) : M unit :=
  fallible c ;;; modify (fun w => with_tickets w (tickets w ++ [t])).

(** [doc.save()] of a document read from the store *)
Definition Ticket_save (c : Call) (t : Ticket.t) : M unit :=
  fallible c ;;; modify (fun w => with_tickets w (replace_ticket t (tickets w))).

(** [new Model(...)] draws the document's ObjectId *)
Definition fresh_oid : M nat :=
  fun w => (Ok (next_oid w), with_next_oid w (S (next_oid w))).

(** [GuildSetting.findOne(query).lean().catch(() => null)] *)
Definition GuildSetting_findOne_or_null (c : Call) (query : GuildSetting.t -> bool)
  : M (option GuildSetting.t) :=
  try_catch (fallible c ;;; w <- get ;; ret (find query (guildsettings w)))
            (ret None).

(** [client.channels.fetch(id)]: rejects when the channel does not exist *)
Definition channels_fetch (c : Call) (id : string) : M Channel :=
  fallible c ;;;
  w <- get ;;
  match find (fun ch => ch_id ch =? id) (channels w) with
  | Some ch => ret ch
  | None => throw
  end.

(** [guild.channels.create({parent, topic, ...})] *)
Definition channels_create (c : Call) (g : Guild) (parent topic : option string)
  : M Channel :=
  fallible c ;;;
  fun w =>
    let ch := mkChannel (snowflake (next_snowflake w)) (g_id g) topic parent in
    (Ok ch, with_next_snowflake (with_channels w (channels w ++ [ch]))
                                (S (next_snowflake w))).

(** [channel.delete(reason)]: rejects when the channel is already gone *)
Definition channel_delete (c : Call) (id : string) : M unit :=
  fallible c ;;;
  w <- get ;;
  if existsb (fun ch => ch_id ch =? id) (channels w)
  then modify (fun w => with_channels w
                 (filter (fun ch => negb (ch_id ch =? id)) (channels w)))
  else throw.

(** [guild.members.fetch(id).catch(() => null)] *)
Definition members_fetch_or_null (c : Call) (g : Guild) (id : string)
  : M (option Member) :=
  try_catch (fallible c ;;; ret (find (fun m => m_user m =? id) (g_members g)))
            (ret None).

(** ** createTicket *)

(** the configuration to use: the argument, else the default-flagged
    configuration, else any configuration *)
Definition resolve_guildConfig (guildConfig : option GuildSetting.t)
  : M (option GuildSetting.t) :=
  match guildConfig with
  | Some c => ret (Some c)
  | None =>
      d <- GuildSetting_findOne_or_null CT_default_findOne GuildSetting.is_default ;;
      match d with
      | Some c => ret (Some c)
      | None => GuildSetting_findOne_or_null CT_any_findOne (fun _ => true)
      end
  end.

(** the guild to create the channel in: the configured guild when the
    client has it, else the guild [GUILD_ID] *)
Definition resolve_guild (w : World) (guildConfig : option GuildSetting.t)
  : option Guild :=
  let guild :=
    match guildConfig with
    | Some c =>
        if truthy (Some (GuildSetting.guild_id c))
        then guilds_cache_get w (Some (GuildSetting.guild_id c))
        else None
    | None => None
    end in
  match guild with
  | Some g => Some g
  | None => if truthy (GUILD_ID env)
            then guilds_cache_get w (GUILD_ID env)
            else None
  end.

(** from the lookup of the category to [return ticket]: the channel, its
    introduction, the Ticket row and the mirror into the log channel *)
Definition open_ticket_in (user : User) (guildConfig : option GuildSetting.t)
  (guild : Guild) : M Ticket.t :=
  w <- get ;;
  let categoryId :=
    or_else (match guildConfig with
             | Some c => GuildSetting.modmail_category_id c
             | None => None
             end) (MODMAIL_CATEGORY_ID env) in
  let category :=
    if truthy categoryId
    then guild_channels_cache_get w (g_id guild) categoryId
    else None in
  channel <- channels_create CT_channel_create guild
               (option_map ch_id category) (Some (u_id user)) ;;
  channel_send CT_intro_send channel (IntroNotice (u_id user)) ;;;
  oid <- fresh_oid ;;
  w <- get ;;
  let ticket :=
    Ticket.create oid (u_id user) (g_id guild) (ch_id channel) (now w) in
  Ticket_insert CT_ticket_save ticket ;;;
  (if truthy (LOG_CHANNEL_ID env)
   then match guild_channels_cache_get w (g_id guild) (LOG_CHANNEL_ID env) with
        | Some logChannel =>
            channel_send CT_log_send logChannel (LogCreatedNotice oid)
        | None => ret tt
        end
   else ret tt) ;;;
  ret ticket.

Definition createTicket (user : User) (guildConfig : option GuildSetting.t)
  : M (option Ticket.t) :=
  try_catch
    (guildConfig <- resolve_guildConfig guildConfig ;;
     w <- get ;;
     match resolve_guild w guildConfig with
     | None => throw
     | Some guild =>
         ticket <- open_ticket_in user guildConfig guild ;;
         ret (Some ticket)
     end)
    (ret None).

(** ** handleDM *)

(** [message.author], [message.content] and the urls of
    [message.attachments] of an inbound direct message *)
Record DirectMessage := mkDirectMessage {
  author : User;
  content : string;
  attachments : list string
}.

(** A button interaction on the selection prompt: who pressed, which custom
    id, how many milliseconds after the collector was created the press
    arrives, and when the [interaction.reply(...)] made for it settles.
    The presses of a run are listed in the order they arrive. *)
Record ButtonClick := mkButtonClick {
  click_at : Z;
  click_settled : Z;
  click_user : string;
  click_customId : string
}.

(** The two closure variables the collector's listeners write. *)
Record Selection := mkSelection {
  selectedGuild : option GuildSetting.t;
  guildConfigForDM : option GuildSetting.t
}.

(** [createMessageComponentCollector({ time: 60000 })] *)
Definition selection_window : Z := 60000.

(** [BlockedUser.findOne({ user_id })] *)
Definition BlockedUser_findOne (c : Call) (user : string)
  : M (option BlockedUser.t) :=
  fallible c ;;;
  w <- get ;;
  ret (find (fun b => BlockedUser.user_id b =? user) (blockedusers w)).

(** [client.guilds.fetch().then(guilds => guilds.map(g => g.id)).catch(() => [])]:
    the guilds the bot is in *)
Definition bot_guild_ids : M (list string) :=
  try_catch (fallible DM_guilds_fetch ;;; w <- get ;; ret (map g_id (guilds w)))
            (ret []).

(** [GuildSetting.find().lean().catch(() => [])] *)
Definition GuildSetting_find_or_empty : M (list GuildSetting.t) :=
  try_catch (fallible DM_settings_find ;;; w <- get ;; ret (guildsettings w))
            (ret []).

(** [Array.prototype.includes] *)
Definition includes (l : list string) (x : string) : bool :=
  existsb (String.eqb x) l.

(** the filter applied to the configured guilds: [userGuilds] holds the
    ids returned by [client.guilds.fetch()] *)
Definition filter_available (userGuilds : list string)
  (availableGuilds : list GuildSetting.t) : list GuildSetting.t :=
  filter (fun guild => includes userGuilds (GuildSetting.guild_id guild))
         availableGuilds.

(** the listener of ['collect'], run when the press arrives.  It is an
    async listener: it makes its assignments, sends its reply and awaits
    it; [collector.stop()] is called when the reply has settled, and is
    not called when the reply rejects (the rejection is logged by the
    process and the assignments stay).  The second component is the time
    at which this listener will call [collector.stop()], if it will. *)
Definition on_collect (requester : string) (availableGuilds : list GuildSetting.t)
  (st : Selection) (i : ButtonClick) : M (Selection * option Z) :=
  if negb (click_user i =? requester) then
    try_catch (interaction_reply DM_collect_reject (click_user i) SelectionRejected)
              (ret tt) ;;;
    ret (st, None)
  else
    let guildId := replace "guild_select_" "" (click_customId i) in
    let found :=
      find (fun g => GuildSetting.guild_id g =? guildId) availableGuilds in
    match found with
    | Some g =>
        let st' := mkSelection (Some g) (Some g) in
        try_catch
          (interaction_reply DM_collect_ack (click_user i) (SelectionAccepted guildId) ;;;
           ret (st', Some (click_settled i)))
          (ret (st', None))
    | None => ret (mkSelection None (guildConfigForDM st), None)
    end.

(** the collector has ended at time [t]: the window has elapsed, or a
    listener has called [collector.stop()] *)
Definition ended (stop_at : option Z) (t : Z) : bool :=
  (selection_window <=? t)%Z
  || match stop_at with
     | Some s => (s <=? t)%Z
     | None => false
     end.

(** the first of two pending calls of [collector.stop()] *)
Definition earliest (a b : option Z) : option Z :=
  match a, b with
  | Some x, Some y => Some (Z.min x y)
  | Some x, None => Some x
  | None, _ => b
  end.

(** the collector: every press that arrives before the collector has
    ended is delivered to a listener; [stop_at] is the earliest time at
    which a listener that is awaiting its reply will stop the collector *)
Fixpoint collect (requester : string) (availableGuilds : list GuildSetting.t)
  (st : Selection) (stop_at : option Z) (clicks : list ButtonClick) : M Selection :=
  match clicks with
  | [] => ret st
  | i :: rest =>
      if ended stop_at (click_at i) then ret st
      else
        r <- on_collect requester availableGuilds st i ;;
        collect requester availableGuilds (fst r) (earliest stop_at (snd r)) rest
  end.

(** [new ButtonBuilder().setCustomId(...).setLabel(g.name || ...)] throws
    when the custom id has more than 100 characters or the label more
    than 80; the label [`Server ${idx + 1}`] of a guild without a name
    never has *)
Definition button_refused (g : GuildSetting.t) : bool :=
  (100 <? js_length ("guild_select_" ++ GuildSetting.guild_id g))%nat
  || match GuildSetting.name g with
     | Some n => truthy (Some n) && (80 <? js_length n)%nat
     | None => false
     end.

(** the buttons, the selection prompt, the collector and the listener of
    ['end'] *)
Definition await_selection (requester : string)
  (availableGuilds : list GuildSetting.t) (clicks : list ButtonClick)
  : M Selection :=
  (if existsb button_refused availableGuilds then throw else ret tt) ;;;
  user_send DM_prompt_reply requester
    (SelectionPrompt
       (firstn 5 (map (fun g => ("guild_select_" ++ GuildSetting.guild_id g)%string)
                      availableGuilds))) ;;;
  st <- collect requester availableGuilds (mkSelection None None) None clicks ;;
  match selectedGuild st with
  | Some _ => ret st
  | None =>
      try_catch (user_send DM_timeout_reply requester SelectionTimeoutNotice)
                (ret tt) ;;;
      ret st
  end.

(** the query [{ user_id, status: 'open' }] *)
Definition open_ticket_of (user : string) (t : Ticket.t) : bool :=
  (Ticket.user_id t =? user) && Ticket.is_open t.

(** [ticketQuery]: [{ user_id, status: 'open' }] plus [guild_id] when the
    configuration has one *)
Definition ticketQuery (user : string) (cfg : GuildSetting.t) (t : Ticket.t) : bool :=
  open_ticket_of user t &&
  (if truthy (Some (GuildSetting.guild_id cfg))
   then same_id (Ticket.guild_id t) (GuildSetting.guild_id cfg)
   else true).

(** [Message.save()] of a new document *)
Definition Message_insert (c : Call) (m : Message.t) : M unit :=
  fallible c ;;; modify (fun w => with_messages w (messages w ++ [m])).

(** find or create the ticket of (sender, selected destination); [None]
    when the ticket could not be created and processing stops *)
Definition find_or_create (message : DirectMessage) (cfg : GuildSetting.t)
  : M (option Ticket.t) :=
  let user := u_id (author message) in
  found <- Ticket_findOne DM_ticket_findOne (ticketQuery user cfg) ;;
  match found with
  | Some t => ret (Some t)
  | None =>
      created <- createTicket (author message) (Some cfg) ;;
      match created with
      | None => user_send DM_reply user CreateFailedNotice ;;; ret None
      | Some t =>
          user_send DM_created_reply user (TicketCreatedNotice (Ticket._id t)) ;;;
          ret (Some t)
      end
  end.

(** resolve the channel of the ticket; when the fetch rejects, the
    recovery path: "Creating new channel for existing ticket..." *)
Definition resolve_channel (message : DirectMessage) (ticket : Ticket.t)
  : M (option Channel) :=
  try_catch
    (c <- channels_fetch DM_channel_fetch (Ticket.channel_id ticket) ;;
     ret (Some c))
    (newTicket <- createTicket (author message) None ;;
     match newTicket with
     | Some nt =>
         Ticket_save DM_recover_save
           (Ticket.set_channel_id ticket (Ticket.channel_id nt)) ;;;
         c <- channels_fetch DM_recover_fetch (Ticket.channel_id nt) ;;
         ret (Some c)
     | None => ret None
     end).

(** forward the message into the channel, record it, acknowledge *)
Definition relay (message : DirectMessage) (ticket : Ticket.t) (channel : Channel)
  : M unit :=
  let user := u_id (author message) in
  channel_send DM_relay_send channel (RelayedContent (content message)) ;;;
  oid <- fresh_oid ;;
  w <- get ;;
  Message_insert DM_message_save
    (Message.mk oid (Ticket._id ticket) user (content message)
                (attachments message) (now w) false) ;;;
  try_catch (user_send DM_react user ReactOk) (ret tt).

(** from [if (!guildConfigForDM)] to the end of [handleDM] *)
Definition route (message : DirectMessage) (guildConfigForDM : option GuildSetting.t)
  : M unit :=
  let user := u_id (author message) in
  match guildConfigForDM with
  | None => user_send DM_reply user NoServersNotice
  | Some cfg =>
      ticket <- find_or_create message cfg ;;
      match ticket with
      | None => ret tt
      | Some ticket =>
          channel <- resolve_channel message ticket ;;
          match channel with
          | None => user_send DM_reply user RelayErrorNotice
          | Some channel => relay message ticket channel
          end
      end
  end.

(** the destination selector: [None] when processing of the message stops
    here, [Some cfg] when it goes on with [guildConfigForDM = cfg] *)
Definition select_destination (message : DirectMessage)
  (availableGuilds : list GuildSetting.t) (clicks : list ButtonClick)
  : M (option (option GuildSetting.t)) :=
  let user := u_id (author message) in
  if (1 <? List.length availableGuilds)%nat then
    existingTicket <- Ticket_findOne DM_sticky_findOne (open_ticket_of user) ;;
    match existingTicket with
    | Some e =>
        ret (Some (find (fun g => same_id (Ticket.guild_id e) (GuildSetting.guild_id g))
                        availableGuilds))
    | None =>
        st <- await_selection user availableGuilds clicks ;;
        match selectedGuild st with
        | None => ret None
        | Some _ => ret (Some (guildConfigForDM st))
        end
    end
  else ret (Some (hd_error availableGuilds)).

Definition handleDM (message : DirectMessage) (clicks : list ButtonClick) : M unit :=
  let user := u_id (author message) in
  blocked <- BlockedUser_findOne DM_blocked_findOne user ;;
  match blocked with
  | Some b =>
      let reason :=
        match or_else (BlockedUser.reason b) (Some "No reason provided") with
        | Some r => r
        | None => ""
        end in
      (* [addFields] throws when the value has more than 1024 characters *)
      if (1024 <? js_length reason)%nat then throw
      else user_send DM_reply user (BlockedNotice reason)
  | None =>
      userGuilds <- bot_guild_ids ;;
      if (List.length userGuilds =? 0)%nat then
        user_send DM_reply user NotConfiguredNotice
      else
        configured <- GuildSetting_find_or_empty ;;
        let availableGuilds := filter_available userGuilds configured in
        if (List.length availableGuilds =? 0)%nat then
          user_send DM_reply user NotAMemberNotice
        else
          sel <- select_destination message availableGuilds clicks ;;
          match sel with
          | None => ret tt
          | Some cfg => route message cfg
          end
  end.

(** ** Chat-side buttons *)

(** a button interaction in a guild channel: [interaction.user],
    [interaction.channel] and [interaction.customId]; [interaction.guild]
    is the guild of the channel *)
Record Interaction := mkInteraction {
  i_user : User;
  i_channel : Channel;
  i_customId : string
}.

(** the query [{ user_id: interaction.channel.topic, status: 'open' }] *)
Definition open_ticket_of_topic (topic : option string) (t : Ticket.t) : bool :=
  same_id topic (Ticket.user_id t) && Ticket.is_open t.

Definition handleCloseTicket (interaction : Interaction) : M unit :=
  let userId := ch_topic (i_channel interaction) in
  let staff := u_id (i_user interaction) in
  ticket <- Ticket_findOne HC_findOne (open_ticket_of_topic userId) ;;
  match ticket with
  | None => interaction_reply HC_not_found_reply staff CloseNotFoundNotice
  | Some ticket =>
      interaction_reply HC_closing_reply staff ClosingNotice ;;;
      try_catch
        (fallible HC_user_fetch ;;;
         user_send HC_user_send (Ticket.user_id ticket)
           (ClosedByStaffNotice (Ticket._id ticket)))
        (ret tt) ;;;
      w <- get ;;
      Ticket_save HC_save (Ticket.close ticket (now w) staff) ;;;
      (if truthy (LOG_CHANNEL_ID env)
       then match guild_channels_cache_get w (ch_guild (i_channel interaction))
                    (LOG_CHANNEL_ID env) with
            | Some logChannel =>
                channel_send HC_log_send logChannel (LogClosedNotice (Ticket._id ticket))
            | None => ret tt
            end
       else ret tt) ;;;
      modify (fun w => with_timers w (timers w ++ [ch_id (i_channel interaction)]))
  end.

(** the callback of [setTimeout(..., 5000)] for the oldest scheduled deletion *)
Definition fire_timer : M unit :=
  w <- get ;;
  match timers w with
  | [] => ret tt
  | id :: rest =>
      modify (fun w => with_timers w rest) ;;;
      try_catch (channel_delete HC_channel_delete id) (ret tt)
  end.

Definition handleClaimTicket (interaction : Interaction) : M unit :=
  let userId := ch_topic (i_channel interaction) in
  let staff := u_id (i_user interaction) in
  ticket <- Ticket_findOne HK_findOne (open_ticket_of_topic userId) ;;
  match ticket with
  | None => interaction_reply HK_not_found_reply staff ClaimNotFoundNotice
  | Some ticket =>
      if truthy (Ticket.claimed_by ticket) then
        interaction_reply HK_claimed_reply staff
          (AlreadyClaimedNotice (match Ticket.claimed_by ticket with
                                 | Some s => s
                                 | None => ""
                                 end))
      else
        w <- get ;;
        Ticket_save HK_save (Ticket.claim ticket (now w) staff) ;;;
        interaction_reply HK_reply staff (ClaimedNotice staff)
  end.

(** [client.on('interactionCreate', ...)] for a button *)
Definition interactionCreate (interaction : Interaction) : M unit :=
  try_catch
    (if i_customId interaction =? "close_ticket" then handleCloseTicket interaction
     else if i_customId interaction =? "claim_ticket" then handleClaimTicket interaction
     else ret tt)
    (try_catch
       (interaction_reply IC_error_reply (u_id (i_user interaction)) ButtonErrorNotice)
       (ret tt)).

(** ** Dashboard *)

(** [req.session.user.id], [req.params.id] and [req.body.content] *)
Record Request := mkRequest {
  session_user : option string;
  params_id : nat;
  body_content : option string
}.

Inductive Response :=
| Redirect (location : string)
| Send (code : nat) (text : string)
| JsonSuccess
| JsonError (code : nat) (error : string).

Definition isAuthenticated (req : Request) (next : M Response) : M Response :=
  match session_user req with
  | Some _ => next
  | None => ret (Redirect "/login")
  end.

(** the decision of [isStaff]: [None] when it calls [next()], otherwise the
    response it sends *)
Definition isStaff_decision (req : Request) : M (option Response) :=
  match session_user req with
  | None => ret (Some (Redirect "/login"))
  | Some id =>
      try_catch
        (w <- get ;;
         match guilds_cache_get w (GUILD_ID env) with
         | None => ret (Some (Send 500 "Guild not found"))
         | Some guild =>
             member <- members_fetch_or_null API_member_fetch guild id ;;
             match member with
             | None => ret (Some (Send 403 "You are not a member of the server"))
             | Some member =>
                 if has (m_roles member) (STAFF_ROLE_ID env) || m_administrator member
                 then ret None
                 else ret (Some (Send 403 "Access denied. Staff role required."))
             end
         end)
        (ret (Some (Send 500 "Error verifying permissions")))
  end.

(** [isStaffInGuild(guildId, userId)]: staff of one destination, by that
    destination's own configuration; used by the ticket view *)
Definition isStaffInGuild (guildId : option string) (userId : string) : M bool :=
  try_catch
    (w <- get ;;
     match guilds_cache_get w guildId with
     | None => ret false
     | Some guild =>
         member <- members_fetch_or_null SG_member_fetch guild userId ;;
         match member with
         | None => ret false
         | Some member =>
             fallible SG_findOne ;;;
             let guildSetting :=
               find (fun g => same_id guildId (GuildSetting.guild_id g))
                    (guildsettings w) in
             let staffRoleId :=
               or_else (match guildSetting with
                        | Some g => GuildSetting.staff_role_id g
                        | None => None
                        end) (STAFF_ROLE_ID env) in
             ret (has (m_roles member) staffRoleId || m_administrator member)
         end
     end)
    (ret false).

Definition isStaff (req : Request) (next : M Response) : M Response :=
  d <- isStaff_decision req ;;
  match d with
  | Some response => ret response
  | None => next
  end.

(** [req.session.user.id] inside a handler *)
Definition session_user_id (req : Request) : M string :=
  match session_user req with
  | Some id => ret id
  | None => throw
  end.

(** [client.channels.fetch(id).catch(() => null)] *)
Definition channels_fetch_or_null (c : Call) (id : string) : M (option Channel) :=
  try_catch (ch <- channels_fetch c id ;; ret (Some ch)) (ret None).

(** the route handler of ['/api/ticket/:id/close'] *)
Definition close_handler (req : Request) : M Response :=
  try_catch
    (ticket <- Ticket_findById API_findById (params_id req) ;;
     match ticket with
     | None => ret (JsonError 404 "Ticket not found")
     | Some ticket =>
         if Status_eqb (Ticket.status ticket) closed
         then ret (JsonError 400 "Ticket already closed")
         else
           channel <- channels_fetch_or_null API_channel_fetch
                        (Ticket.channel_id ticket) ;;
           match channel with
           | Some ch => channel_delete API_channel_delete (ch_id ch)
           | None => ret tt
           end ;;;
           staff <- session_user_id req ;;
           w <- get ;;
           Ticket_save API_save (Ticket.close ticket (now w) staff) ;;;
           try_catch
             (fallible API_user_fetch ;;;
              user_send API_user_send (Ticket.user_id ticket)
                ClosedViaDashboardNotice)
             (ret tt) ;;;
           ret JsonSuccess
     end)
    (ret (JsonError 500 "Failed to close ticket")).

(** the route handler of ['/api/ticket/:id/delete'] *)
Definition delete_handler (req : Request) : M Response :=
  try_catch
    (ticket <- Ticket_findById API_findById (params_id req) ;;
     match ticket with
     | None => ret (JsonError 404 "Ticket not found")
     | Some ticket =>
         channel <- channels_fetch_or_null API_channel_fetch
                      (Ticket.channel_id ticket) ;;
         match channel with
         | Some ch => channel_delete API_channel_delete (ch_id ch)
         | None => ret tt
         end ;;;
         fallible API_deleteMany ;;;
         modify (fun w => with_messages w
                   (filter (fun m => negb (Nat.eqb (Message.ticket_id m)
                                                   (Ticket._id ticket)))
                           (messages w))) ;;;
         fallible API_findByIdAndDelete ;;;
         modify (fun w => with_tickets w
                   (filter (fun t => negb (Nat.eqb (Ticket._id t) (params_id req)))
                           (tickets w))) ;;;
         ret JsonSuccess
     end)
    (ret (JsonError 500 "Failed to delete ticket")).

(** the route handler of ['/api/ticket/:id/claim'] *)
Definition claim_handler (req : Request) : M Response :=
  try_catch
    (ticket <- Ticket_findById API_findById (params_id req) ;;
     match ticket with
     | None => ret (JsonError 404 "Ticket not found")
     | Some ticket =>
         staff <- session_user_id req ;;
         w <- get ;;
         Ticket_save API_save (Ticket.claim ticket (now w) staff) ;;;
         ret JsonSuccess
     end)
    (ret (JsonError 500 "Failed to claim ticket")).






(** [app.post(path, isAuthenticated, isStaff, handler)] *)
Definition post (handler : Request -> M Response) (req : Request) : M Response :=
  isAuthenticated req (isStaff req (handler req)).

Definition api_ticket_close := post close_handler.
Definition api_ticket_claim := post claim_handler.

End Engine.

(** * Vocabulary and situations *)

(** ** Vocabulary of the specification *)

(** [t] is an open ticket of the pair (user, destination) *)
Definition open_for (user guild : string) (t : Ticket.t) : bool :=
  (Ticket.user_id t =? user) && same_id (Ticket.guild_id t) guild && Ticket.is_open t.

(** the uniqueness invariant of the Ticket collection *)
Definition at_most_one_open (ts : list Ticket.t) : Prop :=
  forall user guild, (List.length (filter (open_for user guild) ts) <= 1)%nat.

(** the destination a click selects, if it is pressed by the requester on
    a button that names one of the offered destinations *)
Definition picks (requester : string) (availableGuilds : list GuildSetting.t)
  (i : ButtonClick) : option GuildSetting.t :=
  if click_user i =? requester
  then find (fun g => GuildSetting.guild_id g
                      =? replace "guild_select_" "" (click_customId i))
            availableGuilds
  else None.

(** the conditions under which [handleDM] shows the selection prompt: the
    sender is not blocked, more than one configured destination is left
    after the filter, the sender has no open ticket, every button can be
    built (a custom id of at most 100 characters, a label of at most 80),
    and the reads and the prompt itself go through *)
Definition presents_choice (faults : Faults) (message : DirectMessage) (w : World)
  : Prop :=
  faults DM_blocked_findOne = false /\
  find (fun b => BlockedUser.user_id b =? u_id (author message)) (blockedusers w) = None /\
  faults DM_guilds_fetch = false /\
  faults DM_settings_find = false /\
  (1 < List.length (filter_available (map g_id (guilds w)) (guildsettings w)))%nat /\
  faults DM_sticky_findOne = false /\
  find (open_ticket_of (u_id (author message))) (tickets w) = None /\
  (forall g, In g (filter_available (map g_id (guilds w)) (guildsettings w)) ->
             (13 + js_length (GuildSetting.guild_id g) <= 100)%nat) /\
  (forall g n, In g (filter_available (map g_id (guilds w)) (guildsettings w)) ->
               GuildSetting.name g = Some n -> (js_length n <= 80)%nat) /\
  faults DM_prompt_reply = false.

(** what the Authorization Resolver of the dashboard computes: staff role
    of the process-wide configuration, or administrator, in the guild
    [GUILD_ID] *)
Definition main_guild_staff (env : Env) (w : World) (user : string) : bool :=
  match guilds_cache_get w (GUILD_ID env) with
  | Some guild =>
      match find (fun m => m_user m =? user) (g_members guild) with
      | Some member => has (m_roles member) (STAFF_ROLE_ID env) || m_administrator member
      | None => false
      end
  | None => false
  end.

(** a response that refuses the request *)
Definition denied (r : Response) : bool :=
  match r with
  | Redirect _ => true
  | Send code _ => (Nat.eqb code 403) || (Nat.eqb code 500)
  | _ => false
  end.

(** [user] is a member of [guild] *)
Definition is_member (w : World) (guild user : string) : bool :=
  match guilds_cache_get w (Some guild) with
  | Some g => existsb (fun m => m_user m =? user) (g_members g)
  | None => false
  end.


(** ** Concrete situations *)

Module Scenario.

(** main guild G1 with process-wide staff role R1, no log channel *)
Definition env1 : Env := mkEnv (Some "G1") (Some "R1") None None.

(** the same with a log channel L *)
Definition env_log : Env := mkEnv (Some "G1") (Some "R1") None (Some "L").

Definition cfg1 : GuildSetting.t :=
  GuildSetting.mk "G1" (Some "One") None None None true 0.

Definition cfg2 : GuildSetting.t :=
  GuildSetting.mk "G2" (Some "Two") None (Some "R2") None false 0.

Definition alice : User := mkUser "U" "alice".
Definition hello : DirectMessage := mkDirectMessage alice "Hello" [].

(** nobody but the bot is in G1 *)
Definition guild1 : Guild := mkGuild "G1" [].

(** G1 with staff member S1 (role R1); G2 with member S2 holding G2's
    configured staff role R2 *)
Definition guild1_staffed : Guild := mkGuild "G1" [mkMember "S1" ["R1"] false].
Definition guild2_staffed : Guild := mkGuild "G2" [mkMember "S2" ["R2"] false].

Definition ticket (id : nat) (guild channel : string) (s : Status) : Ticket.t :=
  Ticket.mk id "U" (Some guild) channel s 5
            (match s with open => None | closed => Some 9%Z end)
            (match s with open => None | closed => Some "S1" end)
            None None normal None [].

Definition world (ts : list Ticket.t) (ms : list Message.t)
  (cfgs : list GuildSetting.t) (gs : list Guild) (cs : list Channel) : World :=
  mkWorld ts ms cfgs [] gs cs 10 100 50 [] [].

(** one destination; alice's open ticket 1 is bound to channel c1, which
    no longer exists *)
Definition w_drift : World :=
  world [ticket 1 "G1" "c1" open] [] [cfg1] [guild1] [].

(** two destinations, G1 the default; alice's open ticket 1 belongs to G2,
    has one recorded message, and its channel c9 no longer exists *)
Definition w_drift2 : World :=
  world [ticket 1 "G2" "c9" open]
        [Message.mk 2 1 "U" "earlier" [] 6 false]
        [cfg1; cfg2] [guild1; mkGuild "G2" []] [].

(** one configured destination the bot is in; alice is not a member *)
Definition w_stranger : World := world [] [] [cfg1] [guild1] [].

(** two configured destinations, no ticket yet *)
Definition w_two : World :=
  world [] [] [cfg1; cfg2] [guild1; mkGuild "G2" []] [].

(** presses on the prompt; the reply to each settles 400 ms after it *)
Definition click_foreign : ButtonClick := mkButtonClick 10 410 "X" "guild_select_G1".
Definition click_G2 : ButtonClick := mkButtonClick 20 420 "U" "guild_select_G2".
Definition click_G1 : ButtonClick := mkButtonClick 30 430 "U" "guild_select_G1".
Definition click_G1_after : ButtonClick := mkButtonClick 500 900 "U" "guild_select_G1".
Definition click_last : ButtonClick := mkButtonClick 59999 60399 "U" "guild_select_G2".
Definition click_late : ButtonClick := mkButtonClick 60000 60400 "U" "guild_select_G2".

(** ticket 1 is open and already claimed by staff A *)
Definition claimed_by_A : Ticket.t :=
  Ticket.claim (ticket 1 "G1" "c1" open) 7 "A".

Definition channel_c1 : Channel := mkChannel "c1" "G1" (Some "U") None.
Definition channel_c2 : Channel := mkChannel "c2" "G2" (Some "U") None.

Definition w_claimed : World :=
  world [claimed_by_A] [] [cfg1]
        [mkGuild "G1" [mkMember "B" ["R1"] false]] [channel_c1].

(** staff B asks the dashboard for ticket 1 *)
Definition request_by (staff : string) : Request := mkRequest (Some staff) 1 None.

(** staff pressing a button in a channel *)
Definition press (staff : string) (ch : Channel) (customId : string) : Interaction :=
  mkInteraction (mkUser staff staff) ch customId.

(** ticket 1 is open, its channel c1 exists *)
Definition w_open : World :=
  world [ticket 1 "G1" "c1" open] [] [cfg1] [guild1_staffed] [channel_c1].

(** the platform refuses to delete channels *)
Definition delete_refused : Faults :=
  fun c => match c with
           | API_channel_delete | HC_channel_delete => true
           | _ => false
           end.

(** ticket 1 (G1, channel c1) is closed and its channel is still there;
    alice's ticket 2 (G2, channel c2) is open *)
Definition w_closed_and_open : World :=
  world [ticket 1 "G1" "c1" closed; ticket 2 "G2" "c2" open] []
        [cfg1; cfg2] [guild1_staffed; guild2_staffed] [channel_c1; channel_c2].

(** alice has open tickets in both destinations *)
Definition w_two_open : World :=
  world [ticket 1 "G1" "c1" open; ticket 2 "G2" "c2" open] []
        [cfg1; cfg2] [guild1_staffed; guild2_staffed] [channel_c1; channel_c2].

(** an open ticket of another user, V, stored before alice's two *)
Definition ticket_of_V : Ticket.t :=
  Ticket.mk 7 "V" (Some "G1") "c7" open 4 None None None None normal None [].

Definition w_three_open : World :=
  world [ticket_of_V; ticket 1 "G1" "c1" open; ticket 2 "G2" "c2" open] []
        [cfg1; cfg2] [guild1_staffed; guild2_staffed] [channel_c1; channel_c2].

(** one destination with its log channel L; the bot cannot post in L *)
Definition w_log : World :=
  world [] [] [cfg1] [guild1] [mkChannel "L" "G1" None None].

Definition log_refused : Faults :=
  fun c => match c with
           | CT_log_send => true
           | _ => false
           end.

(** ticket 1 belongs to G2; S1 is staff of the main guild G1 only, S2 is
    staff of G2 only *)
Definition w_cross : World :=
  world [ticket 1 "G2" "c2" open] [] [cfg1; cfg2]
        [guild1_staffed; guild2_staffed] [channel_c2].

End Scenario.

(** * The rest of the program *)

(** The handlers below are the ones the routing engine does not call: the
    staff side of the relay, the read-only dashboard endpoints, the
    registration of destinations and the backfill script.  Their call
    sites have labels of their own. *)

Inductive Site :=
(* handleModMailChannel *)
| MM_findOne | MM_no_ticket_reply | MM_user_fetch | MM_no_user_reply
| MM_user_send | MM_react | MM_message_save | MM_failed_reply
(* GET /ticket/:id *)
| TV_findById | TV_messages_find
(* GET /api/tickets *)
| TL_guilds_fetch | TL_member_fetch | TL_settings_findOne | TL_find | TL_count
(* GET /api/stats *)
| ST_count
(* GET /dashboard *)
| DB_settings_find | DB_member_fetch | DB_query
(* isAdmin, POST /api/servers *)
| AD_member_fetch | AD_settings_find
| SV_guilds_fetch | SV_member_fetch | SV_updateMany | SV_findOne | SV_save
(* scripts/backfill_guild_id.js *)
| BF_default_findOne | BF_any_findOne | BF_updateMany.

Definition SiteFaults := Site -> bool.

Definition no_site_faults : SiteFaults := fun _ => false.

(** a call that rejects when told to *)
Definition failing (rejects : bool) : M unit :=
  fun w => if rejects then (Throw, w) else (Ok tt, w).

(** [guild.members.fetch(id).catch(() => null)] *)
Definition fetch_member_or_null (rejects : bool) (g : Guild) (id : string)
  : M (option Member) :=
  try_catch (failing rejects ;;; ret (find (fun m => m_user m =? id) (g_members g)))
            (ret None).

(** [client.guilds.fetch(id)]: rejects when the bot is not in the guild *)
Definition guilds_fetch (rejects : bool) (id : string) : M Guild :=
  failing rejects ;;;
  w <- get ;;
  match guilds_cache_get w (Some id) with
  | Some g => ret g
  | None => throw
  end.

(** what an endpoint answers: a payload, an error with its status code,
    the redirect to the login page, or the refusal of [isStaff] *)
Inductive Answer (A : Type) :=
| Payload (a : A)
| Failure (code : nat) (error : string)
| ToLogin
| Refused (r : Response).
Arguments Payload {A} a.
Arguments Failure {A} code error.
Arguments ToLogin {A}.
Arguments Refused {A} r.

(** ** handleModMailChannel *)

(** a message posted in a guild channel: [message.author],
    [message.author.bot], [message.channel], [message.content] and the
    urls of [message.attachments] *)
Record ChannelMessage := mkChannelMessage {
  cm_author : User;
  cm_author_bot : bool;
  cm_channel : Channel;
  cm_content : string;
  cm_attachments : list string
}.

(** the replies the handler posts in the staff channel *)
Inductive StaffReply :=
| NoOpenTicketWarning
| CouldNotFindUser
| FailedToSend.

(** what the [try] block of the handler leaves: the replies that were
    delivered, or a reply whose promise was returned without [await] *)
Inductive Returned :=
| Settled (replies : list StaffReply)
| ReplyPending (site : Site) (reply : StaffReply).

(** the query [{ channel_id: message.channel.id, status: 'open' }] *)
Definition open_ticket_of_channel (channel : string) (t : Ticket.t) : bool :=
  (Ticket.channel_id t =? channel) && Ticket.is_open t.

Section Rest.

Variable env : Env.
Variable faults : Faults.
Variable sites : SiteFaults.

(** [handleModMailChannel(message)]; the value is the list of replies that
    were delivered in the channel.  The two warnings are sent by
    [return message.reply(...)]: the promise leaves the [try] block
    unawaited, so its rejection is not caught there and rejects the
    handler. *)
Definition handleModMailChannel (message : ChannelMessage) : M (list StaffReply) :=
  if cm_author_bot message then ret []
  else
    let userId := ch_topic (cm_channel message) in
    if negb (truthy userId) then ret []
    else
      returned <-
        try_catch
          (failing (sites MM_findOne) ;;;
           w <- get ;;
           match find (open_ticket_of_channel (ch_id (cm_channel message))) (tickets w) with
           | None => ret (ReplyPending MM_no_ticket_reply NoOpenTicketWarning)
           | Some ticket =>
               if sites MM_user_fetch then
                 ret (ReplyPending MM_no_user_reply CouldNotFindUser)
               else
                 failing (sites MM_user_send) ;;;
                 emit (ToUser (match userId with Some u => u | None => "" end)
                              (RelayedContent (cm_content message))) ;;;
                 failing (sites MM_react) ;;;
                 emit (ToChannel (ch_id (cm_channel message)) ReactOk) ;;;
                 oid <- fresh_oid ;;
                 w <- get ;;
                 failing (sites MM_message_save) ;;;
                 modify (fun w => with_messages w
                           (messages w ++
                            [Message.mk oid (Ticket._id ticket)
                                        (u_id (cm_author message)) (cm_content message)
                                        (cm_attachments message) (now w) true])) ;;;
                 ret (Settled [])
           end)
          (try_catch (failing (sites MM_failed_reply) ;;; ret (Settled [FailedToSend]))
                     (ret (Settled []))) ;;
      match returned with
      | Settled replies => ret replies
      | ReplyPending site reply => failing (sites site) ;;; ret [reply]
      end.

(** ** GET /ticket/:id *)

Inductive TicketView :=
| TicketPage (ticket : Ticket.t) (messages : list Message.t) (isStaff : bool)
| ViewError (code : nat) (text : string)
| ViewLogin.

(** [app.get('/ticket/:id', isAuthenticated, ...)]; [sort_by_timestamp] is
    the store's [.sort({ timestamp: 1 })] *)
Definition ticket_view (sort_by_timestamp : list Message.t -> list Message.t)
  (req : Request) : M TicketView :=
  match session_user req with
  | None => ret ViewLogin
  | Some viewer =>
      try_catch
        (failing (sites TV_findById) ;;;
         w <- get ;;
         match find (fun t => Nat.eqb (Ticket._id t) (params_id req)) (tickets w) with
         | None => ret (ViewError 404 "Ticket not found")
         | Some ticket =>
             let guildForTicket := or_else (Ticket.guild_id ticket) (GUILD_ID env) in
             isUserStaff <- isStaffInGuild env faults guildForTicket viewer ;;
             if negb isUserStaff && negb (Ticket.user_id ticket =? viewer)
             then ret (ViewError 403 "You do not have permission to view this ticket")
             else
               failing (sites TV_messages_find) ;;;
               w <- get ;;
               ret (TicketPage ticket
                      (sort_by_timestamp
                         (filter (fun m => Nat.eqb (Message.ticket_id m) (Ticket._id ticket))
                                 (messages w)))
                      isUserStaff)
         end)
        (ret (ViewError 500 "Error loading ticket"))
  end.

(** ** GET /api/tickets *)

(** [req.session.user.id], [req.query.guild_id], and the values of
    [parseInt(req.query.page)] and [parseInt(req.query.limit)], [None]
    standing for [NaN] *)
Record TicketsRequest := mkTicketsRequest {
  tr_session_user : option string;
  tr_guild_id : option string;
  tr_page : option Z;
  tr_limit : option Z
}.

Record TicketsPage := mkTicketsPage {
  tp_tickets : list Ticket.t;
  tp_total : nat;
  tp_page : Z;
  tp_limit : Z
}.

(** [x || d] on a number: [NaN] and [0] are falsy *)
Definition number_or (x : option Z) (d : Z) : Z :=
  match x with
  | Some 0%Z | None => d
  | Some v => v
  end.

(** [Math.max(1, parseInt(req.query.page) || 1)] *)
Definition page_of (r : TicketsRequest) : Z := Z.max 1 (number_or (tr_page r) 1).

(** [Math.min(100, Math.max(1, parseInt(req.query.limit) || 10))] *)
Definition limit_of (r : TicketsRequest) : Z :=
  Z.min 100 (Z.max 1 (number_or (tr_limit r) 10)).

(** [app.get('/api/tickets', isAuthenticated, ...)];
    [sort_by_created_desc] is the store's [.sort({ created_at: -1 })] *)
Definition api_tickets (sort_by_created_desc : list Ticket.t -> list Ticket.t)
  (r : TicketsRequest) : M (Answer TicketsPage) :=
  match tr_session_user r with
  | None => ret ToLogin
  | Some viewer =>
      try_catch
        (if negb (truthy (tr_guild_id r)) then ret (Failure 400 "guild_id required")
         else
           let guildId := match tr_guild_id r with Some g => g | None => "" end in
           fetched <- try_catch (g <- guilds_fetch (sites TL_guilds_fetch) guildId ;;
                                 ret (Some g))
                                (ret None) ;;
           match fetched with
           | None => ret (Failure 400 "Guild not available to bot")
           | Some guild =>
               member <- fetch_member_or_null (sites TL_member_fetch) guild viewer ;;
               w <- get ;;
               let cfg :=
                 if sites TL_settings_findOne then None
                 else find (fun c => GuildSetting.guild_id c =? guildId) (guildsettings w) in
               let staffRole :=
                 match cfg with
                 | Some c => GuildSetting.staff_role_id c
                 | None => None
                 end in
               let userIsAllowed :=
                 match member with
                 | Some m =>
                     m_administrator m || (truthy staffRole && has (m_roles m) staffRole)
                 | None => false
                 end in
               if negb userIsAllowed
               then ret (Failure 403 "You do not have permission to view tickets for this guild")
               else
                 let page := page_of r in
                 let limit := limit_of r in
                 let skip := ((page - 1) * limit)%Z in
                 failing (sites TL_find) ;;;
                 failing (sites TL_count) ;;;
                 w <- get ;;
                 let of_guild :=
                   filter (fun t => same_id (Ticket.guild_id t) guildId) (tickets w) in
                 ret (Payload (mkTicketsPage
                                 (firstn (Z.to_nat limit)
                                    (skipn (Z.to_nat skip) (sort_by_created_desc of_guild)))
                                 (List.length of_guild) page limit))
           end)
        (ret (Failure 500 "Failed to fetch tickets"))
  end.

(** ** GET /api/stats *)

Record Stats := mkStats {
  st_total : nat;
  st_open : nat;
  st_closed : nat;
  st_today : nat;
  st_thisWeek : nat;
  st_blocked : nat
}.

Definition count {A} (p : A -> bool) (l : list A) : nat := List.length (filter p l).

(** the body of the handler.  [start_of_day t] is the local midnight
    before [t], the value of [new Date(t).setHours(0, 0, 0, 0)].  The call
    [now.setHours(...)] also moves [now] itself to that midnight, so
    [weekAgo] is seven days before midnight. *)
Definition stats_handler (start_of_day : Z -> Z) : M (Answer Stats) :=
  try_catch
    (w <- get ;;
     let today := start_of_day (now w) in
     let weekAgo := (today - 7 * 24 * 60 * 60 * 1000)%Z in
     failing (sites ST_count) ;;;
     ret (Payload (mkStats
                     (List.length (tickets w))
                     (count (fun t => Status_eqb (Ticket.status t) open) (tickets w))
                     (count (fun t => Status_eqb (Ticket.status t) closed) (tickets w))
                     (count (fun t => (today <=? Ticket.created_at t)%Z) (tickets w))
                     (count (fun t => (weekAgo <=? Ticket.created_at t)%Z) (tickets w))
                     (List.length (blockedusers w)))))
    (ret (Failure 500 "Failed to fetch stats")).

(** [app.get('/api/stats', isAuthenticated, isStaff, ...)] *)
Definition api_stats (start_of_day : Z -> Z) (req : Request) : M (Answer Stats) :=
  match session_user req with
  | None => ret ToLogin
  | Some _ =>
      d <- isStaff_decision env faults req ;;
      match d with
      | Some response => ret (Refused response)
      | None => stats_handler start_of_day
      end
  end.

(** ** GET /dashboard *)

Record DashboardStats := mkDashboardStats {
  ds_total : nat;
  ds_open : nat;
  ds_closed : nat;
  ds_today : nat;
  ds_claimed : nat
}.

Record DashboardPage := mkDashboardPage {
  dp_openTickets : list Ticket.t;
  dp_closedTickets : list Ticket.t;
  dp_stats : DashboardStats;
  dp_isStaff : bool;
  dp_isAdmin : bool;
  dp_adminGuilds : list string;
  dp_staffGuilds : list string
}.

(** the loop over the configured guilds that fills [userGuilds.admin] and
    [userGuilds.staff] *)
Fixpoint classify_guilds (viewer : string) (configured : list GuildSetting.t)
  (admin staff : list string) : M (list string * list string) :=
  match configured with
  | [] => ret (admin, staff)
  | cfg :: rest =>
      w <- get ;;
      match guilds_cache_get w (Some (GuildSetting.guild_id cfg)) with
      | None => classify_guilds viewer rest admin staff
      | Some guild =>
          member <- fetch_member_or_null (sites DB_member_fetch) guild viewer ;;
          match member with
          | None => classify_guilds viewer rest admin staff
          | Some m =>
              if m_administrator m
              then classify_guilds viewer rest
                     (admin ++ [GuildSetting.guild_id cfg]) staff
              else if truthy (GuildSetting.staff_role_id cfg)
                      && has (m_roles m) (GuildSetting.staff_role_id cfg)
              then classify_guilds viewer rest admin
                     (staff ++ [GuildSetting.guild_id cfg])
              else classify_guilds viewer rest admin staff
          end
      end
  end.

(** [{ guild_id: { $in: guilds } }] *)
Definition guild_in (guilds : list string) (t : Ticket.t) : bool :=
  match Ticket.guild_id t with
  | Some g => includes guilds g
  | None => false
  end.

(** [app.get('/dashboard', isAuthenticated, ...)]; the two sorts are the
    store's [.sort({ created_at: -1 })] and [.sort({ closed_at: -1 })] *)
Definition dashboard (start_of_day : Z -> Z)
  (sort_by_created_desc sort_by_closed_desc : list Ticket.t -> list Ticket.t)
  (req : Request) : M (Answer DashboardPage) :=
  match session_user req with
  | None => ret ToLogin
  | Some viewer =>
      try_catch
        (w <- get ;;
         let configured :=
           if sites DB_settings_find then [] else guildsettings w in
         userGuilds <- classify_guilds viewer configured [] [] ;;
         let allUserGuilds := (fst userGuilds ++ snd userGuilds)%list in
         let isUserStaff := (0 <? List.length allUserGuilds)%nat in
         let isUserAdmin := (0 <? List.length (fst userGuilds))%nat in
         failing (sites DB_query) ;;;
         w <- get ;;
         let today := start_of_day (now w) in
         let mine t := Ticket.user_id t =? viewer in
         let theirs := guild_in allUserGuilds in
         let is_open t := Status_eqb (Ticket.status t) open in
         let is_closed t := Status_eqb (Ticket.status t) closed in
         let since_today t := (today <=? Ticket.created_at t)%Z in
         if negb isUserStaff then
           let openTickets :=
             firstn 10 (sort_by_created_desc
                          (filter (fun t => mine t && is_open t) (tickets w))) in
           let closedTickets :=
             firstn 10 (sort_by_closed_desc
                          (filter (fun t => mine t && is_closed t) (tickets w))) in
           ret (Payload (mkDashboardPage openTickets closedTickets
                           (mkDashboardStats
                              (count mine (tickets w))
                              (List.length openTickets)
                              (count (fun t => mine t && is_closed t) (tickets w))
                              (count (fun t => mine t && since_today t) (tickets w))
                              0)
                           isUserStaff isUserAdmin (fst userGuilds) (snd userGuilds)))
         else
           let openTickets :=
             firstn 20 (sort_by_created_desc
                          (filter (fun t => theirs t && is_open t) (tickets w))) in
           let closedTickets :=
             firstn 50 (sort_by_closed_desc
                          (filter (fun t => theirs t && is_closed t) (tickets w))) in
           ret (Payload (mkDashboardPage openTickets closedTickets
                           (mkDashboardStats
                              (count theirs (tickets w))
                              (count (fun t => theirs t && is_open t) (tickets w))
                              (count (fun t => theirs t && is_closed t) (tickets w))
                              (count (fun t => theirs t && since_today t) (tickets w))
                              (count (fun t => theirs t
                                               && match Ticket.claimed_by t with
                                                  | Some _ => true
                                                  | None => false
                                                  end
                                               && is_open t) (tickets w)))
                           isUserStaff isUserAdmin (fst userGuilds) (snd userGuilds))))
        (ret (Failure 500 "Error loading dashboard"))
  end.

(** ** isAdmin and POST /api/servers *)

Definition is_administrator (m : option Member) : bool :=
  match m with
  | Some m => m_administrator m
  | None => false
  end.

(** the loop of [isAdmin] over the configured guilds *)
Fixpoint administers_one (viewer : string) (configured : list GuildSetting.t)
  : M bool :=
  match configured with
  | [] => ret false
  | cfg :: rest =>
      w <- get ;;
      match guilds_cache_get w (Some (GuildSetting.guild_id cfg)) with
      | None => administers_one viewer rest
      | Some guild =>
          member <- fetch_member_or_null (sites AD_member_fetch) guild viewer ;;
          if is_administrator member then ret true
          else administers_one viewer rest
      end
  end.

(** the decision of [isAdmin]: [None] when it calls [next()], otherwise the
    status code and the error it sends *)
Definition isAdmin_decision (req : Request) : M (option (nat * string)) :=
  match session_user req with
  | None => ret (Some (401, "Not authenticated"))
  | Some viewer =>
      try_catch
        (w <- get ;;
         main <-
           match guilds_cache_get w (GUILD_ID env) with
           | Some mainGuild =>
               member <- fetch_member_or_null (sites AD_member_fetch) mainGuild viewer ;;
               ret (is_administrator member)
           | None => ret false
           end ;;
         if main then ret None
         else
           failing (sites AD_settings_find) ;;;
           w <- get ;;
           found <- administers_one viewer (guildsettings w) ;;
           if found then ret None
           else ret (Some (403, "Admin access required in at least one configured guild")))
        (ret (Some (500, "Failed to verify admin permissions")))
  end.

(** [req.body] of the registration *)
Record ServerForm := mkServerForm {
  sf_guild_id : option string;
  sf_name : option string;
  sf_modmail_category_id : option string;
  sf_staff_role_id : option string;
  sf_log_channel_id : option string;
  sf_is_default : bool
}.

(** what the platform knows and the world does not record: the roles of
    each guild and the channels of each guild whose type is
    [GuildCategory], as (guild id, id) pairs *)
Record Directory := mkDirectory {
  dir_roles : list (string * string);
  dir_categories : list (string * string)
}.

Definition listed (l : list (string * string)) (guild id : string) : bool :=
  existsb (fun p => (fst p =? guild) && (snd p =? id)) l.

(** [GuildSetting.updateMany({}, { $set: { is_default: false } })] *)
Definition clear_default (c : GuildSetting.t) : GuildSetting.t :=
  GuildSetting.mk (GuildSetting.guild_id c) (GuildSetting.name c)
    (GuildSetting.modmail_category_id c) (GuildSetting.staff_role_id c)
    (GuildSetting.log_channel_id c) false (GuildSetting.created_at c).

Definition with_guildsettings (w : World) (l : list GuildSetting.t) : World :=
  mkWorld (tickets w) (messages w) l (blockedusers w) (guilds w)
          (channels w) (next_oid w) (next_snowflake w) (now w) (timers w) (outbox w).

(** the route handler of [POST /api/servers] *)
Definition register_server (dir : Directory) (viewer : string) (form : ServerForm)
  : M (Answer GuildSetting.t) :=
  try_catch
    (if negb (truthy (sf_guild_id form)) then ret (Failure 400 "guild_id required")
     else
       let guild_id := match sf_guild_id form with Some g => g | None => "" end in
       fetched <- try_catch (g <- guilds_fetch (sites SV_guilds_fetch) guild_id ;;
                             ret (Some g))
                            (ret None) ;;
       match fetched with
       | None =>
           ret (Failure 400 "Bot is not a member of the specified guild or guild not found")
       | Some guild =>
           member <- fetch_member_or_null (sites SV_member_fetch) guild viewer ;;
           if negb (is_administrator member)
           then ret (Failure 403 "You must be an administrator in the target guild to register it")
           else if truthy (sf_staff_role_id form)
                   && negb (listed (dir_roles dir) (g_id guild)
                              (match sf_staff_role_id form with Some r => r | None => "" end))
           then ret (Failure 400 "staff_role_id not found in guild")
           else if truthy (sf_modmail_category_id form)
                   && negb (listed (dir_categories dir) (g_id guild)
                              (match sf_modmail_category_id form with
                               | Some c => c
                               | None => ""
                               end))
           then ret (Failure 400 "modmail_category_id is not a category channel in the guild")
           else
             (if sf_is_default form
              then failing (sites SV_updateMany) ;;;
                   modify (fun w => with_guildsettings w
                             (map clear_default (guildsettings w)))
              else ret tt) ;;;
             failing (sites SV_findOne) ;;;
             w <- get ;;
             match find (fun c => GuildSetting.guild_id c =? guild_id) (guildsettings w) with
             | Some _ => ret (Failure 400 "Server already exists")
             | None =>
                 let server :=
                   GuildSetting.mk guild_id (sf_name form) (sf_modmail_category_id form)
                     (sf_staff_role_id form) (sf_log_channel_id form)
                     (sf_is_default form) (now w) in
                 failing (sites SV_save) ;;;
                 modify (fun w => with_guildsettings w (guildsettings w ++ [server])) ;;;
                 ret (Payload server)
             end
       end)
    (ret (Failure 500 "Failed to create server")).

(** [app.post('/api/servers', isAuthenticated, isAdmin, ...)] *)
Definition api_servers_post (dir : Directory) (req : Request) (form : ServerForm)
  : M (Answer GuildSetting.t) :=
  match session_user req with
  | None => ret ToLogin
  | Some viewer =>
      d <- isAdmin_decision req ;;
      match d with
      | Some (code, error) => ret (Failure code error)
      | None => register_server dir viewer form
      end
  end.

(** ** scripts/backfill_guild_id.js *)

Definition with_guild_id (t : Ticket.t) (g : string) : Ticket.t :=
  Ticket.mk (Ticket._id t) (Ticket.user_id t) (Some g) (Ticket.channel_id t)
    (Ticket.status t) (Ticket.created_at t) (Ticket.closed_at t) (Ticket.closed_by t)
    (Ticket.claimed_by t) (Ticket.claimed_at t) (Ticket.priority t)
    (Ticket.category t) (Ticket.notes t).

(** [updateMany({ guild_id: { $exists: false } }, { $set: { guild_id } })] *)
Definition fill_guild_id (g : string) (t : Ticket.t) : Ticket.t :=
  match Ticket.guild_id t with
  | Some _ => t
  | None => with_guild_id t g
  end.

(** the script, from the first query on; the value is the exit code *)
Definition backfill_guild_id : M nat :=
  try_catch
    (w <- get ;;
     let byDefault :=
       if sites BF_default_findOne then None
       else find GuildSetting.is_default (guildsettings w) in
     let defaultGuild :=
       match byDefault with
       | Some c => Some c
       | None => if sites BF_any_findOne then None
                 else find (fun _ => true) (guildsettings w)
       end in
     let fallbackGuildId :=
       or_else (GUILD_ID env) (option_map GuildSetting.guild_id defaultGuild) in
     match fallbackGuildId with
     | Some g =>
         if truthy fallbackGuildId then
           failing (sites BF_updateMany) ;;;
           modify (fun w => with_tickets w (map (fill_guild_id g) (tickets w))) ;;;
           ret 0%nat
         else ret 1%nat
     | None => ret 1%nat
     end)
    (ret 1%nat).

End Rest.

(** ** Further concrete situations *)

Module Situation.

Definition mallory : BlockedUser.t := BlockedUser.mk "U" 1 (Some "S1") (Some "spam").

(** alice is blocked; one destination is configured *)
Definition w_blocked : World :=
  mkWorld [] [] [Scenario.cfg1] [mallory] [Scenario.guild1] [] 10 100 50 [] [].

(** the same with a stored reason of 1025 characters *)
Definition long_reason : string := string_of_list_ascii (repeat "x"%char 1025).

Definition w_blocked_at_length : World :=
  mkWorld [] [] [Scenario.cfg1]
    [BlockedUser.mk "U" 1 (Some "S1") (Some long_reason)] [Scenario.guild1] []
    10 100 50 [] [].

Definition second : DirectMessage := mkDirectMessage Scenario.alice "Anyone there?" [].

(** alice's open ticket 1 belongs to G3, which is not configured; G1 and
    G2 are *)
Definition w_stranded : World :=
  Scenario.world [Scenario.ticket 1 "G3" "c3" open] []
    [Scenario.cfg1; Scenario.cfg2] [Scenario.guild1; mkGuild "G2" []] [].

(** alice's open ticket 1 belongs to G2 and its channel c2 exists; G1 and
    G2 are configured *)
Definition w_sticky : World :=
  Scenario.world [Scenario.ticket 1 "G2" "c2" open] []
    [Scenario.cfg1; Scenario.cfg2] [Scenario.guild1; mkGuild "G2" []]
    [Scenario.channel_c2].

(** the reaction on the staff message is refused *)
Definition react_refused : SiteFaults :=
  fun s => match s with
           | MM_react => true
           | _ => false
           end.

(** the last step of the dashboard delete is refused *)
Definition ticket_delete_refused : Faults :=
  fun c => match c with
           | API_findByIdAndDelete => true
           | _ => false
           end.

(** midnight in UTC, one possible [start_of_day] *)
Definition utc_midnight (t : Z) : Z := (t - t mod 86400000)%Z.

(** an insertion sort by a key, largest first, and one smallest first:
    possible behaviours of the store's [.sort] *)
Fixpoint insert_desc {A} (key : A -> Z) (x : A) (l : list A) : list A :=
  match l with
  | [] => [x]
  | y :: l' => if (key y <=? key x)%Z then x :: y :: l' else y :: insert_desc key x l'
  end.

Definition sort_desc {A} (key : A -> Z) (l : list A) : list A :=
  fold_right (insert_desc key) [] l.

Definition sort_asc {A} (key : A -> Z) (l : list A) : list A :=
  sort_desc (fun x => (- key x)%Z) l.

Definition staff_says (text : string) : ChannelMessage :=
  mkChannelMessage (mkUser "S1" "staff") false Scenario.channel_c1 text [].

(** ticket 1 is open with channel c1 and two recorded messages; ticket 2
    has one *)
Definition w_history : World :=
  Scenario.world
    [Scenario.ticket 1 "G1" "c1" open; Scenario.ticket 2 "G1" "c2" closed]
    [Message.mk 3 1 "U" "a" [] 6 false; Message.mk 4 2 "U" "b" [] 7 false;
     Message.mk 5 1 "S1" "c" [] 8 true]
    [Scenario.cfg1] [Scenario.guild1_staffed] [Scenario.channel_c1].

(** ticket 1 was stored before tickets carried a guild id; ticket 2 has
    one *)
Definition legacy : Ticket.t :=
  Ticket.mk 1 "U" None "c1" open 5 None None None None normal None [].

Definition w_legacy : World :=
  Scenario.world [legacy; Scenario.ticket 2 "G2" "c2" open] []
    [Scenario.cfg1] [Scenario.guild1] [].

(** A is an administrator of G1 and of G3; G1 and G2 are configured, G1
    as the default, and G3 is not *)
Definition administrator : Member := mkMember "A" [] true.

Definition w_admin : World :=
  Scenario.world [] [] [Scenario.cfg1; Scenario.cfg2]
    [mkGuild "G1" [administrator]; Scenario.guild2_staffed; mkGuild "G3" [administrator]]
    [].

(** G3 has the role R3 and the category K3 *)
Definition directory : Directory := mkDirectory [("G3", "R3")] [("G3", "K3")].

Definition form_G3 : ServerForm :=
  mkServerForm (Some "G3") (Some "Three") (Some "K3") (Some "R3") None true.

Definition form_G1_again : ServerForm :=
  mkServerForm (Some "G1") (Some "One again") None None None true.

(** S2 holds the staff role of G2, where ticket 2 lives; ticket 1 lives
    in G1 and ticket 3, of user S2, in G1 as well *)
Definition w_desk : World :=
  Scenario.world
    [Scenario.ticket 1 "G1" "c1" open; Scenario.ticket 2 "G2" "c2" open;
     Ticket.mk 3 "S2" (Some "G1") "c3" open 6 None None None None normal None []]
    [] [Scenario.cfg1; Scenario.cfg2]
    [Scenario.guild1_staffed; Scenario.guild2_staffed] [].

(** S2 is an administrator of G2 only; G1 is the main guild *)
Definition w_admin_elsewhere : World :=
  Scenario.world [] [] [Scenario.cfg1; Scenario.cfg2]
    [Scenario.guild1_staffed; mkGuild "G2" [mkMember "S2" [] true]] [].

End Situation.

(** * Properties *)

(** ** What createTicket does to the store *)

Section Creation.

Variable env : Env.
Variable faults : Faults.

(** the block after the guild is known either saves nothing and throws, or
    saves exactly one open ticket of the user in that guild; in the second
    case it returns the ticket unless the log mirror rejected *)
Lemma open_ticket_in_outcome (user : User) (guildConfig : option GuildSetting.t)
  (guild : Guild) (w : World) :
  exists r w',
    open_ticket_in env faults user guildConfig guild w = (r, w') /\
    ((r = Throw /\ tickets w' = tickets w) \/
     (exists t,
         tickets w' = tickets w ++ [t] /\
         Ticket.user_id t = u_id user /\
         Ticket.guild_id t = Some (g_id guild) /\
         Ticket.status t = open /\
         (r = Ok t \/ (r = Throw /\ faults CT_log_send = true)))).
Proof.
  unfold open_ticket_in, channels_create, channel_send, fresh_oid, Ticket_insert,
    emit, modify, bind, get, ret, fallible.
  destruct (faults CT_channel_create);
    [do 2 eexists; split; [reflexivity | left; split; reflexivity]|].
  destruct (faults CT_intro_send);
    [do 2 eexists; split; [reflexivity | left; split; reflexivity]|].
  destruct (faults CT_ticket_save);
    [do 2 eexists; split; [reflexivity | left; split; reflexivity]|].
  cbn [tickets with_tickets with_next_oid with_outbox with_next_snowflake
       with_channels next_oid now channels].
  destruct (truthy (LOG_CHANNEL_ID env)).
  - match goal with
    | |- context [guild_channels_cache_get ?a ?b ?c] =>
        destruct (guild_channels_cache_get a b c)
    end.
    + destruct (faults CT_log_send) eqn:Hlog;
        do 2 eexists; (split; [reflexivity|]); right; eexists;
        (split; [reflexivity|]); repeat split; auto.
    + do 2 eexists; (split; [reflexivity|]); right; eexists;
        (split; [reflexivity|]); repeat split; auto.
  - do 2 eexists; (split; [reflexivity|]); right; eexists;
      (split; [reflexivity|]); repeat split; auto.
Qed.

Lemma resolve_guildConfig_pure (guildConfig : option GuildSetting.t) (w : World) :
  exists cfg,
    resolve_guildConfig faults guildConfig w = (Ok cfg, w) /\
    (forall c, guildConfig = Some c -> cfg = Some c).
Proof.
  unfold resolve_guildConfig, GuildSetting_findOne_or_null.
  destruct guildConfig as [c|].
  - exists (Some c). split; [reflexivity|]. intros c' E. exact E.
  - unfold try_catch, bind, get, ret, fallible.
    destruct (faults CT_default_findOne); simpl.
    + destruct (faults CT_any_findOne); simpl; eexists; split;
        try reflexivity; discriminate.
    + destruct (find GuildSetting.is_default (guildsettings w)).
      * eexists; split; [reflexivity | discriminate].
      * destruct (faults CT_any_findOne); simpl; eexists; split;
          try reflexivity; discriminate.
Qed.

(** [createTicket] never throws.  It saves at most one row, an open ticket
    of the user in the resolved guild, and it returns that row unless the
    log mirror rejected after the save. *)
Lemma createTicket_outcome (user : User) (guildConfig : option GuildSetting.t)
  (w : World) :
  exists r w',
    createTicket env faults user guildConfig w = (Ok r, w') /\
    ((r = None /\ tickets w' = tickets w) \/
     (exists t cfg guild,
         tickets w' = tickets w ++ [t] /\
         Ticket.user_id t = u_id user /\
         Ticket.status t = open /\
         (forall c, guildConfig = Some c -> cfg = Some c) /\
         resolve_guild env w cfg = Some guild /\
         Ticket.guild_id t = Some (g_id guild) /\
         (r = Some t \/ (r = None /\ faults CT_log_send = true)))).
Proof.
  destruct (resolve_guildConfig_pure guildConfig w) as (cfg & Ecfg & Hcfg).
  unfold createTicket, try_catch. unfold bind at 1. rewrite Ecfg.
  unfold bind at 1. unfold get at 1.
  destruct (resolve_guild env w cfg) as [guild|] eqn:Eg.
  - destruct (open_ticket_in_outcome user cfg guild w) as (r & w' & E & H).
    unfold bind. rewrite E.
    destruct H as [[-> Ht] | (t & Ht & Hu & Hg & Hs & [-> | [-> Hlog]])].
    + do 2 eexists. split; [reflexivity|]. left. split; [reflexivity | exact Ht].
    + do 2 eexists. split; [reflexivity|]. right. exists t, cfg, guild.
      repeat split; auto.
    + do 2 eexists. split; [reflexivity|]. right. exists t, cfg, guild.
      repeat split; auto.
  - do 2 eexists. split; [reflexivity|]. left. split; reflexivity.
Qed.

(** the ticket [createTicket] returns is the open ticket it has saved *)
Lemma createTicket_returns_saved (user : User) (guildConfig : option GuildSetting.t)
  (w w' : World) (t : Ticket.t) :
  createTicket env faults user guildConfig w = (Ok (Some t), w') ->
  tickets w' = tickets w ++ [t] /\
  Ticket.user_id t = u_id user /\ Ticket.status t = open.
Proof.
  intros E.
  destruct (createTicket_outcome user guildConfig w) as (r & w1 & E1 & H).
  rewrite E in E1. inversion E1; subst r w1. clear E1.
  destruct H as [[Hr _] | (t' & cfg & guild & Ht & Hu & Hs & _ & _ & _ & Hr)].
  - discriminate.
  - destruct Hr as [Hr | [Hr _]]; [|discriminate].
    inversion Hr; subst t'. auto.
Qed.

(** when the log mirror does not reject, [null] means that nothing was
    saved *)
Lemma createTicket_null_saves_nothing (user : User)
  (guildConfig : option GuildSetting.t) (w w' : World) :
  faults CT_log_send = false ->
  createTicket env faults user guildConfig w = (Ok None, w') ->
  tickets w' = tickets w.
Proof.
  intros Hlog E.
  destruct (createTicket_outcome user guildConfig w) as (r & w1 & E1 & H).
  rewrite E in E1. inversion E1; subst r w1. clear E1.
  destruct H as [[_ Ht] | (t' & cfg & guild & _ & _ & _ & _ & _ & _ & Hr)].
  - exact Ht.
  - destruct Hr as [Hr | [_ Hr]]; [discriminate | congruence].
Qed.

(** ** The uniqueness invariant *)

Lemma at_most_one_open_snoc (ts : list Ticket.t) (t : Ticket.t) (guild : string) :
  at_most_one_open ts ->
  Ticket.guild_id t = Some guild ->
  (forall x, In x ts -> open_for (Ticket.user_id t) guild x = false) ->
  at_most_one_open (ts ++ [t]).
Proof.
  intros Hinv Hg Hnone user g.
  rewrite filter_app, length_app. simpl.
  destruct (open_for user g t) eqn:Ht; simpl; [|specialize (Hinv user g); lia].
  unfold open_for in Ht. rewrite Hg in Ht. simpl in Ht.
  apply andb_prop in Ht. destruct Ht as [Ht _].
  apply andb_prop in Ht. destruct Ht as [Hu Hgg].
  apply String.eqb_eq in Hu. apply String.eqb_eq in Hgg. subst user g.
  assert (E : filter (open_for (Ticket.user_id t) guild) ts = []).
  { clear Hinv. induction ts as [|x ts IH]; [reflexivity|]. simpl.
    rewrite (Hnone x (or_introl eq_refl)). apply IH.
    intros y Hy. apply Hnone. right. exact Hy. }
  rewrite E. simpl. lia.
Qed.

Lemma resolve_guild_configured (cfg : GuildSetting.t) (w : World) (guild : Guild) :
  In (GuildSetting.guild_id cfg) (map g_id (guilds w)) ->
  truthy (Some (GuildSetting.guild_id cfg)) = true ->
  resolve_guild env w (Some cfg) = Some guild ->
  g_id guild = GuildSetting.guild_id cfg.
Proof.
  intros Hin Htruthy. unfold resolve_guild. rewrite Htruthy.
  unfold guilds_cache_get.
  destruct (find _ (guilds w)) as [g|] eqn:Hfind.
  - intros E. inversion E; subst g. apply find_some in Hfind.
    destruct Hfind as [_ Hid]. simpl in Hid. apply String.eqb_eq in Hid.
    symmetry. exact Hid.
  - exfalso. apply in_map_iff in Hin. destruct Hin as (g & Hg & Hgin).
    pose proof (find_none _ _ Hfind g Hgin) as Hn. simpl in Hn.
    rewrite Hg in Hn. rewrite String.eqb_refl in Hn. discriminate.
Qed.

(** the find-or-create sequence of [handleDM], run for a destination that
    passed the filter (the bot is in the guild, its id is not empty) *)
Lemma find_or_create_preserves_uniqueness (message : DirectMessage)
  (cfg : GuildSetting.t) (w : World) :
  at_most_one_open (tickets w) ->
  In (GuildSetting.guild_id cfg) (map g_id (guilds w)) ->
  truthy (Some (GuildSetting.guild_id cfg)) = true ->
  at_most_one_open (tickets (snd (find_or_create env faults message cfg w))).
Proof.
  intros Hinv Hin Htruthy. unfold find_or_create, Ticket_findOne.
  unfold bind at 1. unfold bind at 1. unfold bind at 1. unfold fallible at 1.
  destruct (faults DM_ticket_findOne); [exact Hinv|].
  unfold get at 1. unfold ret at 1.
  destruct (find _ (tickets w)) as [t|] eqn:Hfind; [exact Hinv|].
  destruct (createTicket_outcome (author message) (Some cfg) w)
    as (r & w1 & E & H).
  unfold bind at 1. rewrite E.
  assert (Hinv1 : at_most_one_open (tickets w1)).
  { destruct H as [[_ Ht] | (t & cfg' & guild & Ht & Hu & Hs & Hcfg & Hg & Hgt & _)].
    - rewrite Ht. exact Hinv.
    - rewrite Ht. rewrite (Hcfg cfg eq_refl) in Hg.
      pose proof (resolve_guild_configured cfg w guild Hin Htruthy Hg) as Hid.
      apply (at_most_one_open_snoc _ _ (GuildSetting.guild_id cfg)); auto.
      + rewrite Hgt, Hid. reflexivity.
      + intros x Hx. pose proof (find_none _ _ Hfind x Hx) as Hq.
        unfold ticketQuery in Hq. rewrite Htruthy in Hq.
        unfold open_ticket_of in Hq. unfold open_for. rewrite Hu.
        destruct (Ticket.user_id x =? u_id (author message)); simpl in *;
          [|reflexivity].
        destruct (Ticket.is_open x); simpl in *; [|apply andb_false_r].
        rewrite Hq. reflexivity. }
  destruct r as [t|];
    unfold user_send, emit, modify, bind, ret, fallible;
    match goal with
    | |- context [faults ?c] => destruct (faults c)
    end; exact Hinv1.
Qed.

(** the recovery path is only entered when the fetch of the channel
    rejects: with the channel in place nothing is written *)
Lemma resolve_channel_present (message : DirectMessage) (ticket : Ticket.t)
  (w : World) (c : Channel) :
  faults DM_channel_fetch = false ->
  find (fun ch => ch_id ch =? Ticket.channel_id ticket) (channels w) = Some c ->
  resolve_channel env faults message ticket w = (Ok (Some c), w).
Proof.
  intros Hf Hc. unfold resolve_channel, channels_fetch.
  unfold try_catch, bind, get, ret, fallible. rewrite Hf, Hc. reflexivity.
Qed.

(** forwarding and recording the message writes no ticket *)
Lemma relay_tickets (message : DirectMessage) (ticket : Ticket.t)
  (channel : Channel) (w : World) :
  tickets (snd (relay faults message ticket channel w)) = tickets w.
Proof.
  unfold relay, channel_send, fresh_oid, Message_insert, user_send, emit, modify,
    try_catch, bind, get, ret, fallible.
  destruct (faults DM_relay_send); [reflexivity|].
  destruct (faults DM_message_save); [reflexivity|].
  destruct (faults DM_react); reflexivity.
Qed.

End Creation.

(** C8 at the failing input.  The log channel is configured and exists,
    but the bot cannot post in it.  [createTicket] saves the open ticket,
    then the mirror into the log channel rejects, and the function returns
    [null]: the caller is told that no ticket was created while an open
    ticket of the user is in the store. *)
Theorem C8_createTicket_null_after_save :
  tickets Scenario.w_log = [] /\
  exists w',
    createTicket Scenario.env_log Scenario.log_refused Scenario.alice
      (Some Scenario.cfg1) Scenario.w_log = (Ok None, w') /\
    map (fun t => (Ticket.user_id t, Ticket.guild_id t, Ticket.status t)) (tickets w')
    = [("U", Some "G1", open)].
Proof.
  split; [reflexivity|].
  eexists. split; [vm_compute; reflexivity | reflexivity].
Qed.

(** ** Channel recovery *)

Lemma at_most_one_open_singleton (t : Ticket.t) : at_most_one_open [t].
Proof.
  intros user guild. simpl. destruct (open_for user guild t); simpl; lia.
Qed.

(** C1 at the failing input.  One destination; the user's only open
    ticket is bound to a channel that has been deleted.  The store
    satisfies the invariant.  The next direct message takes the recovery
    path of [handleDM], which calls [createTicket]; that saves a second
    open ticket for the same (user, destination), so the invariant is
    broken. *)
Theorem C1_recovery_breaks_uniqueness :
  at_most_one_open (tickets Scenario.w_drift) /\
  exists w',
    handleDM Scenario.env1 no_faults Scenario.hello [] Scenario.w_drift = (Ok tt, w') /\
    List.length (filter (open_for "U" "G1") (tickets w')) = 2%nat /\
    ~ at_most_one_open (tickets w').
Proof.
  split; [apply at_most_one_open_singleton|].
  eexists. split; [vm_compute; reflexivity|].
  split; [reflexivity|].
  intros H. specialize (H "U" "G1"). vm_compute in H. lia.
Qed.

(** C2 at the failing input.  Two destinations, G1 being the default; the
    user's open ticket 1 belongs to G2 and its channel is gone.  After the
    next direct message ticket 1 is still there under the same id, with
    its earlier message, and is bound to the new channel; but the new
    channel was created in G1, not in the destination of the ticket, and
    the store holds one more open ticket of the user. *)
Theorem C2_recovery_creates_second_ticket_elsewhere :
  exists w',
    handleDM Scenario.env1 no_faults Scenario.hello [] Scenario.w_drift2 = (Ok tt, w') /\
    (* the ticket keeps its id and history and gets the new channel id *)
    map (fun t => (Ticket._id t, Ticket.guild_id t, Ticket.channel_id t, Ticket.status t))
        (tickets w')
    = [(1%nat, Some "G2", "100", open); (10%nat, Some "G1", "100", open)] /\
    filter (fun m => Nat.eqb (Message.ticket_id m) 1) (messages w')
    = messages Scenario.w_drift2
      ++ [Message.mk 11 1 "U" "Hello" [] 50 false] /\
    (* the replacement channel is not in the destination of the ticket *)
    map (fun c => (ch_id c, ch_guild c)) (channels w') = [("100", "G1")] /\
    (* one open ticket of the user before, two after *)
    List.length (filter (open_ticket_of "U") (tickets Scenario.w_drift2)) = 1%nat /\
    List.length (filter (open_ticket_of "U") (tickets w')) = 2%nat.
Proof.
  eexists. split; [vm_compute; reflexivity|]. repeat split.
Qed.

(** ** The candidate destinations *)

Lemma includes_In (l : list string) (x : string) : includes l x = true <-> In x l.
Proof.
  unfold includes. rewrite existsb_exists. split.
  - intros (y & Hy & E). apply String.eqb_eq in E. subst. exact Hy.
  - intros H. exists x. split; [exact H | apply String.eqb_refl].
Qed.

(** the candidates are the configured guilds the bot is in *)
Lemma filter_available_spec (userGuilds : list string)
  (configured : list GuildSetting.t) (g : GuildSetting.t) :
  In g (filter_available userGuilds configured)
  <-> In g configured /\ In (GuildSetting.guild_id g) userGuilds.
Proof.
  unfold filter_available. rewrite filter_In, includes_In. reflexivity.
Qed.

(** C3 at the failing input.  The candidate set is computed from the
    configured guilds and the guilds of the bot only: a configured guild is
    a candidate exactly when the bot is in it.  A sender who is not a
    member of the one configured guild still has it as candidate, and the
    direct message opens a ticket there. *)
Theorem C3_candidates_ignore_membership :
  (forall w g,
      In g (filter_available (map g_id (guilds w)) (guildsettings w))
      <-> In g (guildsettings w) /\ In (GuildSetting.guild_id g) (map g_id (guilds w))) /\
  is_member Scenario.w_stranger "G1" "U" = false /\
  filter_available (map g_id (guilds Scenario.w_stranger))
                   (guildsettings Scenario.w_stranger) = [Scenario.cfg1] /\
  exists w',
    handleDM Scenario.env1 no_faults Scenario.hello [] Scenario.w_stranger = (Ok tt, w') /\
    map (fun t => (Ticket.user_id t, Ticket.guild_id t, Ticket.status t)) (tickets w')
    = [("U", Some "G1", open)].
Proof.
  split; [intros w g; apply filter_available_spec|].
  split; [reflexivity|]. split; [reflexivity|].
  eexists. split; [vm_compute; reflexivity | reflexivity].
Qed.

(** ** Reasoning about computations pointwise *)

Lemma bind_ext {A B} (m1 m2 : M A) (k : A -> M B) :
  (forall w, m1 w = m2 w) -> forall w, bind m1 k w = bind m2 k w.
Proof. intros H w. unfold bind. rewrite H. reflexivity. Qed.

Lemma bind_ext_r {A B} (m : M A) (k1 k2 : A -> M B) :
  (forall a w, k1 a w = k2 a w) -> forall w, bind m k1 w = bind m k2 w.
Proof.
  intros H w. unfold bind. destruct (m w) as [[a|] w']; [apply H | reflexivity].
Qed.

Lemma filter_available_nil (l : list GuildSetting.t) : filter_available [] l = [].
Proof. induction l as [|g l IH]; simpl; [reflexivity | exact IH]. Qed.

(** ** The selection window *)

(** the custom id of a button gives back the guild id it was built from *)
Lemma replace_customId (guild : string) :
  replace "guild_select_" "" ("guild_select_" ++ guild) = guild.
Proof.
  destruct guild; reflexivity.
Qed.

(** a press by anybody but the requester is refused and leaves the
    pending selection, the pending stop and the store as they are *)
Lemma on_collect_foreign (faults : Faults) (requester : string)
  (availableGuilds : list GuildSetting.t) (st : Selection) (i : ButtonClick)
  (w0 : World) :
  click_user i <> requester ->
  exists w1,
    on_collect faults requester availableGuilds st i w0 = (Ok (st, None), w1) /\
    tickets w1 = tickets w0 /\
    (faults DM_collect_reject = false ->
     outbox w1 = outbox w0 ++ [ToInteraction (click_user i) SelectionRejected]).
Proof.
  intros Hne. apply String.eqb_neq in Hne.
  unfold on_collect. rewrite Hne. simpl.
  unfold try_catch, interaction_reply, emit, modify, bind, ret, fallible.
  destruct (faults DM_collect_reject); eexists; repeat split; discriminate.
Qed.

(** a press by the requester of a button offered for a destination
    selects that destination *)
Lemma picks_offered_button (requester : string)
  (availableGuilds : list GuildSetting.t) (g : GuildSetting.t) (i : ButtonClick) :
  In g availableGuilds ->
  click_user i = requester ->
  click_customId i = ("guild_select_" ++ GuildSetting.guild_id g)%string ->
  exists g',
    picks requester availableGuilds i = Some g' /\
    GuildSetting.guild_id g' = GuildSetting.guild_id g.
Proof.
  intros Hin Hu Hc. unfold picks.
  rewrite Hu, String.eqb_refl, Hc, replace_customId.
  destruct (find (fun x => GuildSetting.guild_id x =? GuildSetting.guild_id g)
                 availableGuilds) as [g'|] eqn:Hfind.
  - exists g'. split; [reflexivity|].
    apply find_some in Hfind. destruct Hfind as [_ E].
    apply String.eqb_eq in E. exact E.
  - exfalso. pose proof (find_none _ _ Hfind g Hin) as Hn. simpl in Hn.
    rewrite String.eqb_refl in Hn. discriminate.
Qed.

Section Selector.

Variable env : Env.
Variable faults : Faults.
Variable message : DirectMessage.

(** when the prompt is shown, the rest of [handleDM] is the window
    followed by the routing of the message to the selected destination *)
Lemma handleDM_presents (clicks : list ButtonClick) (w : World) :
  presents_choice faults message w ->
  handleDM env faults message clicks w
  = (st <- await_selection faults (u_id (author message))
             (filter_available (map g_id (guilds w)) (guildsettings w)) clicks ;;
     match selectedGuild st with
     | None => ret tt
     | Some _ => route env faults message (guildConfigForDM st)
     end) w.
Proof.
  intros (Hb & Hnb & Hg & Hs & Hlen & Hst & Hno & _).
  unfold handleDM, BlockedUser_findOne, bot_guild_ids, GuildSetting_find_or_empty.
  unfold bind at 1. unfold bind at 1. unfold fallible at 1. rewrite Hb.
  unfold bind at 1. unfold get at 1. unfold ret at 1. rewrite Hnb.
  unfold bind at 1. unfold try_catch at 1. unfold bind at 1. unfold fallible at 1.
  rewrite Hg. unfold bind at 1. unfold get at 1. unfold ret at 1.
  destruct (map g_id (guilds w)) as [|x ids] eqn:Eids.
  { rewrite filter_available_nil in Hlen. simpl in Hlen. lia. }
  cbn [List.length Nat.eqb].
  unfold bind at 1. unfold try_catch at 1. unfold bind at 1. unfold fallible at 1.
  rewrite Hs. unfold bind at 1. unfold get at 1. unfold ret at 1.
  destruct (filter_available (x :: ids) (guildsettings w)) as [|c1 [|c2 cs]] eqn:Ea;
    try (simpl in Hlen; lia).
  cbn [List.length Nat.eqb].
  unfold select_destination.
  assert (E1 : (1 <? List.length (c1 :: c2 :: cs))%nat = true) by reflexivity.
  rewrite E1. unfold Ticket_findOne.
  unfold bind at 1. unfold bind at 1. unfold bind at 1. unfold fallible at 1.
  rewrite Hst. unfold bind at 1. unfold get at 1. unfold ret at 1.
  rewrite Hno.
  unfold bind. destruct (await_selection _ _ _ _ w) as [[st|] w1]; [|reflexivity].
  destruct (selectedGuild st); reflexivity.
Qed.

(** the buttons of destinations with ids and names of admissible length
    can be built *)
Lemma buttons_built (availableGuilds : list GuildSetting.t) :
  (forall g, In g availableGuilds ->
             (13 + js_length (GuildSetting.guild_id g) <= 100)%nat) ->
  (forall g n, In g availableGuilds -> GuildSetting.name g = Some n ->
               (js_length n <= 80)%nat) ->
  existsb button_refused availableGuilds = false.
Proof.
  intros Hid Hname. induction availableGuilds as [|g l IH]; [reflexivity|].
  simpl. rewrite IH.
  - rewrite orb_false_r. unfold button_refused.
    apply orb_false_iff. split.
    + apply Nat.ltb_ge. apply (Hid g). left. reflexivity.
    + destruct (GuildSetting.name g) as [n|] eqn:En; [|reflexivity].
      apply andb_false_iff. right. apply Nat.ltb_ge.
      apply (Hname g n); [left; reflexivity | exact En].
  - intros x Hx. apply Hid. right. exact Hx.
  - intros x n Hx. apply Hname. right. exact Hx.
Qed.

(** when the prompt is shown it has a button for each of the first five
    destinations, the collector starts with nothing selected and no stop
    pending, and the requester is told of a window that ends with
    nothing selected *)
Lemma await_selection_presents (clicks : list ButtonClick) (w : World) :
  presents_choice faults message w ->
  await_selection faults (u_id (author message))
    (filter_available (map g_id (guilds w)) (guildsettings w)) clicks w
  = (st <- collect faults (u_id (author message))
             (filter_available (map g_id (guilds w)) (guildsettings w))
             (mkSelection None None) None clicks ;;
     match selectedGuild st with
     | Some _ => ret st
     | None =>
         try_catch (user_send faults DM_timeout_reply (u_id (author message))
                      SelectionTimeoutNotice)
                   (ret tt) ;;;
         ret st
     end)
      (with_outbox w
         (outbox w ++
          [ToUser (u_id (author message))
             (SelectionPrompt
                (firstn 5
                   (map (fun g => ("guild_select_" ++ GuildSetting.guild_id g)%string)
                        (filter_available (map g_id (guilds w)) (guildsettings w)))))])).
Proof.
  intros (_ & _ & _ & _ & _ & _ & _ & Hid & Hname & Hprompt).
  unfold await_selection. rewrite (buttons_built _ Hid Hname).
  unfold bind at 1. unfold ret at 1.
  unfold bind at 1. unfold user_send, bind at 1, fallible at 1. rewrite Hprompt.
  reflexivity.
Qed.

End Selector.

(** C4.  The first valid selection does not always win.  The prompt is
    presented to alice for G1 and G2.  She presses G2 after 20 ms and G1
    after 30 ms, both on buttons offered to her and both strictly before
    the deadline of 60000 ms, while the acknowledgement of the first
    press is still on its way (it settles after 420 ms).  The listener of
    the first press has assigned G2 and is awaiting its reply, the
    collector is still running, and the listener of the second press
    assigns G1: both presses are acknowledged and the ticket is opened in
    G1.  The rest of the window is as described: a second press that
    arrives after the first acknowledgement has settled changes nothing,
    a press after 59999 ms selects, and a press after 60000 ms comes too
    late, so that the requester gets the timeout notice and no ticket. *)
Theorem C4_press_during_acknowledgement_overrides :
  presents_choice no_faults Scenario.hello Scenario.w_two /\
  picks "U" [Scenario.cfg1; Scenario.cfg2] Scenario.click_G2 = Some Scenario.cfg2 /\
  picks "U" [Scenario.cfg1; Scenario.cfg2] Scenario.click_G1 = Some Scenario.cfg1 /\
  (click_at Scenario.click_G2 = 20 /\ click_at Scenario.click_G1 = 30 /\
   click_settled Scenario.click_G2 = 420)%Z /\
  (exists w',
      handleDM Scenario.env1 no_faults Scenario.hello
        [Scenario.click_G2; Scenario.click_G1] Scenario.w_two = (Ok tt, w') /\
      map (fun t => (Ticket.user_id t, Ticket.guild_id t, Ticket.status t)) (tickets w')
      = [("U", Some "G1", open)] /\
      map ch_guild (channels w') = ["G1"] /\
      filter (fun e => match e with ToInteraction _ _ => true | _ => false end)
             (outbox w')
      = [ToInteraction "U" (SelectionAccepted "G2");
         ToInteraction "U" (SelectionAccepted "G1")]) /\
  (exists w',
      handleDM Scenario.env1 no_faults Scenario.hello
        [Scenario.click_G2] Scenario.w_two = (Ok tt, w') /\
      map (fun t => (Ticket.user_id t, Ticket.guild_id t, Ticket.status t)) (tickets w')
      = [("U", Some "G2", open)] /\
      handleDM Scenario.env1 no_faults Scenario.hello
        [Scenario.click_G2; Scenario.click_G1_after] Scenario.w_two = (Ok tt, w')) /\
  (click_at Scenario.click_last = 59999%Z /\
   exists w',
     handleDM Scenario.env1 no_faults Scenario.hello
       [Scenario.click_last] Scenario.w_two = (Ok tt, w') /\
     map (fun t => (Ticket.user_id t, Ticket.guild_id t, Ticket.status t)) (tickets w')
     = [("U", Some "G2", open)]) /\
  (click_at Scenario.click_late = 60000%Z /\
   exists w',
     handleDM Scenario.env1 no_faults Scenario.hello
       [Scenario.click_late] Scenario.w_two = (Ok tt, w') /\
     tickets w' = [] /\ channels w' = [] /\
     In (ToUser "U" SelectionTimeoutNotice) (outbox w')).
Proof.
  split.
  { unfold presents_choice. repeat split; try reflexivity.
    - vm_compute. lia.
    - intros g [<-|[<-|[]]]; vm_compute; lia.
    - intros g n [<-|[<-|[]]] E; inversion E; subst n; vm_compute; lia. }
  split; [reflexivity|]. split; [reflexivity|].
  split; [repeat split|].
  split.
  { eexists. split; [vm_compute; reflexivity|]. repeat split. }
  split.
  { eexists. split; [vm_compute; reflexivity|]. split; reflexivity. }
  split.
  { split; [reflexivity|]. eexists. split; [vm_compute; reflexivity|]. reflexivity. }
  split; [reflexivity|].
  eexists. split; [vm_compute; reflexivity|].
  split; [reflexivity|]. split; [reflexivity|].
  right. left. reflexivity.
Qed.

(** ** Claiming *)

(** the chat-side path refuses a ticket that is already claimed, by
    whomever, and leaves it as it is *)
Lemma handleClaimTicket_conflict (faults : Faults) (interaction : Interaction)
  (w : World) (t : Ticket.t) :
  find (open_ticket_of_topic (ch_topic (i_channel interaction))) (tickets w) = Some t ->
  truthy (Ticket.claimed_by t) = true ->
  faults HK_findOne = false ->
  faults HK_claimed_reply = false ->
  exists by_,
    Ticket.claimed_by t = Some by_ /\
    handleClaimTicket faults interaction w
    = (Ok tt, with_outbox w (outbox w ++ [ToInteraction (u_id (i_user interaction))
                                             (AlreadyClaimedNotice by_)])).
Proof.
  intros Hfind Hclaimed Hf Hr.
  destruct (Ticket.claimed_by t) as [by_|] eqn:Hby; [|discriminate].
  exists by_. split; [reflexivity|].
  unfold handleClaimTicket, Ticket_findOne.
  unfold interaction_reply, emit, modify, bind, get, ret, fallible.
  rewrite Hf, Hfind, Hby, Hclaimed, Hr. reflexivity.
Qed.

(** C5 at the failing input.  Ticket 1 is claimed by staff A.  Staff B
    claims it through the dashboard: the answer is success and the claim
    now belongs to B.  The same attempt through the Claim button is
    refused and changes nothing. *)
Theorem C5_dashboard_claim_overwrites :
  map Ticket.claimed_by (tickets Scenario.w_claimed) = [Some "A"] /\
  (exists w',
      api_ticket_claim Scenario.env1 no_faults (Scenario.request_by "B")
        Scenario.w_claimed = (Ok JsonSuccess, w') /\
      map (fun t => (Ticket.claimed_by t, Ticket.claimed_at t)) (tickets w')
      = [(Some "B", Some 50%Z)]) /\
  (exists w',
      handleClaimTicket no_faults
        (Scenario.press "B" Scenario.channel_c1 "claim_ticket") Scenario.w_claimed
      = (Ok tt, w') /\
      tickets w' = tickets Scenario.w_claimed /\
      outbox w' = [ToInteraction "B" (AlreadyClaimedNotice "A")]).
Proof.
  split; [reflexivity|]. split.
  - eexists. split; [vm_compute; reflexivity | reflexivity].
  - eexists. split; [vm_compute; reflexivity|]. split; reflexivity.
Qed.

(** ** Dashboard authorization *)

Lemma isStaff_decision_main_guild (env : Env) (faults : Faults) (req : Request)
  (user : string) (w : World) :
  session_user req = Some user ->
  exists d,
    isStaff_decision env faults req w = (Ok d, w) /\
    (main_guild_staff env w user && negb (faults API_member_fetch) = true -> d = None) /\
    (main_guild_staff env w user && negb (faults API_member_fetch) = false ->
     exists r, d = Some r /\ denied r = true).
Proof.
  intros Hs. unfold isStaff_decision, main_guild_staff. rewrite Hs.
  unfold try_catch, bind, get, ret, members_fetch_or_null, try_catch, bind, fallible, ret.
  destruct (guilds_cache_get w (GUILD_ID env)) as [guild|].
  - destruct (faults API_member_fetch); simpl.
    + eexists; split; [reflexivity|]. rewrite andb_false_r.
      split; [discriminate | intros _; eexists; split; reflexivity].
    + rewrite andb_true_r.
      destruct (find (fun m => m_user m =? user) (g_members guild)) as [member|].
      * destruct (has (m_roles member) (STAFF_ROLE_ID env) || m_administrator member);
          eexists; (split; [reflexivity|]);
          (split; [try discriminate; reflexivity
                  | try discriminate; intros _; eexists; split; reflexivity]).
      * eexists; split; [reflexivity|].
        split; [discriminate | intros _; eexists; split; reflexivity].
  - simpl. eexists; split; [reflexivity|].
    split; [discriminate | intros _; eexists; split; reflexivity].
Qed.

Lemma post_main_guild (env : Env) (faults : Faults)
  (handler : Request -> M Response) (req : Request) (user : string) (w : World) :
  session_user req = Some user ->
  (main_guild_staff env w user && negb (faults API_member_fetch) = true ->
   post env faults handler req w = handler req w) /\
  (main_guild_staff env w user && negb (faults API_member_fetch) = false ->
   exists r, post env faults handler req w = (Ok r, w) /\ denied r = true).
Proof.
  intros Hs.
  destruct (isStaff_decision_main_guild env faults req user w Hs)
    as (d & E & Hyes & Hno).
  unfold post, isAuthenticated, isStaff. rewrite Hs. unfold bind. rewrite E.
  split; intros H.
  - rewrite (Hyes H). reflexivity.
  - destruct (Hno H) as (r & -> & Hr). exists r. split; [reflexivity | exact Hr].
Qed.



(** ** Closing *)

(** the deferred deletion of the chat-side path never touches the store *)
Lemma fire_timer_tickets (faults : Faults) (w : World) :
  tickets (snd (fire_timer faults w)) = tickets w.
Proof.
  unfold fire_timer, channel_delete.
  unfold try_catch, bind, get, modify, ret, throw, fallible.
  destruct (timers w) as [|id rest]; [reflexivity|].
  destruct (faults HC_channel_delete); simpl; [reflexivity|].
  destruct (existsb _ _); reflexivity.
Qed.

(** C6 at the failing input.  Ticket 1 is open and its channel exists,
    but the platform refuses to delete the channel.  On the dashboard path
    the close is abandoned: the answer is the error 500 and the ticket is
    still open, with no [closed_at] and [closed_by].  On the chat-side path
    the same refusal is harmless: the ticket is closed, and stays closed
    when the deferred deletion fails. *)
Theorem C6_dashboard_close_fails_with_channel_delete :
  (exists w',
      api_ticket_close Scenario.env1 Scenario.delete_refused
        (Scenario.request_by "S1") Scenario.w_open
      = (Ok (JsonError 500 "Failed to close ticket"), w') /\
      map (fun t => (Ticket.status t, Ticket.closed_at t, Ticket.closed_by t))
          (tickets w')
      = [(open, None, None)]) /\
  (exists w1 w2,
      handleCloseTicket Scenario.env1 Scenario.delete_refused
        (Scenario.press "S1" Scenario.channel_c1 "close_ticket") Scenario.w_open
      = (Ok tt, w1) /\
      fire_timer Scenario.delete_refused w1 = (Ok tt, w2) /\
      channels w2 = channels Scenario.w_open /\
      map (fun t => (Ticket.status t, Ticket.closed_at t, Ticket.closed_by t))
          (tickets w2)
      = [(closed, Some 50%Z, Some "S1")]).
Proof.
  split.
  - eexists. split; [vm_compute; reflexivity | reflexivity].
  - eexists. eexists. split; [vm_compute; reflexivity|].
    split; [vm_compute; reflexivity|]. split; reflexivity.
Qed.

(** ** Closing a ticket that is already closed *)

Lemma NoDup_map_In_eq {A B} (f : A -> B) (l : list A) (a b : A) :
  NoDup (map f l) -> In a l -> In b l -> f a = f b -> a = b.
Proof.
  induction l as [|x l IH]; simpl; intros Hnd Ha Hb Hf; [contradiction|].
  inversion Hnd as [|? ? Hnotin Hnd']; subst.
  destruct Ha as [->|Ha], Hb as [->|Hb].
  - reflexivity.
  - exfalso. apply Hnotin. rewrite Hf. apply in_map. exact Hb.
  - exfalso. apply Hnotin. rewrite <- Hf. apply in_map. exact Ha.
  - apply IH; assumption.
Qed.

Lemma replace_ticket_keeps (t' t : Ticket.t) (l : list Ticket.t) :
  In t l -> Ticket._id t <> Ticket._id t' -> In t (replace_ticket t' l).
Proof.
  intros Hin Hne. unfold replace_ticket. apply in_map_iff. exists t.
  apply Nat.eqb_neq in Hne. rewrite Hne. split; [reflexivity | exact Hin].
Qed.

(** the dashboard path: nothing at all changes, and the answer is never a
    success *)
Lemma api_ticket_close_closed (env : Env) (faults : Faults) (req : Request)
  (w : World) (t : Ticket.t) :
  find (fun x => Nat.eqb (Ticket._id x) (params_id req)) (tickets w) = Some t ->
  Ticket.status t = closed ->
  exists r,
    api_ticket_close env faults req w = (Ok r, w) /\
    r <> JsonSuccess /\
    (forall user,
        session_user req = Some user ->
        main_guild_staff env w user && negb (faults API_member_fetch) = true ->
        faults API_findById = false ->
        r = JsonError 400 "Ticket already closed").
Proof.
  intros Hfind Hclosed.
  assert (Hh : exists r,
             close_handler faults req w = (Ok r, w) /\ r <> JsonSuccess /\
             (faults API_findById = false -> r = JsonError 400 "Ticket already closed")).
  { unfold close_handler, Ticket_findById, Ticket_findOne.
    unfold try_catch, bind, get, ret, fallible.
    destruct (faults API_findById).
    - eexists. split; [reflexivity|]. split; [discriminate | discriminate].
    - rewrite Hfind, Hclosed. simpl.
      eexists. split; [reflexivity|]. split; [discriminate | reflexivity]. }
  destruct Hh as (rh & Eh & Hrh & H400).
  destruct (session_user req) as [user|] eqn:Hs.
  - destruct (post_main_guild env faults (close_handler faults) req user w Hs)
      as [Hyes Hno].
    destruct (main_guild_staff env w user && negb (faults API_member_fetch)) eqn:Ea.
    + exists rh. unfold api_ticket_close. rewrite (Hyes eq_refl).
      split; [exact Eh|]. split; [exact Hrh|].
      intros user' _ _ Hf. apply H400. exact Hf.
    + destruct (Hno eq_refl) as (r & E & Hd). exists r.
      split; [exact E|]. split.
      * intros ->. discriminate.
      * intros user' Hu Ha. inversion Hu; subst user'. congruence.
  - exists (Redirect "/login"). unfold api_ticket_close, post, isAuthenticated.
    rewrite Hs. split; [reflexivity|]. split; [discriminate|].
    intros user Hu. discriminate.
Qed.

(** the chat-side path never rewrites a closed ticket *)
Lemma handleCloseTicket_keeps_closed (env : Env) (faults : Faults)
  (interaction : Interaction) (w : World) (t : Ticket.t) :
  NoDup (map Ticket._id (tickets w)) ->
  In t (tickets w) ->
  Ticket.status t = closed ->
  In t (tickets (snd (handleCloseTicket env faults interaction w))).
Proof.
  intros Hnd Hin Hclosed. unfold handleCloseTicket, Ticket_findOne.
  unfold bind at 1. unfold bind at 1. unfold bind at 1. unfold fallible at 1.
  destruct (faults HC_findOne); [exact Hin|].
  unfold get at 1. unfold ret at 1.
  destruct (find _ (tickets w)) as [f|] eqn:Hfind.
  - apply find_some in Hfind. destruct Hfind as [Hf Hopen].
    assert (Hne : Ticket._id t <> Ticket._id (Ticket.close f (now w) (u_id (i_user interaction)))).
    { simpl. intros Heq.
      assert (t = f) by (eapply NoDup_map_In_eq; eauto). subst f.
      unfold open_ticket_of_topic, Ticket.is_open in Hopen.
      rewrite Hclosed in Hopen. rewrite andb_false_r in Hopen. discriminate. }
    pose proof (replace_ticket_keeps _ t (tickets w) Hin Hne) as Hkeep.
    unfold interaction_reply, user_send, channel_send, Ticket_save, emit, modify,
      try_catch, bind, get, ret, fallible.
    destruct (faults HC_closing_reply); [exact Hin|].
    destruct (faults HC_user_fetch); destruct (faults HC_user_send); simpl;
      destruct (faults HC_save); simpl; try exact Hin;
      destruct (truthy (LOG_CHANNEL_ID env)); simpl; try exact Hkeep;
      match goal with
      | |- context [guild_channels_cache_get ?a ?b ?c] =>
          destruct (guild_channels_cache_get a b c)
      end; simpl; try exact Hkeep;
      destruct (faults HC_log_send); exact Hkeep.
  - unfold interaction_reply, emit, modify, bind, ret, fallible.
    destruct (faults HC_not_found_reply); exact Hin.
Qed.

(** with no open ticket for the user of the channel, the press is answered
    with the not-found-or-already-closed notice *)
Lemma handleCloseTicket_none_open (env : Env) (faults : Faults)
  (interaction : Interaction) (w : World) :
  find (open_ticket_of_topic (ch_topic (i_channel interaction))) (tickets w) = None ->
  faults HC_findOne = false ->
  faults HC_not_found_reply = false ->
  handleCloseTicket env faults interaction w
  = (Ok tt, with_outbox w (outbox w ++ [ToInteraction (u_id (i_user interaction))
                                           CloseNotFoundNotice])).
Proof.
  intros Hfind Hf Hr. unfold handleCloseTicket, Ticket_findOne.
  unfold interaction_reply, emit, modify, bind, get, ret, fallible.
  rewrite Hf, Hfind, Hr. reflexivity.
Qed.

(** What does hold of closing a closed ticket.  On the dashboard it
    changes nothing and is never answered with success; for an authorized
    caller the answer is the conflict "Ticket already closed".  On the
    chat side no press of Close rewrites a ticket that is already closed
    (its [closed_at] stays), and when the user named by the channel topic
    has no open ticket the press changes no ticket and is answered with
    the notice "Ticket not found or already closed". *)
Lemma close_of_closed_ticket (env : Env) (faults : Faults) (w : World) :
  NoDup (map Ticket._id (tickets w)) ->
  (forall req t,
      find (fun x => Nat.eqb (Ticket._id x) (params_id req)) (tickets w) = Some t ->
      Ticket.status t = closed ->
      exists r,
        api_ticket_close env faults req w = (Ok r, w) /\
        r <> JsonSuccess /\
        (forall user,
            session_user req = Some user ->
            main_guild_staff env w user && negb (faults API_member_fetch) = true ->
            faults API_findById = false ->
            r = JsonError 400 "Ticket already closed")) /\
  (forall interaction t,
      In t (tickets w) ->
      Ticket.status t = closed ->
      In t (tickets (snd (handleCloseTicket env faults interaction w)))) /\
  (forall interaction,
      find (open_ticket_of_topic (ch_topic (i_channel interaction))) (tickets w) = None ->
      faults HC_findOne = false ->
      faults HC_not_found_reply = false ->
      handleCloseTicket env faults interaction w
      = (Ok tt, with_outbox w (outbox w ++ [ToInteraction (u_id (i_user interaction))
                                               CloseNotFoundNotice]))).
Proof.
  intros Hnd. split; [|split].
  - intros req t. apply api_ticket_close_closed.
  - intros interaction t. apply handleCloseTicket_keeps_closed. exact Hnd.
  - intros interaction. apply handleCloseTicket_none_open.
Qed.


(** C7 at the failing input.  Ticket 1 is closed and its channel c1 is
    still there; the same user has the open ticket 2 in another
    destination.  Close is pressed in c1, the channel of the closed
    ticket: no conflict is reported, and ticket 2 gets closed. *)
Theorem C7_chat_close_of_closed_ticket_closes_another :
  let w := Scenario.w_closed_and_open in
  let w' := snd (handleCloseTicket Scenario.env1 no_faults
                   (Scenario.press "S1" Scenario.channel_c1 "close_ticket") w) in
  map (fun t => (Ticket.channel_id t, Ticket.status t)) (tickets w)
  = [("c1", closed); ("c2", open)] /\
  ~ In (ToInteraction "S1" CloseNotFoundNotice) (outbox w') /\
  tickets w' <> tickets w /\
  map (fun t => (Ticket.channel_id t, Ticket.status t)) (tickets w')
  = [("c1", closed); ("c2", closed)].
Proof.
  cbv zeta. split; [reflexivity|]. split; [|split; [|reflexivity]].
  - vm_compute. intros [H|[H|[]]]; discriminate.
  - vm_compute. discriminate.
Qed.

(** ** Chat-side buttons *)

Lemma handleCloseTicket_tickets (env : Env) (faults : Faults)
  (interaction : Interaction) (w : World) :
  faults HC_findOne = false ->
  faults HC_closing_reply = false ->
  faults HC_save = false ->
  tickets (snd (handleCloseTicket env faults interaction w))
  = match find (open_ticket_of_topic (ch_topic (i_channel interaction))) (tickets w) with
    | Some t =>
        replace_ticket (Ticket.close t (now w) (u_id (i_user interaction))) (tickets w)
    | None => tickets w
    end.
Proof.
  intros Hf Hr Hs. unfold handleCloseTicket, Ticket_findOne.
  unfold bind at 1. unfold bind at 1. unfold bind at 1. unfold fallible at 1.
  rewrite Hf. unfold get at 1. unfold ret at 1.
  destruct (find _ (tickets w)) as [t|].
  - unfold interaction_reply, user_send, channel_send, Ticket_save, emit, modify,
      try_catch, bind, get, ret, fallible.
    rewrite Hr, Hs.
    destruct (faults HC_user_fetch); destruct (faults HC_user_send); simpl;
      destruct (truthy (LOG_CHANNEL_ID env)); simpl;
      try reflexivity;
      match goal with
      | |- context [guild_channels_cache_get ?a ?b ?c] =>
          destruct (guild_channels_cache_get a b c)
      end; simpl; try reflexivity;
      destruct (faults HC_log_send); reflexivity.
  - unfold interaction_reply, emit, modify, bind, ret, fallible.
    destruct (faults HC_not_found_reply); reflexivity.
Qed.

Lemma handleClaimTicket_tickets (faults : Faults)
  (interaction : Interaction) (w : World) :
  faults HK_findOne = false ->
  faults HK_save = false ->
  tickets (snd (handleClaimTicket faults interaction w))
  = match find (open_ticket_of_topic (ch_topic (i_channel interaction))) (tickets w) with
    | Some t =>
        if truthy (Ticket.claimed_by t) then tickets w
        else replace_ticket (Ticket.claim t (now w) (u_id (i_user interaction)))
                            (tickets w)
    | None => tickets w
    end.
Proof.
  intros Hf Hs. unfold handleClaimTicket, Ticket_findOne.
  unfold bind at 1. unfold bind at 1. unfold bind at 1. unfold fallible at 1.
  rewrite Hf. unfold get at 1. unfold ret at 1.
  destruct (find _ (tickets w)) as [t|].
  - destruct (truthy (Ticket.claimed_by t)).
    + unfold interaction_reply, emit, modify, bind, ret, fallible.
      destruct (faults HK_claimed_reply); reflexivity.
    + unfold interaction_reply, Ticket_save, emit, modify, bind, get, ret, fallible.
      rewrite Hs. destruct (faults HK_reply); reflexivity.
  - unfold interaction_reply, emit, modify, bind, ret, fallible.
    destruct (faults HK_not_found_reply); reflexivity.
Qed.

(** the first open ticket of a user is what the query of the buttons
    returns, wherever it stands in the store and whatever its channel *)
Lemma find_first_open_ticket (topic : string) (before after : list Ticket.t)
  (t : Ticket.t) :
  Ticket.user_id t = topic ->
  Ticket.status t = open ->
  (forall x, In x before -> Ticket.user_id x = topic -> Ticket.status x = closed) ->
  find (open_ticket_of_topic (Some topic)) (before ++ t :: after) = Some t.
Proof.
  intros Hu Hs. induction before as [|x before IH]; intros Hb; simpl.
  - unfold open_ticket_of_topic, Ticket.is_open. simpl.
    rewrite Hu, String.eqb_refl, Hs. reflexivity.
  - destruct (open_ticket_of_topic (Some topic) x) eqn:E.
    + exfalso. unfold open_ticket_of_topic, Ticket.is_open in E. simpl in E.
      apply andb_true_iff in E. destruct E as [E1 E2].
      apply String.eqb_eq in E1.
      rewrite (Hb x (or_introl eq_refl) (eq_sym E1)) in E2. discriminate.
    + apply IH. intros y Hy. apply Hb. right. exact Hy.
Qed.

(** saving a document replaces it where it stands *)
Lemma replace_ticket_in_place (t t' : Ticket.t) (before after : list Ticket.t) :
  Ticket._id t' = Ticket._id t ->
  NoDup (map Ticket._id (before ++ t :: after)) ->
  replace_ticket t' (before ++ t :: after) = before ++ t' :: after.
Proof.
  intros Hid Hnd. unfold replace_ticket. rewrite map_app. simpl.
  rewrite Hid, Nat.eqb_refl.
  rewrite map_app in Hnd. simpl in Hnd. apply NoDup_remove_2 in Hnd.
  assert (Hfix : forall l, ~ In (Ticket._id t) (map Ticket._id l) ->
            map (fun x => if Nat.eqb (Ticket._id x) (Ticket._id t) then t' else x) l = l).
  { induction l as [|x l IH]; intros Hn; simpl; [reflexivity|].
    destruct (Nat.eqb (Ticket._id x) (Ticket._id t)) eqn:E.
    - exfalso. apply Hn. left. apply Nat.eqb_eq. exact E.
    - rewrite IH; [reflexivity|]. intros H. apply Hn. right. exact H. }
  rewrite !Hfix; [reflexivity| |]; intros H; apply Hnd; apply in_or_app; auto.
Qed.

(** the error reply of the listener changes no ticket *)
Lemma interactionCreate_tickets (env : Env) (faults : Faults)
  (interaction : Interaction) (w : World) :
  tickets (snd (interactionCreate env faults interaction w))
  = tickets (snd ((if i_customId interaction =? "close_ticket"
                   then handleCloseTicket env faults interaction
                   else if i_customId interaction =? "claim_ticket"
                        then handleClaimTicket faults interaction
                        else ret tt) w)).
Proof.
  unfold interactionCreate. unfold try_catch at 1.
  destruct (i_customId interaction =? "close_ticket").
  - destruct (handleCloseTicket env faults interaction w) as [[u|] w1];
      [reflexivity|].
    unfold try_catch, interaction_reply, emit, modify, bind, ret, fallible. simpl.
    destruct (faults IC_error_reply); reflexivity.
  - destruct (i_customId interaction =? "claim_ticket"); [|reflexivity].
    destruct (handleClaimTicket faults interaction w) as [[u|] w1];
      [reflexivity|].
    unfold try_catch, interaction_reply, emit, modify, bind, ret, fallible. simpl.
    destruct (faults IC_error_reply); reflexivity.
Qed.

(** C9.  Which ticket a button operates on.  A press of Close or Claim in
    a channel operates on the first ticket in the store that is open and
    whose [user_id] is the topic of that channel: it is that ticket that
    is closed, or claimed, in place.  Nothing relates the ticket to the
    channel of the press: its [channel_id] is arbitrary, and open tickets
    of the same user that stand later in the store, the one bound to the
    channel among them, are left as they are.  Open tickets of other
    users that stand earlier are passed over. *)
Theorem C9_buttons_locate_ticket_by_topic (env : Env) (faults : Faults)
  (interaction : Interaction) (w : World) (topic : string)
  (before after : list Ticket.t) (t : Ticket.t) :
  ch_topic (i_channel interaction) = Some topic ->
  tickets w = before ++ t :: after ->
  Ticket.user_id t = topic ->
  Ticket.status t = open ->
  (forall x, In x before -> Ticket.user_id x = topic -> Ticket.status x = closed) ->
  NoDup (map Ticket._id (tickets w)) ->
  faults HC_findOne = false -> faults HC_closing_reply = false ->
  faults HC_save = false ->
  faults HK_findOne = false -> faults HK_save = false ->
  (i_customId interaction = "close_ticket" ->
   tickets (snd (interactionCreate env faults interaction w))
   = before ++ Ticket.close t (now w) (u_id (i_user interaction)) :: after) /\
  (i_customId interaction = "claim_ticket" ->
   Ticket.claimed_by t = None ->
   tickets (snd (interactionCreate env faults interaction w))
   = before ++ Ticket.claim t (now w) (u_id (i_user interaction)) :: after) /\
  (i_customId interaction = "claim_ticket" ->
   forall by_, Ticket.claimed_by t = Some by_ -> by_ <> "" ->
   tickets (snd (interactionCreate env faults interaction w)) = tickets w).
Proof.
  intros Htopic Hw Hu Hs Hb Hnd H1 H2 H3 H4 H5.
  pose proof (find_first_open_ticket topic before after t Hu Hs Hb) as Hfind.
  rewrite <- Hw, <- Htopic in Hfind.
  split; [|split].
  - intros Hc. rewrite interactionCreate_tickets, Hc. simpl.
    rewrite (handleCloseTicket_tickets env faults interaction w H1 H2 H3), Hfind.
    rewrite Hw. apply replace_ticket_in_place; [reflexivity|].
    rewrite <- Hw. exact Hnd.
  - intros Hc Hn. rewrite interactionCreate_tickets, Hc. simpl.
    rewrite (handleClaimTicket_tickets faults interaction w H4 H5), Hfind.
    rewrite Hn. simpl.
    rewrite Hw. apply replace_ticket_in_place; [reflexivity|].
    rewrite <- Hw. exact Hnd.
  - intros Hc by_ Hby Hne. rewrite interactionCreate_tickets, Hc. simpl.
    rewrite (handleClaimTicket_tickets faults interaction w H4 H5), Hfind.
    rewrite Hby. simpl. apply String.eqb_neq in Hne. rewrite Hne. reflexivity.
Qed.

Lemma C9_buttons_locate_ticket_by_topic_witness :
  map (fun t => (Ticket.user_id t, Ticket.channel_id t, Ticket.status t))
      (tickets Scenario.w_three_open)
  = [("V", "c7", open); ("U", "c1", open); ("U", "c2", open)] /\
  ch_id Scenario.channel_c2 = "c2" /\
  map (fun t => (Ticket.user_id t, Ticket.channel_id t, Ticket.status t))
      (tickets (snd (interactionCreate Scenario.env1 no_faults
                       (Scenario.press "S2" Scenario.channel_c2 "close_ticket")
                       Scenario.w_three_open)))
  = [("V", "c7", open); ("U", "c1", closed); ("U", "c2", open)] /\
  map (fun t => (Ticket.user_id t, Ticket.channel_id t, Ticket.claimed_by t))
      (tickets (snd (interactionCreate Scenario.env1 no_faults
                       (Scenario.press "S2" Scenario.channel_c2 "claim_ticket")
                       Scenario.w_three_open)))
  = [("V", "c7", None); ("U", "c1", Some "S2"); ("U", "c2", None)].
Proof.
  split; [reflexivity|]. split; [reflexivity|].
  assert (Hnd : NoDup (map Ticket._id (tickets Scenario.w_three_open))).
  { simpl. repeat constructor; simpl; intuition discriminate. }
  assert (Hb : forall x, In x [Scenario.ticket_of_V] -> Ticket.user_id x = "U" ->
                         Ticket.status x = closed).
  { intros x [<-|[]] E. discriminate E. }
  split.
  - destruct (C9_buttons_locate_ticket_by_topic Scenario.env1 no_faults
                (Scenario.press "S2" Scenario.channel_c2 "close_ticket")
                Scenario.w_three_open "U" [Scenario.ticket_of_V]
                [Scenario.ticket 2 "G2" "c2" open] (Scenario.ticket 1 "G1" "c1" open)
                eq_refl eq_refl eq_refl eq_refl Hb Hnd
                eq_refl eq_refl eq_refl eq_refl eq_refl) as (Hclose & _ & _).
    rewrite (Hclose eq_refl). reflexivity.
  - destruct (C9_buttons_locate_ticket_by_topic Scenario.env1 no_faults
                (Scenario.press "S2" Scenario.channel_c2 "claim_ticket")
                Scenario.w_three_open "U" [Scenario.ticket_of_V]
                [Scenario.ticket 2 "G2" "c2" open] (Scenario.ticket 1 "G1" "c1" open)
                eq_refl eq_refl eq_refl eq_refl Hb Hnd
                eq_refl eq_refl eq_refl eq_refl eq_refl) as (_ & Hclaim & _).
    rewrite (Hclaim eq_refl eq_refl). reflexivity.
Defined.

(** * Further properties *)

(** ** Lists *)

Lemma find_app_none {A} (p : A -> bool) (l : list A) (x : A) :
  find p l = None -> p x = true -> find p (l ++ [x]) = Some x.
Proof.
  induction l as [|a l IH]; simpl; intros Hn Hx.
  - rewrite Hx. reflexivity.
  - destruct (p a); [discriminate | apply IH; assumption].
Qed.

Lemma find_app_last {A} (p : A -> bool) (l : list A) (x : A) :
  p x = true -> exists y, find p (l ++ [x]) = Some y /\ p y = true.
Proof.
  intros Hx. induction l as [|a l IH]; simpl.
  - rewrite Hx. exists x. split; [reflexivity | exact Hx].
  - destruct (p a) eqn:Ha; [exists a; split; [reflexivity | exact Ha] | exact IH].
Qed.

(** the first match of a query is also the first match of any stronger
    query it satisfies *)
Lemma find_refine {A} (p q : A -> bool) (l : list A) (x : A) :
  (forall y, q y = true -> p y = true) ->
  find p l = Some x -> q x = true -> find q l = Some x.
Proof.
  intros Hqp. induction l as [|a l IH]; simpl; [discriminate|].
  intros Hf Hx. destruct (p a) eqn:Ha.
  - inversion Hf; subst a. rewrite Hx. reflexivity.
  - destruct (q a) eqn:Hq; [rewrite (Hqp a Hq) in Ha; discriminate|].
    apply IH; assumption.
Qed.

Lemma guilds_cache_get_listed (w : World) (id : string) :
  In id (map g_id (guilds w)) ->
  exists g, guilds_cache_get w (Some id) = Some g /\ g_id g = id.
Proof.
  intros Hin. unfold guilds_cache_get.
  destruct (find (fun g => same_id (Some id) (g_id g)) (guilds w)) as [g|] eqn:Hf.
  - exists g. split; [reflexivity|]. apply find_some in Hf. destruct Hf as [_ E].
    simpl in E. apply String.eqb_eq in E. symmetry. exact E.
  - exfalso. apply in_map_iff in Hin. destruct Hin as (g & Hg & Hgin).
    pose proof (find_none _ _ Hf g Hgin) as Hn. simpl in Hn.
    rewrite Hg, String.eqb_refl in Hn. discriminate.
Qed.

(** ** A blocked sender *)

(** X1.  A blocked sender.  When the sender of a direct message is on the
    block list, the message creates no ticket, no channel and no Message
    row, whatever else fails.  The only thing that can be sent is the
    notice with the stored reason of the block ("No reason provided"
    when none is stored).  It is sent when the lookup and the reply go
    through and the reason has at most 1024 characters; with a longer
    reason the handler rejects and sends nothing. *)
Theorem handleDM_blocked_sender_changes_nothing
  (env : Env) (faults : Faults) (message : DirectMessage)
  (clicks : list ButtonClick) (w : World) (b : BlockedUser.t) :
  find (fun x => BlockedUser.user_id x =? u_id (author message)) (blockedusers w)
  = Some b ->
  let shown :=
    match BlockedUser.reason b with
    | Some "" | None => "No reason provided"
    | Some reason => reason
    end in
  exists r w',
    handleDM env faults message clicks w = (r, w') /\
    tickets w' = tickets w /\ channels w' = channels w /\ messages w' = messages w /\
    (outbox w' = outbox w \/
     outbox w' = outbox w ++ [ToUser (u_id (author message)) (BlockedNotice shown)]) /\
    (faults DM_blocked_findOne = false -> faults DM_reply = false ->
     (js_length shown <= 1024)%nat ->
     r = Ok tt /\
     outbox w' = outbox w ++ [ToUser (u_id (author message)) (BlockedNotice shown)]) /\
    ((1024 < js_length shown)%nat -> r = Throw /\ outbox w' = outbox w).
Proof.
  intros Hb shown.
  assert (Hshown : match or_else (BlockedUser.reason b) (Some "No reason provided") with
                   | Some r => r
                   | None => ""
                   end = shown).
  { subst shown. unfold or_else, truthy.
    destruct (BlockedUser.reason b) as [[|a s]|]; reflexivity. }
  unfold handleDM, BlockedUser_findOne.
  unfold user_send, emit, modify, bind, get, ret, fallible, throw.
  destruct (faults DM_blocked_findOne).
  - do 2 eexists. split; [reflexivity|].
    split; [reflexivity|]. split; [reflexivity|]. split; [reflexivity|].
    split; [left; reflexivity|]. split; [discriminate|].
    intros _. split; reflexivity.
  - rewrite Hb. cbv zeta. rewrite Hshown.
    destruct (1024 <? js_length shown)%nat eqn:Hlen.
    + do 2 eexists. split; [reflexivity|].
      split; [reflexivity|]. split; [reflexivity|]. split; [reflexivity|].
      split; [left; reflexivity|]. split.
      * intros _ _ Hle. apply Nat.ltb_lt in Hlen. lia.
      * intros _. split; reflexivity.
    + apply Nat.ltb_ge in Hlen. destruct (faults DM_reply).
      * do 2 eexists. split; [reflexivity|].
        split; [reflexivity|]. split; [reflexivity|]. split; [reflexivity|].
        split; [left; reflexivity|]. split; [discriminate|].
        intros Hgt. lia.
      * do 2 eexists. split; [reflexivity|]. simpl.
        split; [reflexivity|]. split; [reflexivity|]. split; [reflexivity|].
        split; [right; reflexivity|]. split.
        -- intros _ _ _. split; reflexivity.
        -- intros Hgt. lia.
Qed.

Lemma handleDM_blocked_sender_witness :
  (exists w',
      handleDM Scenario.env1 no_faults Scenario.hello [] Situation.w_blocked
      = (Ok tt, w') /\
      tickets w' = [] /\ channels w' = [] /\
      outbox w' = [ToUser "U" (BlockedNotice "spam")]) /\
  js_length Situation.long_reason = 1025%nat /\
  handleDM Scenario.env1 no_faults Scenario.hello [] Situation.w_blocked_at_length
  = (Throw, Situation.w_blocked_at_length).
Proof.
  split; [|split; [vm_compute; reflexivity|]].
  - destruct (handleDM_blocked_sender_changes_nothing Scenario.env1 no_faults
                Scenario.hello [] Situation.w_blocked Situation.mallory eq_refl)
      as (r & w' & E & Ht & Hc & _ & _ & Hsent & _).
    destruct Hsent as [Hr Ho]; [reflexivity | reflexivity | vm_compute; lia |].
    subst r. exists w'. split; [exact E|]. split; [exact Ht|]. split; [exact Hc|].
    exact Ho.
  - vm_compute. reflexivity.
Defined.

(** ** From the direct message to the ticket *)

Section Routing.

Variable env : Env.

(** with one candidate destination the message goes straight to the
    routing *)
Lemma handleDM_single_destination (faults : Faults) (message : DirectMessage)
  (clicks : list ButtonClick) (w : World) (cfg : GuildSetting.t) :
  faults DM_blocked_findOne = false ->
  faults DM_guilds_fetch = false ->
  faults DM_settings_find = false ->
  find (fun b => BlockedUser.user_id b =? u_id (author message)) (blockedusers w) = None ->
  filter_available (map g_id (guilds w)) (guildsettings w) = [cfg] ->
  handleDM env faults message clicks w = route env faults message (Some cfg) w.
Proof.
  intros Hb Hg Hs Hnb Ha.
  unfold handleDM, BlockedUser_findOne, bot_guild_ids, GuildSetting_find_or_empty.
  unfold bind at 1. unfold bind at 1. unfold fallible at 1. rewrite Hb.
  unfold bind at 1. unfold get at 1. unfold ret at 1. rewrite Hnb.
  unfold bind at 1. unfold try_catch at 1. unfold bind at 1. unfold fallible at 1.
  rewrite Hg. unfold bind at 1. unfold get at 1. unfold ret at 1.
  destruct (map g_id (guilds w)) as [|x ids] eqn:Eids.
  { rewrite filter_available_nil in Ha. discriminate. }
  cbn [List.length Nat.eqb].
  unfold bind at 1. unfold try_catch at 1. unfold bind at 1. unfold fallible at 1.
  rewrite Hs. unfold bind at 1. unfold get at 1. unfold ret at 1.
  rewrite Ha. cbn [List.length Nat.eqb].
  unfold select_destination. cbn [List.length Nat.ltb Nat.leb hd_error].
  unfold bind, ret. reflexivity.
Qed.

(** with several candidates and an open ticket of the sender, the message
    goes to the routing with the candidate of that ticket's guild, and no
    prompt is shown *)
Lemma handleDM_sticky_destination (faults : Faults) (message : DirectMessage)
  (clicks : list ButtonClick) (w : World) (e : Ticket.t) :
  faults DM_blocked_findOne = false ->
  faults DM_guilds_fetch = false ->
  faults DM_settings_find = false ->
  faults DM_sticky_findOne = false ->
  find (fun b => BlockedUser.user_id b =? u_id (author message)) (blockedusers w) = None ->
  (1 < List.length (filter_available (map g_id (guilds w)) (guildsettings w)))%nat ->
  find (open_ticket_of (u_id (author message))) (tickets w) = Some e ->
  handleDM env faults message clicks w
  = route env faults message
      (find (fun g => same_id (Ticket.guild_id e) (GuildSetting.guild_id g))
            (filter_available (map g_id (guilds w)) (guildsettings w))) w.
Proof.
  intros Hb Hg Hs Hst Hnb Hlen He.
  unfold handleDM, BlockedUser_findOne, bot_guild_ids, GuildSetting_find_or_empty.
  unfold bind at 1. unfold bind at 1. unfold fallible at 1. rewrite Hb.
  unfold bind at 1. unfold get at 1. unfold ret at 1. rewrite Hnb.
  unfold bind at 1. unfold try_catch at 1. unfold bind at 1. unfold fallible at 1.
  rewrite Hg. unfold bind at 1. unfold get at 1. unfold ret at 1.
  destruct (map g_id (guilds w)) as [|x ids] eqn:Eids.
  { rewrite filter_available_nil in Hlen. simpl in Hlen. lia. }
  cbn [List.length Nat.eqb].
  unfold bind at 1. unfold try_catch at 1. unfold bind at 1. unfold fallible at 1.
  rewrite Hs. unfold bind at 1. unfold get at 1. unfold ret at 1.
  destruct (filter_available (x :: ids) (guildsettings w)) as [|c1 [|c2 cs]] eqn:Ea;
    try (simpl in Hlen; lia).
  cbn [List.length Nat.eqb].
  unfold select_destination.
  assert (E1 : (1 <? List.length (c1 :: c2 :: cs))%nat = true) by reflexivity.
  rewrite E1. unfold Ticket_findOne.
  unfold bind at 1. unfold bind at 1. unfold bind at 1. unfold fallible at 1.
  rewrite Hst. unfold bind at 1. unfold get at 1. unfold ret at 1.
  rewrite He. unfold bind, ret. reflexivity.
Qed.

(** the routing when the ticket is there and its channel exists: nothing
    but the relay and the Message row *)
Lemma route_existing_ticket (message : DirectMessage) (cfg : GuildSetting.t)
  (w : World) (t : Ticket.t) (c : Channel) :
  find (ticketQuery (u_id (author message)) cfg) (tickets w) = Some t ->
  find (fun ch => ch_id ch =? Ticket.channel_id t) (channels w) = Some c ->
  route env no_faults message (Some cfg) w
  = (Ok tt,
     mkWorld (tickets w)
       (messages w ++
        [Message.mk (next_oid w) (Ticket._id t) (u_id (author message))
                    (content message) (attachments message) (now w) false])
       (guildsettings w) (blockedusers w) (guilds w) (channels w)
       (S (next_oid w)) (next_snowflake w) (now w) (timers w)
       (outbox w ++ [ToChannel (ch_id c) (RelayedContent (content message));
                     ToUser (u_id (author message)) ReactOk])).
Proof.
  intros Ht Hc.
  unfold route, find_or_create, resolve_channel, relay, Ticket_findOne, channels_fetch,
    channel_send, fresh_oid, Message_insert, user_send, emit, modify,
    try_catch, bind, get, ret, fallible.
  cbn [no_faults]. rewrite Ht. rewrite Hc. cbn.
  rewrite <- app_assoc. reflexivity.
Qed.

End Routing.

Section FirstContact.

Variable env : Env.

(** the routing when the sender has no open ticket in the destination and
    every call goes through: one ticket, one channel bound to the sender,
    one Message row, and the acknowledgement with the ticket id *)
Lemma route_new_ticket (message : DirectMessage) (cfg : GuildSetting.t)
  (w : World) (g : Guild) :
  find (ticketQuery (u_id (author message)) cfg) (tickets w) = None ->
  resolve_guild env w (Some cfg) = Some g ->
  exists parent log c,
    ch_id c = snowflake (next_snowflake w) /\
    route env no_faults message (Some cfg) w
    = (Ok tt,
       mkWorld
         (tickets w ++
          [Ticket.create (next_oid w) (u_id (author message)) (g_id g)
                         (snowflake (next_snowflake w)) (now w)])
         (messages w ++
          [Message.mk (S (next_oid w)) (next_oid w) (u_id (author message))
                      (content message) (attachments message) (now w) false])
         (guildsettings w) (blockedusers w) (guilds w)
         (channels w ++
          [mkChannel (snowflake (next_snowflake w)) (g_id g)
                     (Some (u_id (author message))) parent])
         (S (S (next_oid w))) (S (next_snowflake w)) (now w) (timers w)
         (outbox w ++
          ToChannel (snowflake (next_snowflake w)) (IntroNotice (u_id (author message)))
          :: log ++
          [ToUser (u_id (author message)) (TicketCreatedNotice (next_oid w));
           ToChannel (ch_id c) (RelayedContent (content message));
           ToUser (u_id (author message)) ReactOk])).
Proof.
  intros Hnone Hg.
  unfold route, find_or_create, Ticket_findOne.
  unfold bind at 1. unfold bind at 1. unfold bind at 1. unfold bind at 1.
  unfold fallible at 1. cbn [no_faults].
  unfold get at 1. unfold ret at 1. rewrite Hnone.
  unfold createTicket, resolve_guildConfig.
  unfold bind at 1. unfold try_catch at 1. unfold bind at 1. unfold ret at 1.
  unfold bind at 1. unfold get at 1. rewrite Hg.
  unfold open_ticket_in.
  unfold channels_create, channel_send, fresh_oid, Ticket_insert, user_send,
    resolve_channel, relay, channels_fetch, Message_insert, emit, modify,
    try_catch, bind, get, ret, fallible.
  cbn [no_faults].
  cbn [tickets messages guildsettings blockedusers guilds channels next_oid
       next_snowflake now timers outbox with_tickets with_messages with_channels
       with_next_oid with_next_snowflake with_timers with_outbox].
  assert (Hfetch : forall x : Channel,
             ch_id x = snowflake (next_snowflake w) ->
             exists c,
               find (fun ch0 => ch_id ch0 =? snowflake (next_snowflake w))
                    (channels w ++ [x]) = Some c /\
               ch_id c = snowflake (next_snowflake w)).
  { intros x Hx.
    destruct (find_app_last (fun ch0 => ch_id ch0 =? snowflake (next_snowflake w))
                (channels w) x) as (c & Hc & Hcid).
    - rewrite Hx. apply String.eqb_refl.
    - exists c. split; [exact Hc|]. apply String.eqb_eq in Hcid. exact Hcid. }
  destruct (truthy (LOG_CHANNEL_ID env));
    [destruct (guild_channels_cache_get _ (g_id g) (LOG_CHANNEL_ID env)) as [lc|]|];
    cbn;
    match goal with
    | |- context [find _ (channels w ++ [?x])] =>
        destruct (Hfetch x eq_refl) as (c & Hc & Hcid)
    end;
    rewrite Hc; cbn.
  - eexists _, [ToChannel (ch_id lc) (LogCreatedNotice (next_oid w))], c.
    split; [exact Hcid|]. repeat rewrite <- app_assoc. reflexivity.
  - eexists _, [], c.
    split; [exact Hcid|]. repeat rewrite <- app_assoc. reflexivity.
  - eexists _, [], c.
    split; [exact Hcid|]. repeat rewrite <- app_assoc. reflexivity.
Qed.

End FirstContact.

Lemma resolve_guild_of_candidate (env : Env) (cfg : GuildSetting.t) (w : World) :
  In cfg (filter_available (map g_id (guilds w)) (guildsettings w)) ->
  truthy (Some (GuildSetting.guild_id cfg)) = true ->
  exists g,
    resolve_guild env w (Some cfg) = Some g /\ g_id g = GuildSetting.guild_id cfg.
Proof.
  intros Hin Htruthy. apply filter_available_spec in Hin. destruct Hin as [_ Hin].
  destruct (guilds_cache_get_listed w _ Hin) as (g & Hg & Hid).
  exists g. unfold resolve_guild. rewrite Htruthy, Hg. split; [reflexivity | exact Hid].
Qed.

(** X2.  First contact.  The sender is not blocked, exactly one configured
    destination passes the filter, the sender has no open ticket there and
    every call goes through.  Then the direct message creates one open
    ticket for (sender, destination), one channel in that guild whose
    topic is the sender's id and to which the ticket is bound, records the
    message under the new ticket with [is_staff = false], and tells the
    sender the id of the ticket. *)
Theorem handleDM_first_contact (env : Env) (message : DirectMessage)
  (clicks : list ButtonClick) (w : World) (cfg : GuildSetting.t) :
  find (fun b => BlockedUser.user_id b =? u_id (author message)) (blockedusers w) = None ->
  filter_available (map g_id (guilds w)) (guildsettings w) = [cfg] ->
  truthy (Some (GuildSetting.guild_id cfg)) = true ->
  find (ticketQuery (u_id (author message)) cfg) (tickets w) = None ->
  exists w' parent,
    handleDM env no_faults message clicks w = (Ok tt, w') /\
    tickets w'
    = tickets w ++
      [Ticket.create (next_oid w) (u_id (author message)) (GuildSetting.guild_id cfg)
                     (snowflake (next_snowflake w)) (now w)] /\
    channels w'
    = channels w ++
      [mkChannel (snowflake (next_snowflake w)) (GuildSetting.guild_id cfg)
                 (Some (u_id (author message))) parent] /\
    messages w'
    = messages w ++
      [Message.mk (S (next_oid w)) (next_oid w) (u_id (author message))
                  (content message) (attachments message) (now w) false] /\
    In (ToUser (u_id (author message)) (TicketCreatedNotice (next_oid w))) (outbox w').
Proof.
  intros Hnb Ha Htruthy Hnone.
  destruct (resolve_guild_of_candidate env cfg w) as (g & Hg & Hid);
    [rewrite Ha; left; reflexivity | exact Htruthy |].
  rewrite (handleDM_single_destination env no_faults message clicks w cfg
             eq_refl eq_refl eq_refl Hnb Ha).
  destruct (route_new_ticket env message cfg w g Hnone Hg)
    as (parent & log & c & Hc & E).
  rewrite E, Hid. eexists. exists parent. split; [reflexivity|].
  cbn [tickets channels messages outbox].
  repeat (split; [reflexivity|]).
  apply in_or_app. right. right. apply in_or_app. right. left. reflexivity.
Qed.

Lemma handleDM_first_contact_witness :
  exists w',
    handleDM Scenario.env1 no_faults Scenario.hello [] Scenario.w_stranger = (Ok tt, w') /\
    tickets w' = [Ticket.create 10 "U" "G1" "100" 50] /\
    messages w' = [Message.mk 11 10 "U" "Hello" [] 50 false].
Proof.
  destruct (handleDM_first_contact Scenario.env1 Scenario.hello [] Scenario.w_stranger Scenario.cfg1
              eq_refl eq_refl eq_refl eq_refl)
    as (w' & parent & E & Ht & _ & Hm & _).
  exists w'. split; [exact E|]. split; [exact Ht | exact Hm].
Defined.

(** X3.  Two messages, one ticket.  Under the conditions of the first
    contact, a second direct message of the same sender finds the ticket
    the first one created: after both, the store holds exactly one new
    ticket, and both messages are recorded under it, in order. *)
Theorem handleDM_second_message_reuses_ticket (env : Env) (first second : DirectMessage)
  (clicks1 clicks2 : list ButtonClick) (w : World) (cfg : GuildSetting.t) :
  author second = author first ->
  find (fun b => BlockedUser.user_id b =? u_id (author first)) (blockedusers w) = None ->
  filter_available (map g_id (guilds w)) (guildsettings w) = [cfg] ->
  truthy (Some (GuildSetting.guild_id cfg)) = true ->
  find (ticketQuery (u_id (author first)) cfg) (tickets w) = None ->
  exists w1 w2,
    handleDM env no_faults first clicks1 w = (Ok tt, w1) /\
    handleDM env no_faults second clicks2 w1 = (Ok tt, w2) /\
    tickets w2
    = tickets w ++
      [Ticket.create (next_oid w) (u_id (author first)) (GuildSetting.guild_id cfg)
                     (snowflake (next_snowflake w)) (now w)] /\
    messages w2
    = messages w ++
      [Message.mk (S (next_oid w)) (next_oid w) (u_id (author first))
                  (content first) (attachments first) (now w) false;
       Message.mk (S (S (next_oid w))) (next_oid w) (u_id (author first))
                  (content second) (attachments second) (now w) false] /\
    channels w2 = channels w1.
Proof.
  intros Hsame Hnb Ha Htruthy Hnone.
  destruct (resolve_guild_of_candidate env cfg w) as (g & Hg & Hid);
    [rewrite Ha; left; reflexivity | exact Htruthy |].
  rewrite (handleDM_single_destination env no_faults first clicks1 w cfg
             eq_refl eq_refl eq_refl Hnb Ha).
  destruct (route_new_ticket env first cfg w g Hnone Hg)
    as (parent & log & c & Hc & E).
  rewrite E. clear E.
  match goal with
  | |- exists w1 w2, (Ok tt, ?x) = (Ok tt, w1) /\ _ => set (w1 := x)
  end.
  set (t := Ticket.create (next_oid w) (u_id (author first)) (g_id g)
                          (snowflake (next_snowflake w)) (now w)).
  assert (Hq : find (ticketQuery (u_id (author second)) cfg) (tickets w1) = Some t).
  { rewrite Hsame. apply find_app_none; [exact Hnone|].
    unfold ticketQuery, open_ticket_of. rewrite Htruthy.
    cbn. rewrite Hid, !String.eqb_refl. reflexivity. }
  destruct (find_app_last
              (fun ch => ch_id ch =? Ticket.channel_id t) (channels w)
              (mkChannel (snowflake (next_snowflake w)) (g_id g)
                         (Some (u_id (author first))) parent)
              (String.eqb_refl _)) as (c' & Hc' & _).
  exists w1. eexists. split; [reflexivity|].
  rewrite (handleDM_single_destination env no_faults second clicks2 w1 cfg
             eq_refl eq_refl eq_refl).
  - rewrite (route_existing_ticket env second cfg w1 t c' Hq Hc').
    split; [reflexivity|]. cbn [tickets messages channels]. subst t w1.
    cbn [tickets messages channels next_oid now Ticket._id Ticket.create].
    rewrite Hid, Hsame, <- app_assoc. repeat split.
  - rewrite Hsame. exact Hnb.
  - exact Ha.
Qed.

Lemma handleDM_second_message_witness :
  exists w1 w2,
    handleDM Scenario.env1 no_faults Scenario.hello [] Scenario.w_stranger = (Ok tt, w1) /\
    handleDM Scenario.env1 no_faults Situation.second [] w1 = (Ok tt, w2) /\
    map Ticket._id (tickets w2) = [10%nat] /\
    map (fun m => (Message.ticket_id m, Message.content m)) (messages w2)
    = [(10%nat, "Hello"); (10%nat, "Anyone there?")].
Proof.
  destruct (handleDM_second_message_reuses_ticket Scenario.env1 Scenario.hello Situation.second
              [] [] Scenario.w_stranger Scenario.cfg1
              eq_refl eq_refl eq_refl eq_refl eq_refl)
    as (w1 & w2 & E1 & E2 & Ht & Hm & _).
  exists w1, w2. split; [exact E1|]. split; [exact E2|].
  rewrite Ht, Hm. split; reflexivity.
Defined.

(** X4.  Sticky routing.  The sender is eligible for several destinations
    and already has an open ticket whose destination is one of them, and
    the channel of that ticket exists.  Then no selection prompt is shown
    and the clicks play no part: the message is forwarded into the channel
    of the existing ticket, recorded under it, and no ticket or channel is
    created. *)
Theorem handleDM_sticky_routing (env : Env) (message : DirectMessage)
  (clicks : list ButtonClick) (w : World) (e : Ticket.t) (cfg : GuildSetting.t)
  (c : Channel) :
  find (fun b => BlockedUser.user_id b =? u_id (author message)) (blockedusers w) = None ->
  (1 < List.length (filter_available (map g_id (guilds w)) (guildsettings w)))%nat ->
  find (open_ticket_of (u_id (author message))) (tickets w) = Some e ->
  find (fun g => same_id (Ticket.guild_id e) (GuildSetting.guild_id g))
       (filter_available (map g_id (guilds w)) (guildsettings w)) = Some cfg ->
  find (fun ch => ch_id ch =? Ticket.channel_id e) (channels w) = Some c ->
  handleDM env no_faults message clicks w
  = (Ok tt,
     mkWorld (tickets w)
       (messages w ++
        [Message.mk (next_oid w) (Ticket._id e) (u_id (author message))
                    (content message) (attachments message) (now w) false])
       (guildsettings w) (blockedusers w) (guilds w) (channels w)
       (S (next_oid w)) (next_snowflake w) (now w) (timers w)
       (outbox w ++ [ToChannel (ch_id c) (RelayedContent (content message));
                     ToUser (u_id (author message)) ReactOk])).
Proof.
  intros Hnb Hlen He Hcfg Hc.
  rewrite (handleDM_sticky_destination env no_faults message clicks w e
             eq_refl eq_refl eq_refl eq_refl Hnb Hlen He).
  rewrite Hcfg. apply route_existing_ticket; [|exact Hc].
  apply (find_refine (open_ticket_of (u_id (author message)))); [|exact He|].
  - intros y Hy. unfold ticketQuery in Hy. apply andb_prop in Hy. apply Hy.
  - unfold ticketQuery. apply find_some in He. destruct He as [_ Ho]. rewrite Ho.
    apply find_some in Hcfg. destruct Hcfg as [_ Hs]. simpl in Hs. rewrite Hs.
    destruct (truthy _); reflexivity.
Qed.

Lemma handleDM_sticky_routing_witness :
  exists w',
    handleDM Scenario.env1 no_faults Scenario.hello [Scenario.click_G1]
      Situation.w_sticky = (Ok tt, w') /\
    tickets w' = tickets Situation.w_sticky /\
    outbox w' = [ToChannel "c2" (RelayedContent "Hello"); ToUser "U" ReactOk].
Proof.
  eexists. split.
  - apply (handleDM_sticky_routing Scenario.env1 Scenario.hello [Scenario.click_G1]
             Situation.w_sticky (Scenario.ticket 1 "G2" "c2" open) Scenario.cfg2
             Scenario.channel_c2); try reflexivity.
    vm_compute. lia.
  - split; reflexivity.
Defined.

(** X5.  A stranded conversation.  The sender is eligible for several
    destinations and has an open ticket whose destination is none of
    them.  Then the message is answered with the notice that no servers
    are configured; no prompt is shown, and nothing is created or
    recorded. *)
Theorem handleDM_open_ticket_elsewhere_blocks (env : Env) (message : DirectMessage)
  (clicks : list ButtonClick) (w : World) (e : Ticket.t) :
  find (fun b => BlockedUser.user_id b =? u_id (author message)) (blockedusers w) = None ->
  (1 < List.length (filter_available (map g_id (guilds w)) (guildsettings w)))%nat ->
  find (open_ticket_of (u_id (author message))) (tickets w) = Some e ->
  find (fun g => same_id (Ticket.guild_id e) (GuildSetting.guild_id g))
       (filter_available (map g_id (guilds w)) (guildsettings w)) = None ->
  handleDM env no_faults message clicks w
  = (Ok tt, with_outbox w (outbox w ++ [ToUser (u_id (author message)) NoServersNotice])).
Proof.
  intros Hnb Hlen He Hcfg.
  rewrite (handleDM_sticky_destination env no_faults message clicks w e
             eq_refl eq_refl eq_refl eq_refl Hnb Hlen He).
  rewrite Hcfg. reflexivity.
Qed.

Lemma handleDM_open_ticket_elsewhere_witness :
  handleDM Scenario.env1 no_faults Scenario.hello [] Situation.w_stranded
  = (Ok tt, with_outbox Situation.w_stranded [ToUser "U" NoServersNotice]).
Proof.
  apply (handleDM_open_ticket_elsewhere_blocks Scenario.env1 Scenario.hello []
           Situation.w_stranded (Scenario.ticket 1 "G3" "c3" open));
    try reflexivity.
  vm_compute. lia.
Defined.


(** ** createTicket and its channel *)

Lemma open_ticket_in_binds_channel (env : Env) (faults : Faults) (user : User)
  (guildConfig : option GuildSetting.t) (guild : Guild) (w w' : World) (t : Ticket.t) :
  open_ticket_in env faults user guildConfig guild w = (Ok t, w') ->
  Ticket.guild_id t = Some (g_id guild) /\
  Ticket.user_id t = u_id user /\
  Ticket.status t = open /\
  In t (tickets w') /\
  exists parent,
    In (mkChannel (Ticket.channel_id t) (g_id guild) (Some (u_id user)) parent)
       (channels w').
Proof.
  unfold open_ticket_in, channels_create, channel_send, fresh_oid, Ticket_insert,
    emit, modify, bind, get, ret, fallible.
  destruct (faults CT_channel_create); [discriminate|].
  destruct (faults CT_intro_send); [discriminate|].
  destruct (faults CT_ticket_save); [discriminate|].
  cbn [tickets with_tickets with_next_oid with_outbox with_next_snowflake
       with_channels next_oid now channels ch_id].
  destruct (truthy (LOG_CHANNEL_ID env));
    [match goal with
     | |- context [guild_channels_cache_get ?a ?b (LOG_CHANNEL_ID env)] =>
         destruct (guild_channels_cache_get a b (LOG_CHANNEL_ID env));
         [destruct (faults CT_log_send); [discriminate|]|]
     end|];
    cbn; intros E; inversion E; subst t w'; clear E; cbn;
    (split; [reflexivity|]); (split; [reflexivity|]); (split; [reflexivity|]);
    (split; [apply in_or_app; right; left; reflexivity|]);
    eexists; apply in_or_app; right; left; reflexivity.
Qed.

(** X6.  Whatever fails along the way, a ticket returned by
    [createTicket] is an open ticket of the user that is in the store,
    and the platform holds a channel with the ticket's [channel_id], in
    the ticket's guild, whose topic is the id of the user. *)
Theorem createTicket_binds_channel_to_user (env : Env) (faults : Faults)
  (user : User) (guildConfig : option GuildSetting.t) (w w' : World) (t : Ticket.t) :
  createTicket env faults user guildConfig w = (Ok (Some t), w') ->
  Ticket.user_id t = u_id user /\
  Ticket.status t = open /\
  In t (tickets w') /\
  exists guild parent,
    Ticket.guild_id t = Some guild /\
    In (mkChannel (Ticket.channel_id t) guild (Some (u_id user)) parent) (channels w').
Proof.
  intros E.
  destruct (resolve_guildConfig_pure faults guildConfig w) as (cfg & Ecfg & _).
  unfold createTicket, try_catch in E. unfold bind at 1 in E. rewrite Ecfg in E.
  unfold bind at 1 in E. unfold get at 1 in E.
  destruct (resolve_guild env w cfg) as [guild|]; [|discriminate].
  unfold bind in E.
  destruct (open_ticket_in env faults user cfg guild w) as [[t1|] w1] eqn:Eo;
    [|discriminate].
  unfold ret in E. inversion E; subst t1 w1. clear E.
  destruct (open_ticket_in_binds_channel env faults user cfg guild w w' t Eo)
    as (Hg & Hu & Hs & Hin & parent & Hc).
  repeat split; auto. exists (g_id guild), parent. split; assumption.
Qed.

Lemma createTicket_binds_channel_witness :
  exists t w',
    createTicket Scenario.env1 no_faults Scenario.alice (Some Scenario.cfg1)
      Scenario.w_stranger = (Ok (Some t), w') /\
    Ticket.channel_id t = "100" /\
    In (mkChannel "100" "G1" (Some "U") None) (channels w').
Proof.
  eexists. eexists. split; [vm_compute; reflexivity|].
  split; [reflexivity|].
  destruct (createTicket_binds_channel_to_user Scenario.env1 no_faults Scenario.alice
              (Some Scenario.cfg1) Scenario.w_stranger _ _ eq_refl)
    as (_ & _ & _ & guild & parent & Hg & Hc).
  left. reflexivity.
Defined.

(** ** The staff side of the relay *)

Section StaffRelay.

Variable sites : SiteFaults.

(** X7.  Whatever fails, a message in a staff channel never changes a
    ticket, a channel or a configuration.  It records at most one Message
    row, and only when the open ticket bound to this very channel was
    found and the direct message to the user named by the topic was
    delivered; the row belongs to that ticket and has [is_staff = true].
    The handler rejects only when one of its two warnings could not be
    posted, and then it has sent and recorded nothing. *)
Theorem handleModMailChannel_records_only_delivered (message : ChannelMessage)
  (w : World) :
  exists r w',
    handleModMailChannel sites message w = (r, w') /\
    tickets w' = tickets w /\ channels w' = channels w /\
    guildsettings w' = guildsettings w /\
    (messages w' = messages w \/
     exists t user,
       r = Ok [] /\
       find (open_ticket_of_channel (ch_id (cm_channel message))) (tickets w) = Some t /\
       ch_topic (cm_channel message) = Some user /\
       In (ToUser user (RelayedContent (cm_content message))) (outbox w') /\
       messages w'
       = messages w ++
         [Message.mk (next_oid w) (Ticket._id t) (u_id (cm_author message))
                     (cm_content message) (cm_attachments message) (now w) true]) /\
    (r = Throw ->
     messages w' = messages w /\ outbox w' = outbox w /\
     (sites MM_no_ticket_reply = true \/ sites MM_no_user_reply = true)).
Proof.
  unfold handleModMailChannel.
  destruct (cm_author_bot message).
  { do 2 eexists. split; [reflexivity|]. do 3 (split; [reflexivity|]).
    split; [left; reflexivity | discriminate]. }
  destruct (ch_topic (cm_channel message)) as [user|] eqn:Htopic.
  2:{ do 2 eexists. split; [reflexivity|]. do 3 (split; [reflexivity|]).
      split; [left; reflexivity | discriminate]. }
  destruct (truthy (Some user)); cbn [negb].
  2:{ do 2 eexists. split; [reflexivity|]. do 3 (split; [reflexivity|]).
      split; [left; reflexivity | discriminate]. }
  unfold try_catch, failing, emit, fresh_oid, modify, bind, get, ret.
  destruct (sites MM_findOne).
  { destruct (sites MM_failed_reply);
      do 2 eexists; (split; [reflexivity|]); do 3 (split; [reflexivity|]);
      (split; [left; reflexivity | discriminate]). }
  destruct (find _ (tickets w)) as [t|] eqn:Hfind.
  - destruct (sites MM_user_fetch).
    { destruct (sites MM_no_user_reply) eqn:Hr;
        do 2 eexists; (split; [reflexivity|]); do 3 (split; [reflexivity|]);
        (split; [left; reflexivity|]);
        first [discriminate | intros _; repeat split; right; reflexivity]. }
    destruct (sites MM_user_send).
    { destruct (sites MM_failed_reply);
        do 2 eexists; (split; [reflexivity|]); do 3 (split; [reflexivity|]);
        (split; [left; reflexivity | discriminate]). }
    destruct (sites MM_react).
    { destruct (sites MM_failed_reply);
        do 2 eexists; (split; [reflexivity|]); do 3 (split; [reflexivity|]);
        (split; [left; reflexivity | discriminate]). }
    destruct (sites MM_message_save).
    { destruct (sites MM_failed_reply);
        do 2 eexists; (split; [reflexivity|]); do 3 (split; [reflexivity|]);
        (split; [left; reflexivity | discriminate]). }
    do 2 eexists. split; [reflexivity|]. do 3 (split; [reflexivity|]).
    split; [|discriminate].
    right. exists t, user. do 3 (split; [reflexivity|]).
    split; [|reflexivity].
    cbn. apply in_or_app. left. apply in_or_app. right. left. reflexivity.
  - destruct (sites MM_no_ticket_reply) eqn:Hr;
      do 2 eexists; (split; [reflexivity|]); do 3 (split; [reflexivity|]);
      (split; [left; reflexivity|]);
      first [discriminate | intros _; repeat split; left; reflexivity].
Qed.

End StaffRelay.

(** the relay when the five calls on its way go through *)
Lemma handleModMailChannel_delivery (sites : SiteFaults) (message : ChannelMessage)
  (w : World) (user : string) (t : Ticket.t) :
  cm_author_bot message = false ->
  ch_topic (cm_channel message) = Some user ->
  user <> "" ->
  find (open_ticket_of_channel (ch_id (cm_channel message))) (tickets w) = Some t ->
  sites MM_findOne = false ->
  sites MM_user_fetch = false ->
  sites MM_user_send = false ->
  sites MM_react = false ->
  sites MM_message_save = false ->
  handleModMailChannel sites message w
  = (Ok [],
     mkWorld (tickets w)
       (messages w ++
        [Message.mk (next_oid w) (Ticket._id t) (u_id (cm_author message))
                    (cm_content message) (cm_attachments message) (now w) true])
       (guildsettings w) (blockedusers w) (guilds w) (channels w)
       (S (next_oid w)) (next_snowflake w) (now w) (timers w)
       (outbox w ++ [ToUser user (RelayedContent (cm_content message));
                     ToChannel (ch_id (cm_channel message)) ReactOk])).
Proof.
  intros Hbot Htopic Hne Hfind H1 H2 H3 H4 H5. unfold handleModMailChannel.
  rewrite Hbot, Htopic. apply String.eqb_neq in Hne. cbn [truthy]. rewrite Hne.
  cbn [negb].
  unfold try_catch, failing, emit, fresh_oid, modify, bind, get, ret.
  rewrite H1, Hfind, H2, H3, H4, H5. cbn. rewrite <- app_assoc. reflexivity.
Qed.

(** X8.  A staff reply.  The author is not a bot, the channel's topic
    names a user, an open ticket is bound to the channel and every call
    goes through.  Then the content is sent to that user, the staff
    message gets its reaction, one Message row with [is_staff = true] is
    recorded under the ticket, no reply is posted in the channel, and the
    ticket is left as it was. *)
Theorem handleModMailChannel_relays_to_user (message : ChannelMessage) (w : World)
  (user : string) (t : Ticket.t) :
  cm_author_bot message = false ->
  ch_topic (cm_channel message) = Some user ->
  user <> "" ->
  find (open_ticket_of_channel (ch_id (cm_channel message))) (tickets w) = Some t ->
  handleModMailChannel no_site_faults message w
  = (Ok [],
     mkWorld (tickets w)
       (messages w ++
        [Message.mk (next_oid w) (Ticket._id t) (u_id (cm_author message))
                    (cm_content message) (cm_attachments message) (now w) true])
       (guildsettings w) (blockedusers w) (guilds w) (channels w)
       (S (next_oid w)) (next_snowflake w) (now w) (timers w)
       (outbox w ++ [ToUser user (RelayedContent (cm_content message));
                     ToChannel (ch_id (cm_channel message)) ReactOk])).
Proof.
  intros Hbot Htopic Hne Hfind.
  apply handleModMailChannel_delivery; auto.
Qed.

Lemma handleModMailChannel_relays_witness :
  exists w',
    handleModMailChannel no_site_faults
      (mkChannelMessage (mkUser "S1" "staff") false Scenario.channel_c1 "We can help" [])
      Scenario.w_open = (Ok [], w') /\
    messages w' = [Message.mk 10 1 "S1" "We can help" [] 50 true] /\
    map Ticket.status (tickets w') = [open].
Proof.
  eexists. split.
  - apply (handleModMailChannel_relays_to_user _ Scenario.w_open "U"
             (Scenario.ticket 1 "G1" "c1" open)); try reflexivity.
    discriminate.
  - split; reflexivity.
Defined.

(** X9.  Delivered but not recorded.  When the direct message to the user
    has gone out and the reaction on the staff message then rejects, the
    handler answers "Failed to send message to user" and records no
    Message row, although the user has received the content. *)
Theorem handleModMailChannel_react_failure_loses_record (sites : SiteFaults)
  (message : ChannelMessage) (w : World) (user : string) (t : Ticket.t) :
  cm_author_bot message = false ->
  ch_topic (cm_channel message) = Some user ->
  user <> "" ->
  find (open_ticket_of_channel (ch_id (cm_channel message))) (tickets w) = Some t ->
  sites MM_findOne = false ->
  sites MM_user_fetch = false ->
  sites MM_user_send = false ->
  sites MM_react = true ->
  sites MM_failed_reply = false ->
  handleModMailChannel sites message w
  = (Ok [FailedToSend],
     with_outbox w (outbox w ++ [ToUser user (RelayedContent (cm_content message))])).
Proof.
  intros Hbot Htopic Hne Hfind H1 H2 H3 H4 H5. unfold handleModMailChannel.
  rewrite Hbot, Htopic. apply String.eqb_neq in Hne. cbn [truthy]. rewrite Hne.
  cbn [negb].
  unfold try_catch, failing, emit, fresh_oid, modify, bind, get, ret.
  rewrite H1, Hfind, H2, H3, H4, H5. reflexivity.
Qed.

Lemma handleModMailChannel_react_failure_witness :
  handleModMailChannel Situation.react_refused (Situation.staff_says "We can help")
    Scenario.w_open
  = (Ok [FailedToSend],
     with_outbox Scenario.w_open [ToUser "U" (RelayedContent "We can help")]).
Proof.
  apply (handleModMailChannel_react_failure_loses_record Situation.react_refused
           (Situation.staff_says "We can help") Scenario.w_open "U"
           (Scenario.ticket 1 "G1" "c1" open)); try reflexivity.
  discriminate.
Defined.

(** X10.  Round trip.  After a first contact, a staff message posted in
    the channel that was created for it (the platform having handed out a
    channel id no open ticket was bound to) reaches the sender and is
    recorded under the same ticket: the history of the ticket is the
    user's message followed by the staff reply, and the ticket is still
    open. *)
Theorem staff_reply_after_first_contact (env : Env) (first : DirectMessage)
  (clicks : list ButtonClick) (w : World) (cfg : GuildSetting.t)
  (staff : User) (text : string) (files : list string) :
  find (fun b => BlockedUser.user_id b =? u_id (author first)) (blockedusers w) = None ->
  filter_available (map g_id (guilds w)) (guildsettings w) = [cfg] ->
  truthy (Some (GuildSetting.guild_id cfg)) = true ->
  find (ticketQuery (u_id (author first)) cfg) (tickets w) = None ->
  u_id (author first) <> "" ->
  find (open_ticket_of_channel (snowflake (next_snowflake w))) (tickets w) = None ->
  exists w1 w2 created,
    handleDM env no_faults first clicks w = (Ok tt, w1) /\
    In created (channels w1) /\
    ch_id created = snowflake (next_snowflake w) /\
    handleModMailChannel no_site_faults
      (mkChannelMessage staff false created text files) w1 = (Ok [], w2) /\
    tickets w2
    = tickets w ++
      [Ticket.create (next_oid w) (u_id (author first)) (GuildSetting.guild_id cfg)
                     (snowflake (next_snowflake w)) (now w)] /\
    messages w2
    = messages w ++
      [Message.mk (S (next_oid w)) (next_oid w) (u_id (author first))
                  (content first) (attachments first) (now w) false;
       Message.mk (S (S (next_oid w))) (next_oid w) (u_id staff) text files (now w) true] /\
    In (ToUser (u_id (author first)) (RelayedContent text)) (outbox w2).
Proof.
  intros Hnb Ha Htruthy Hnone Hne Hfresh.
  destruct (resolve_guild_of_candidate env cfg w) as (g & Hg & Hid);
    [rewrite Ha; left; reflexivity | exact Htruthy |].
  rewrite (handleDM_single_destination env no_faults first clicks w cfg
             eq_refl eq_refl eq_refl Hnb Ha).
  destruct (route_new_ticket env first cfg w g Hnone Hg)
    as (parent & log & c & Hc & E).
  rewrite E. clear E.
  match goal with
  | |- exists w1 w2 created, (Ok tt, ?x) = (Ok tt, w1) /\ _ => set (w1 := x)
  end.
  set (created := mkChannel (snowflake (next_snowflake w)) (g_id g)
                            (Some (u_id (author first))) parent).
  set (t := Ticket.create (next_oid w) (u_id (author first)) (g_id g)
                          (snowflake (next_snowflake w)) (now w)).
  assert (Hq : find (open_ticket_of_channel (ch_id created)) (tickets w1) = Some t).
  { apply find_app_none; [exact Hfresh|].
    unfold open_ticket_of_channel. cbn. rewrite String.eqb_refl. reflexivity. }
  exists w1. eexists. exists created.
  split; [reflexivity|].
  split; [cbn; apply in_or_app; right; left; reflexivity|].
  split; [reflexivity|].
  rewrite (handleModMailChannel_delivery no_site_faults
             (mkChannelMessage staff false created text files) w1
             (u_id (author first)) t eq_refl eq_refl Hne Hq
             eq_refl eq_refl eq_refl eq_refl eq_refl).
  split; [reflexivity|]. subst t w1.
  cbn [tickets messages outbox next_oid now Ticket._id Ticket.create
       cm_author cm_content cm_attachments].
  split; [rewrite Hid; reflexivity|].
  split; [rewrite <- app_assoc; reflexivity|].
  apply in_or_app. right. left. reflexivity.
Qed.

Lemma staff_reply_after_first_contact_witness :
  exists w1 w2 created,
    handleDM Scenario.env1 no_faults Scenario.hello [] Scenario.w_stranger = (Ok tt, w1) /\
    handleModMailChannel no_site_faults
      (mkChannelMessage (mkUser "S1" "staff") false created "We can help" []) w1
    = (Ok [], w2) /\
    map (fun m => (Message.ticket_id m, Message.content m, Message.is_staff m))
        (messages w2)
    = [(10%nat, "Hello", false); (10%nat, "We can help", true)].
Proof.
  destruct (staff_reply_after_first_contact Scenario.env1 Scenario.hello []
              Scenario.w_stranger Scenario.cfg1 (mkUser "S1" "staff") "We can help" []
              eq_refl eq_refl eq_refl eq_refl)
    as (w1 & w2 & created & E1 & _ & _ & E2 & _ & Hm & _);
    [discriminate | reflexivity |].
  exists w1, w2, created. split; [exact E1|]. split; [exact E2|].
  rewrite Hm. reflexivity.
Defined.

(** ** The dashboard handlers *)

Lemma filter_all {A} (p : A -> bool) (l : list A) :
  (forall x, In x l -> p x = true) -> filter p l = l.
Proof.
  induction l as [|a l IH]; simpl; intros H; [reflexivity|].
  rewrite (H a (or_introl eq_refl)). f_equal. apply IH.
  intros x Hx. apply H. right. exact Hx.
Qed.

(** X11.  Deleting a ticket from the dashboard, every call going through:
    the ticket row is gone, so is every Message row of that ticket, and
    so is its channel if it was still there; all other tickets, messages
    and channels are kept. *)
Theorem delete_handler_cascades (faults : Faults) (req : Request) (w : World)
  (t : Ticket.t) :
  find (fun x => Nat.eqb (Ticket._id x) (params_id req)) (tickets w) = Some t ->
  faults API_findById = false ->
  faults API_channel_fetch = false ->
  faults API_channel_delete = false ->
  faults API_deleteMany = false ->
  faults API_findByIdAndDelete = false ->
  exists w',
    delete_handler faults req w = (Ok JsonSuccess, w') /\
    tickets w' = filter (fun x => negb (Nat.eqb (Ticket._id x) (params_id req))) (tickets w) /\
    messages w'
    = filter (fun m => negb (Nat.eqb (Message.ticket_id m) (params_id req))) (messages w) /\
    channels w'
    = filter (fun c => negb (ch_id c =? Ticket.channel_id t)) (channels w).
Proof.
  intros Hfind H1 H2 H3 H4 H5.
  assert (Hid : Ticket._id t = params_id req).
  { apply find_some in Hfind. destruct Hfind as [_ E]. apply Nat.eqb_eq in E. exact E. }
  unfold delete_handler, Ticket_findById, Ticket_findOne, channels_fetch_or_null,
    channels_fetch, channel_delete.
  unfold try_catch, bind, get, modify, ret, throw, fallible.
  rewrite H1, Hfind, H2.
  destruct (find (fun ch => ch_id ch =? Ticket.channel_id t) (channels w)) as [c|] eqn:Hc.
  - rewrite H3.
    assert (Hcid : ch_id c = Ticket.channel_id t).
    { apply find_some in Hc. destruct Hc as [_ E]. apply String.eqb_eq in E. exact E. }
    assert (Hex : existsb (fun ch => ch_id ch =? ch_id c) (channels w) = true).
    { apply existsb_exists. exists c. apply find_some in Hc. destruct Hc as [Hin _].
      split; [exact Hin | apply String.eqb_refl]. }
    rewrite Hex, H4, H5. cbn. eexists. split; [reflexivity|].
    rewrite Hid, Hcid. repeat split.
  - rewrite H4, H5. cbn. eexists. split; [reflexivity|].
    rewrite Hid. split; [reflexivity|]. split; [reflexivity|].
    symmetry. apply filter_all. intros x Hx.
    pose proof (find_none _ _ Hc x Hx) as Hn. simpl in Hn. rewrite Hn. reflexivity.
Qed.

Lemma delete_handler_cascades_witness :
  exists w',
    delete_handler no_faults (Scenario.request_by "S1") Situation.w_history
    = (Ok JsonSuccess, w') /\
    map Ticket._id (tickets w') = [2%nat] /\
    map Message._id (messages w') = [4%nat] /\
    channels w' = [].
Proof.
  destruct (delete_handler_cascades no_faults (Scenario.request_by "S1")
              Situation.w_history (Scenario.ticket 1 "G1" "c1" open)
              eq_refl eq_refl eq_refl eq_refl eq_refl eq_refl)
    as (w' & E & Ht & Hm & Hc).
  exists w'. split; [exact E|]. rewrite Ht, Hm, Hc. repeat split.
Defined.

(** X12.  Whatever fails during a dashboard delete, the handler answers
    (it never throws), no ticket other than the target and no message of
    another ticket is removed, and nothing is added. *)
Theorem delete_handler_spares_other_tickets (faults : Faults) (req : Request)
  (w : World) :
  exists r w',
    delete_handler faults req w = (Ok r, w') /\
    (forall x, In x (tickets w) -> Ticket._id x <> params_id req -> In x (tickets w')) /\
    (forall m, In m (messages w) -> Message.ticket_id m <> params_id req ->
               In m (messages w')) /\
    incl (tickets w') (tickets w) /\ incl (messages w') (messages w).
Proof.
  assert (Hm : forall m, In m (messages w) -> Message.ticket_id m <> params_id req ->
                         In m (filter (fun m => negb (Nat.eqb (Message.ticket_id m)
                                                             (params_id req)))
                                      (messages w))).
  { intros m Hin Hne. apply filter_In. split; [exact Hin|].
    apply Nat.eqb_neq in Hne. rewrite Hne. reflexivity. }
  assert (Ht : forall x, In x (tickets w) -> Ticket._id x <> params_id req ->
                         In x (filter (fun x => negb (Nat.eqb (Ticket._id x)
                                                             (params_id req)))
                                      (tickets w))).
  { intros x Hin Hne. apply filter_In. split; [exact Hin|].
    apply Nat.eqb_neq in Hne. rewrite Hne. reflexivity. }
  unfold delete_handler, Ticket_findById, Ticket_findOne, channels_fetch_or_null,
    channels_fetch, channel_delete.
  unfold try_catch, bind, get, modify, ret, throw, fallible.
  destruct (faults API_findById);
    [do 2 eexists; split; [reflexivity|]; repeat split; auto using incl_refl|].
  destruct (find _ (tickets w)) as [t|] eqn:Hfind;
    [|do 2 eexists; split; [reflexivity|]; repeat split; auto using incl_refl].
  assert (Hid : Ticket._id t = params_id req).
  { apply find_some in Hfind. destruct Hfind as [_ E]. apply Nat.eqb_eq in E. exact E. }
  rewrite Hid.
  destruct (faults API_channel_fetch); cbn;
    [|destruct (find (fun ch => ch_id ch =? Ticket.channel_id t) (channels w)) as [c|];
      cbn;
      [destruct (faults API_channel_delete); cbn;
       [|destruct (existsb _ (channels w)); cbn]|]];
    try (destruct (faults API_deleteMany); cbn;
         [|destruct (faults API_findByIdAndDelete); cbn]);
    do 2 eexists; (split; [reflexivity|]); cbn;
    repeat split; auto using incl_refl, incl_filter.
Qed.

(** X13.  The dashboard delete is not atomic.  When the removal of the
    ticket row rejects after the messages have been removed, the answer
    is the error 500, the ticket is still in the store, and its Message
    rows (and its channel) are gone. *)
Theorem delete_handler_partial_failure (faults : Faults) (req : Request) (w : World)
  (t : Ticket.t) :
  find (fun x => Nat.eqb (Ticket._id x) (params_id req)) (tickets w) = Some t ->
  faults API_findById = false ->
  faults API_channel_fetch = false ->
  faults API_channel_delete = false ->
  faults API_deleteMany = false ->
  faults API_findByIdAndDelete = true ->
  exists w',
    delete_handler faults req w = (Ok (JsonError 500 "Failed to delete ticket"), w') /\
    tickets w' = tickets w /\
    messages w'
    = filter (fun m => negb (Nat.eqb (Message.ticket_id m) (params_id req))) (messages w) /\
    channels w'
    = filter (fun c => negb (ch_id c =? Ticket.channel_id t)) (channels w).
Proof.
  intros Hfind H1 H2 H3 H4 H5.
  assert (Hid : Ticket._id t = params_id req).
  { apply find_some in Hfind. destruct Hfind as [_ E]. apply Nat.eqb_eq in E. exact E. }
  unfold delete_handler, Ticket_findById, Ticket_findOne, channels_fetch_or_null,
    channels_fetch, channel_delete.
  unfold try_catch, bind, get, modify, ret, throw, fallible.
  rewrite H1, Hfind, H2.
  destruct (find (fun ch => ch_id ch =? Ticket.channel_id t) (channels w)) as [c|] eqn:Hc.
  - rewrite H3.
    assert (Hcid : ch_id c = Ticket.channel_id t).
    { apply find_some in Hc. destruct Hc as [_ E]. apply String.eqb_eq in E. exact E. }
    assert (Hex : existsb (fun ch => ch_id ch =? ch_id c) (channels w) = true).
    { apply existsb_exists. exists c. apply find_some in Hc. destruct Hc as [Hin _].
      split; [exact Hin | apply String.eqb_refl]. }
    rewrite Hex, H4, H5. cbn. eexists. split; [reflexivity|].
    rewrite Hid, Hcid. repeat split.
  - rewrite H4, H5. cbn. eexists. split; [reflexivity|].
    rewrite Hid. split; [reflexivity|]. split; [reflexivity|].
    symmetry. apply filter_all. intros x Hx.
    pose proof (find_none _ _ Hc x Hx) as Hn. simpl in Hn. rewrite Hn. reflexivity.
Qed.

Lemma delete_handler_partial_failure_witness :
  exists w',
    delete_handler Situation.ticket_delete_refused (Scenario.request_by "S1")
      Situation.w_history
    = (Ok (JsonError 500 "Failed to delete ticket"), w') /\
    map Ticket._id (tickets w') = [1%nat; 2%nat] /\
    map Message._id (messages w') = [4%nat].
Proof.
  destruct (delete_handler_partial_failure Situation.ticket_delete_refused
              (Scenario.request_by "S1") Situation.w_history
              (Scenario.ticket 1 "G1" "c1" open)
              eq_refl eq_refl eq_refl eq_refl eq_refl eq_refl)
    as (w' & E & Ht & Hm & _).
  exists w'. split; [exact E|]. rewrite Ht, Hm. split; reflexivity.
Defined.

(** X14.  Closing from the dashboard succeeds whenever the ticket is open
    and the lookup, the deletion of a channel that was found and the save
    go through: the stored ticket becomes closed with [closed_at] the
    current time and [closed_by] the caller.  A channel that cannot be
    fetched and a user who cannot be notified do not stand in the way, and
    no channel is ever created. *)
Theorem close_handler_closes_open_ticket (faults : Faults) (req : Request)
  (w : World) (t : Ticket.t) (staff : string) :
  find (fun x => Nat.eqb (Ticket._id x) (params_id req)) (tickets w) = Some t ->
  Ticket.status t = open ->
  session_user req = Some staff ->
  faults API_findById = false ->
  faults API_channel_delete = false ->
  faults API_save = false ->
  exists w',
    close_handler faults req w = (Ok JsonSuccess, w') /\
    tickets w' = replace_ticket (Ticket.close t (now w) staff) (tickets w) /\
    incl (channels w') (channels w) /\
    messages w' = messages w.
Proof.
  intros Hfind Hopen Hs H1 H2 H3.
  unfold close_handler, Ticket_findById, Ticket_findOne, channels_fetch_or_null,
    channels_fetch, channel_delete, session_user_id, Ticket_save, user_send, emit.
  unfold try_catch, bind, get, modify, ret, throw, fallible.
  rewrite H1, Hfind, Hopen, Hs. cbn [Status_eqb].
  destruct (faults API_channel_fetch); cbn.
  - rewrite H3. destruct (faults API_user_fetch); [|destruct (faults API_user_send)];
      cbn; eexists; (split; [reflexivity|]); cbn; repeat split; auto using incl_refl.
  - destruct (find (fun ch => ch_id ch =? Ticket.channel_id t) (channels w)) as [c|] eqn:Hc;
      cbn.
    + rewrite H2.
      assert (Hex : existsb (fun ch => ch_id ch =? ch_id c) (channels w) = true).
      { apply existsb_exists. exists c. apply find_some in Hc. destruct Hc as [Hin _].
        split; [exact Hin | apply String.eqb_refl]. }
      rewrite Hex. cbn. rewrite H3.
      destruct (faults API_user_fetch); [|destruct (faults API_user_send)];
        cbn; eexists; (split; [reflexivity|]); cbn;
        repeat split; auto using incl_filter.
    + rewrite H3. destruct (faults API_user_fetch); [|destruct (faults API_user_send)];
        cbn; eexists; (split; [reflexivity|]); cbn; repeat split; auto using incl_refl.
Qed.

Lemma close_handler_closes_witness :
  exists w',
    close_handler no_faults (Scenario.request_by "S1") Scenario.w_open
    = (Ok JsonSuccess, w') /\
    tickets w' = [Ticket.close (Scenario.ticket 1 "G1" "c1" open) 50 "S1"].
Proof.
  destruct (close_handler_closes_open_ticket no_faults (Scenario.request_by "S1")
              Scenario.w_open (Scenario.ticket 1 "G1" "c1" open) "S1"
              eq_refl eq_refl eq_refl eq_refl eq_refl eq_refl)
    as (w' & E & Ht & _).
  exists w'. split; [exact E | exact Ht].
Defined.















(** ** The read-only endpoints *)

Lemma count_le_length {A} (p : A -> bool) (l : list A) :
  (count p l <= List.length l)%nat.
Proof.
  unfold count. induction l as [|a l IH]; simpl; [lia|].
  destruct (p a); simpl; lia.
Qed.

Lemma count_monotone {A} (p q : A -> bool) (l : list A) :
  (forall x, p x = true -> q x = true) -> (count p l <= count q l)%nat.
Proof.
  intros H. unfold count. induction l as [|a l IH]; simpl; [lia|].
  destruct (p a) eqn:Hp.
  - rewrite (H a Hp). simpl. lia.
  - destruct (q a); simpl; lia.
Qed.

Lemma count_open_closed (l : list Ticket.t) :
  (count (fun t => Status_eqb (Ticket.status t) open) l
   + count (fun t => Status_eqb (Ticket.status t) closed) l)%nat
  = List.length l.
Proof.
  unfold count. induction l as [|a l IH]; simpl; [reflexivity|].
  destruct (Ticket.status a); simpl; lia.
Qed.

(** X16.  The statistics are consistent and only staff of the main guild
    get them.  Whenever [/api/stats] answers with numbers, the caller is
    staff (or administrator) of the [GUILD_ID] guild, the total is the sum
    of the open and the closed tickets, the tickets of today are among
    those of the week, which are among all, and nothing was changed. *)
Theorem api_stats_consistent (env : Env) (faults : Faults) (sites : SiteFaults)
  (start_of_day : Z -> Z) (req : Request) (w w' : World) (s : Stats) :
  api_stats env faults sites start_of_day req w = (Ok (Payload s), w') ->
  w' = w /\
  (exists user, session_user req = Some user /\ main_guild_staff env w user = true) /\
  st_total s = (st_open s + st_closed s)%nat /\
  (st_today s <= st_thisWeek s)%nat /\
  (st_thisWeek s <= st_total s)%nat /\
  st_blocked s = List.length (blockedusers w).
Proof.
  unfold api_stats. destruct (session_user req) as [user|] eqn:Hs; [|discriminate].
  destruct (isStaff_decision_main_guild env faults req user w Hs) as (d & Ed & Hyes & Hno).
  unfold bind. rewrite Ed.
  destruct (main_guild_staff env w user && negb (faults API_member_fetch)) eqn:Ha.
  - rewrite (Hyes eq_refl).
    unfold stats_handler, try_catch, bind, get, ret, failing.
    destruct (sites ST_count); [discriminate|].
    intros E. inversion E; subst. clear E. cbn.
    split; [reflexivity|]. split.
    { exists user. split; [reflexivity|]. apply andb_prop in Ha. apply Ha. }
    split; [symmetry; apply count_open_closed|].
    split; [|split; [apply count_le_length | reflexivity]].
    apply count_monotone. intros x Hx.
    apply Z.leb_le in Hx. apply Z.leb_le. lia.
  - destruct (Hno eq_refl) as (r & -> & _). discriminate.
Qed.

Lemma api_stats_consistent_witness :
  exists s,
    api_stats Scenario.env1 no_faults no_site_faults Situation.utc_midnight
      (Scenario.request_by "S1") Situation.w_history
    = (Ok (Payload s), Situation.w_history) /\
    st_total s = 2%nat /\ st_open s = 1%nat /\ st_closed s = 1%nat.
Proof.
  eexists. split; [vm_compute; reflexivity|].
  destruct (api_stats_consistent Scenario.env1 no_faults no_site_faults
              Situation.utc_midnight (Scenario.request_by "S1") Situation.w_history
              Situation.w_history _ eq_refl) as (_ & _ & Ht & _).
  split; [exact Ht|]. split; reflexivity.
Defined.

Lemma firstn_incl {A} (n : nat) (l : list A) (x : A) :
  In x (firstn n l) -> In x l.
Proof.
  intros H. rewrite <- (firstn_skipn n l). apply in_or_app. left. exact H.
Qed.

Lemma skipn_incl {A} (n : nat) (l : list A) (x : A) :
  In x (skipn n l) -> In x l.
Proof.
  intros H. rewrite <- (firstn_skipn n l). apply in_or_app. right. exact H.
Qed.

Lemma number_or_page (r : TicketsRequest) : (1 <= page_of r)%Z.
Proof. unfold page_of. lia. Qed.

Lemma limit_of_bounds (r : TicketsRequest) : (1 <= limit_of r <= 100)%Z.
Proof. unfold limit_of. lia. Qed.

Section Listing.

Variable sites : SiteFaults.
Variable sort_by_created_desc : list Ticket.t -> list Ticket.t.
Hypothesis sort_permutes : forall l, Permutation (sort_by_created_desc l) l.

(** X17.  A page of tickets.  Whenever [/api/tickets] answers with a page,
    the page number is at least 1, the limit is between 1 and 100, the
    page holds at most [limit] tickets, every ticket on it is a stored
    ticket of the requested guild, the total is the number of tickets of
    that guild, and the caller is a member of that guild who is
    administrator or holds the staff role of the guild's own
    configuration.  Nothing is changed. *)
Theorem api_tickets_page (r : TicketsRequest) (w w' : World) (p : TicketsPage) :
  api_tickets sites sort_by_created_desc r w = (Ok (Payload p), w') ->
  w' = w /\
  (1 <= tp_page p)%Z /\ (1 <= tp_limit p <= 100)%Z /\
  (List.length (tp_tickets p) <= Z.to_nat (tp_limit p))%nat /\
  exists guildId viewer guild m,
    tr_guild_id r = Some guildId /\ tr_session_user r = Some viewer /\
    guilds_cache_get w (Some guildId) = Some guild /\
    find (fun x => m_user x =? viewer) (g_members guild) = Some m /\
    (m_administrator m = true \/
     exists cfg role,
       find (fun c => GuildSetting.guild_id c =? guildId) (guildsettings w) = Some cfg /\
       GuildSetting.staff_role_id cfg = Some role /\ In role (m_roles m)) /\
    (forall t, In t (tp_tickets p) ->
               In t (tickets w) /\ Ticket.guild_id t = Some guildId) /\
    tp_total p
    = count (fun t => same_id (Ticket.guild_id t) guildId) (tickets w).
Proof.
  unfold api_tickets. destruct (tr_session_user r) as [viewer|]; [|discriminate].
  destruct (tr_guild_id r) as [guildId|] eqn:Hgid; [|discriminate].
  unfold try_catch, bind, get, ret, guilds_fetch, fetch_member_or_null,
    try_catch, bind, get, ret, throw, failing.
  destruct (truthy (Some guildId)); cbn [negb]; [|discriminate].
  destruct (sites TL_guilds_fetch); [discriminate|].
  destruct (guilds_cache_get w (Some guildId)) as [guild|] eqn:Hg; [|discriminate].
  destruct (sites TL_member_fetch); cbn; [discriminate|].
  destruct (find (fun x => m_user x =? viewer) (g_members guild)) as [m|] eqn:Hm;
    cbn; [|discriminate].
  set (role := match (if sites TL_settings_findOne then None
                      else find (fun c => GuildSetting.guild_id c =? guildId)
                                (guildsettings w)) with
               | Some c => GuildSetting.staff_role_id c
               | None => None
               end).
  destruct (m_administrator m || truthy role && has (m_roles m) role) eqn:Hallowed;
    cbn [negb]; [|discriminate].
  destruct (sites TL_find); [discriminate|].
  destruct (sites TL_count); [discriminate|].
  intros E. inversion E; subst p w'. clear E. cbn.
  split; [reflexivity|]. split; [apply number_or_page|].
  split; [apply limit_of_bounds|].
  split; [apply firstn_le_length|].
  exists guildId, viewer, guild, m.
  split; [reflexivity|]. split; [reflexivity|]. split; [exact Hg|].
  split; [exact Hm|]. split.
  - apply orb_prop in Hallowed. destruct Hallowed as [Ha|Hr]; [left; exact Ha|].
    right. apply andb_prop in Hr. destruct Hr as [_ Hhas].
    subst role. destruct (sites TL_settings_findOne); [discriminate|].
    destruct (find _ (guildsettings w)) as [cfg|]; [|discriminate].
    destruct (GuildSetting.staff_role_id cfg) as [ro|] eqn:Hro; [|discriminate].
    exists cfg, ro. split; [reflexivity|]. split; [exact Hro|].
    simpl in Hhas. apply existsb_exists in Hhas. destruct Hhas as (x & Hx & Ex).
    apply String.eqb_eq in Ex. subst x. exact Hx.
  - split; [|reflexivity].
    intros t Ht. apply firstn_incl in Ht. apply skipn_incl in Ht.
    apply (Permutation_in _ (sort_permutes _)) in Ht.
    apply filter_In in Ht. destruct Ht as [Hin Hsame]. split; [exact Hin|].
    destruct (Ticket.guild_id t) as [g|]; [|discriminate].
    simpl in Hsame. apply String.eqb_eq in Hsame. subst g. reflexivity.
Qed.

End Listing.

Lemma insert_desc_permutation {A} (key : A -> Z) (x : A) (l : list A) :
  Permutation (Situation.insert_desc key x l) (x :: l).
Proof.
  induction l as [|y l IH]; simpl; [apply Permutation_refl|].
  destruct (key y <=? key x)%Z; [apply Permutation_refl|].
  apply perm_trans with (y :: x :: l); [apply perm_skip; exact IH | apply perm_swap].
Qed.

Lemma sort_desc_permutation {A} (key : A -> Z) (l : list A) :
  Permutation (Situation.sort_desc key l) l.
Proof.
  unfold Situation.sort_desc. induction l as [|x l IH]; simpl; [apply perm_nil|].
  apply perm_trans with (x :: fold_right (Situation.insert_desc key) [] l).
  - apply insert_desc_permutation.
  - apply perm_skip. exact IH.
Qed.

Lemma api_tickets_page_witness :
  exists p,
    api_tickets no_site_faults (Situation.sort_desc Ticket.created_at)
      (mkTicketsRequest (Some "S2") (Some "G2") (Some 0%Z) (Some 500%Z)) Scenario.w_cross
    = (Ok (Payload p), Scenario.w_cross) /\
    tp_page p = 1%Z /\ tp_limit p = 100%Z /\
    map Ticket._id (tp_tickets p) = [1%nat].
Proof.
  eexists. split; [vm_compute; reflexivity|].
  destruct (api_tickets_page no_site_faults (Situation.sort_desc Ticket.created_at)
              (sort_desc_permutation Ticket.created_at)
              (mkTicketsRequest (Some "S2") (Some "G2") (Some 0%Z) (Some 500%Z))
              Scenario.w_cross Scenario.w_cross _ eq_refl) as (_ & _ & _ & _ & _).
  repeat split.
Defined.

(** X18.  Two notions of staff.  A member who is not an administrator and
    holds the process-wide role [STAFF_ROLE_ID], in a guild whose
    configuration names no staff role of its own, counts as staff for
    [isStaffInGuild] (and so for the ticket view), but is refused by
    [/api/tickets], which only looks at the configured role. *)
Theorem staff_by_process_role_cannot_list (env : Env) (sort : list Ticket.t -> list Ticket.t)
  (r : TicketsRequest) (w : World) (guildId viewer role : string)
  (guild : Guild) (m : Member) :
  tr_session_user r = Some viewer ->
  tr_guild_id r = Some guildId ->
  guildId <> "" ->
  guilds_cache_get w (Some guildId) = Some guild ->
  find (fun x => m_user x =? viewer) (g_members guild) = Some m ->
  m_administrator m = false ->
  STAFF_ROLE_ID env = Some role -> role <> "" -> In role (m_roles m) ->
  (forall c, In c (guildsettings w) -> GuildSetting.guild_id c = guildId ->
             truthy (GuildSetting.staff_role_id c) = false) ->
  isStaffInGuild env no_faults (Some guildId) viewer w = (Ok true, w) /\
  api_tickets no_site_faults sort r w
  = (Ok (Failure 403 "You do not have permission to view tickets for this guild"), w).
Proof.
  intros Hs Hgid Hne Hg Hm Hadm Henv Hrole Hin Hcfg.
  assert (Hhas : has (m_roles m) (Some role) = true).
  { simpl. apply existsb_exists. exists role. split; [exact Hin | apply String.eqb_refl]. }
  apply String.eqb_neq in Hne. apply String.eqb_neq in Hrole.
  split.
  - unfold isStaffInGuild, members_fetch_or_null.
    unfold try_catch, bind, get, ret, fallible. cbn [no_faults]. rewrite Hg, Hm.
    assert (Hr : or_else
                   match find (fun g => same_id (Some guildId) (GuildSetting.guild_id g))
                              (guildsettings w) with
                   | Some g => GuildSetting.staff_role_id g
                   | None => None
                   end (STAFF_ROLE_ID env) = Some role).
    { unfold or_else.
      destruct (find _ (guildsettings w)) as [c|] eqn:Hf.
      - apply find_some in Hf. destruct Hf as [Hc E]. simpl in E.
        apply String.eqb_eq in E. rewrite (Hcfg c Hc (eq_sym E)). exact Henv.
      - exact Henv. }
    rewrite Hr, Hhas. reflexivity.
  - unfold api_tickets. rewrite Hs, Hgid.
    unfold try_catch, bind, get, ret, guilds_fetch, fetch_member_or_null,
      try_catch, bind, get, ret, throw, failing.
    cbn [no_site_faults truthy]. rewrite Hne. cbn [negb]. rewrite Hg. cbn. rewrite Hm.
    rewrite Hadm.
    destruct (find (fun c => GuildSetting.guild_id c =? guildId) (guildsettings w))
      as [c|] eqn:Hf.
    + apply find_some in Hf. destruct Hf as [Hc E]. apply String.eqb_eq in E.
      rewrite (Hcfg c Hc E). reflexivity.
    + reflexivity.
Qed.

Lemma staff_by_process_role_witness :
  isStaffInGuild Scenario.env1 no_faults (Some "G1") "S1" Scenario.w_open
  = (Ok true, Scenario.w_open) /\
  api_tickets no_site_faults (Situation.sort_desc Ticket.created_at)
    (mkTicketsRequest (Some "S1") (Some "G1") None None) Scenario.w_open
  = (Ok (Failure 403 "You do not have permission to view tickets for this guild"),
     Scenario.w_open).
Proof.
  apply (staff_by_process_role_cannot_list Scenario.env1 _
           (mkTicketsRequest (Some "S1") (Some "G1") None None) Scenario.w_open
           "G1" "S1" "R1" Scenario.guild1_staffed (mkMember "S1" ["R1"] false));
    try reflexivity; try discriminate.
  - left. reflexivity.
  - intros c [<-|[]] _. reflexivity.
Defined.

Section View.

Variable env : Env.
Variable faults : Faults.
Variable sites : SiteFaults.
Variable sort_by_timestamp : list Message.t -> list Message.t.
Hypothesis sort_permutes : forall l, Permutation (sort_by_timestamp l) l.

Lemma isStaffInGuild_reads_only (guildId : option string) (user : string) (w : World) :
  exists b, isStaffInGuild env faults guildId user w = (Ok b, w).
Proof.
  unfold isStaffInGuild, members_fetch_or_null.
  unfold try_catch, bind, get, ret, fallible.
  destruct (guilds_cache_get w guildId) as [g|]; [|eexists; reflexivity].
  destruct (faults SG_member_fetch); cbn; [eexists; reflexivity|].
  destruct (find _ (g_members g)); [|eexists; reflexivity].
  destruct (faults SG_findOne); eexists; reflexivity.
Qed.

(** X19.  Who sees a ticket.  Whenever the ticket view shows a page, the
    viewer is the user the ticket belongs to or is staff of the ticket's
    guild as [isStaffInGuild] sees it, the flag on the page is that
    verdict, the messages on the page are exactly the messages of that
    ticket, and nothing was changed. *)
Theorem ticket_view_shows_own_or_staff (req : Request) (w w' : World)
  (t : Ticket.t) (ms : list Message.t) (staff : bool) :
  ticket_view env faults sites sort_by_timestamp req w = (Ok (TicketPage t ms staff), w') ->
  w' = w /\
  exists viewer,
    session_user req = Some viewer /\
    find (fun x => Nat.eqb (Ticket._id x) (params_id req)) (tickets w) = Some t /\
    isStaffInGuild env faults (or_else (Ticket.guild_id t) (GUILD_ID env)) viewer w
    = (Ok staff, w) /\
    (staff = true \/ Ticket.user_id t = viewer) /\
    Permutation ms
      (filter (fun m => Nat.eqb (Message.ticket_id m) (Ticket._id t)) (messages w)).
Proof.
  unfold ticket_view. destruct (session_user req) as [viewer|]; [|discriminate].
  unfold try_catch. unfold bind at 1. unfold bind at 1. unfold failing at 1.
  destruct (sites TV_findById); [discriminate|].
  unfold bind at 1. unfold get at 1.
  destruct (find _ (tickets w)) as [t0|] eqn:Hfind; [|discriminate].
  destruct (isStaffInGuild_reads_only (or_else (Ticket.guild_id t0) (GUILD_ID env))
              viewer w) as (b & Eb).
  unfold bind at 1. rewrite Eb.
  destruct (negb b && negb (Ticket.user_id t0 =? viewer)) eqn:Hdeny; [discriminate|].
  unfold bind, failing, get, ret.
  destruct (sites TV_messages_find); [discriminate|].
  intros E. inversion E; subst t0 ms staff w'. clear E.
  split; [reflexivity|]. exists viewer.
  split; [reflexivity|]. split; [reflexivity|]. split; [exact Eb|]. split.
  - destruct b; [left; reflexivity|]. right. simpl in Hdeny.
    apply negb_false_iff in Hdeny. apply String.eqb_eq in Hdeny. exact Hdeny.
  - apply sort_permutes.
Qed.

(** X20.  The owner always gets in.  When the lookups of the ticket and
    of its messages go through, the user the ticket belongs to is shown
    the page, whatever goes wrong in the staff check. *)
Theorem ticket_view_owner_allowed (req : Request) (w : World) (t : Ticket.t) :
  session_user req = Some (Ticket.user_id t) ->
  find (fun x => Nat.eqb (Ticket._id x) (params_id req)) (tickets w) = Some t ->
  sites TV_findById = false ->
  sites TV_messages_find = false ->
  exists staff,
    ticket_view env faults sites sort_by_timestamp req w
    = (Ok (TicketPage t
             (sort_by_timestamp
                (filter (fun m => Nat.eqb (Message.ticket_id m) (Ticket._id t))
                        (messages w)))
             staff), w).
Proof.
  intros Hs Hfind H1 H2. unfold ticket_view. rewrite Hs.
  unfold try_catch. unfold bind at 1. unfold bind at 1. unfold failing at 1.
  rewrite H1. unfold bind at 1. unfold get at 1. rewrite Hfind.
  destruct (isStaffInGuild_reads_only (or_else (Ticket.guild_id t) (GUILD_ID env))
              (Ticket.user_id t) w) as (b & Eb).
  unfold bind at 1. rewrite Eb. rewrite String.eqb_refl.
  rewrite andb_false_r. unfold bind, failing, get, ret. rewrite H2.
  exists b. reflexivity.
Qed.

End View.

Lemma ticket_view_witness :
  exists ms,
    ticket_view Scenario.env1 no_faults no_site_faults
      (Situation.sort_asc Message.timestamp) (mkRequest (Some "U") 1 None)
      Situation.w_history
    = (Ok (TicketPage (Scenario.ticket 1 "G1" "c1" open) ms false), Situation.w_history) /\
    map Message._id ms = [3%nat; 5%nat].
Proof.
  eexists. split; [vm_compute; reflexivity|].
  destruct (ticket_view_shows_own_or_staff Scenario.env1 no_faults no_site_faults
              (Situation.sort_asc Message.timestamp)
              (fun l => sort_desc_permutation _ l)
              (mkRequest (Some "U") 1 None) Situation.w_history Situation.w_history
              _ _ _ eq_refl) as (_ & _).
  reflexivity.
Defined.

Lemma ticket_view_owner_witness :
  exists staff,
    ticket_view Scenario.env1 Scenario.delete_refused no_site_faults
      (Situation.sort_asc Message.timestamp) (mkRequest (Some "U") 1 None)
      Situation.w_history
    = (Ok (TicketPage (Scenario.ticket 1 "G1" "c1" open)
             (Situation.sort_asc Message.timestamp
                (filter (fun m => Nat.eqb (Message.ticket_id m) 1)
                        (messages Situation.w_history)))
             staff), Situation.w_history).
Proof.
  apply (ticket_view_owner_allowed Scenario.env1 Scenario.delete_refused no_site_faults
           (Situation.sort_asc Message.timestamp) (mkRequest (Some "U") 1 None)
           Situation.w_history (Scenario.ticket 1 "G1" "c1" open));
    reflexivity.
Defined.

Lemma fill_guild_id_filled (g : string) (t : Ticket.t) :
  Ticket.guild_id (fill_guild_id g t) <> None.
Proof.
  unfold fill_guild_id. destruct (Ticket.guild_id t) eqn:E; [rewrite E|]; discriminate.
Qed.

Lemma fill_guild_id_fixed (g : string) (l : list Ticket.t) :
  (forall t, In t l -> Ticket.guild_id t <> None) -> map (fill_guild_id g) l = l.
Proof.
  induction l as [|t l IH]; intros H; [reflexivity|]. simpl.
  rewrite IH by (intros; apply H; right; assumption).
  unfold fill_guild_id. destruct (Ticket.guild_id t) eqn:E; [reflexivity|].
  exfalso. apply (H t); [left; reflexivity | exact E].
Qed.

Lemma backfill_guild_id_outcome (env : Env) (sites : SiteFaults) (w : World) :
  backfill_guild_id env sites w = (Ok 1%nat, w) \/
  exists g, backfill_guild_id env sites w
            = (Ok 0%nat, with_tickets w (map (fill_guild_id g) (tickets w))).
Proof.
  unfold backfill_guild_id, try_catch, bind, get, ret, failing, modify.
  destruct (or_else (GUILD_ID env) _) as [g|]; [|left; reflexivity].
  destruct (truthy (Some g)); [|left; reflexivity].
  destruct (sites BF_updateMany); [left; reflexivity|].
  right. exists g. reflexivity.
Qed.

(** X21.  The backfill script is all or nothing: whatever fails, it either
    exits with code 0, or it exits with code 1 and has changed nothing. *)
Theorem backfill_guild_id_all_or_nothing (env : Env) (sites : SiteFaults) (w : World) :
  fst (backfill_guild_id env sites w) = Ok 0%nat \/
  backfill_guild_id env sites w = (Ok 1%nat, w).
Proof.
  destruct (backfill_guild_id_outcome env sites w) as [E|(g & E)].
  - right. exact E.
  - left. rewrite E. reflexivity.
Qed.

(** X22.  What a successful backfill leaves behind.  After the script has
    exited with code 0, every ticket has a guild id, the tickets are the
    same ones in the same order, a ticket that already had a guild id is
    stored as it was, and any later run of the script, with any
    environment, changes nothing more. *)
Theorem backfill_guild_id_completes (env : Env) (sites : SiteFaults) (w w' : World) :
  backfill_guild_id env sites w = (Ok 0%nat, w') ->
  (forall t, In t (tickets w') -> Ticket.guild_id t <> None) /\
  map Ticket._id (tickets w') = map Ticket._id (tickets w) /\
  (forall t, In t (tickets w) -> Ticket.guild_id t <> None -> In t (tickets w')) /\
  (forall env2 sites2, tickets (snd (backfill_guild_id env2 sites2 w')) = tickets w').
Proof.
  intros E.
  destruct (backfill_guild_id_outcome env sites w) as [E1|(g & E1)];
    rewrite E1 in E; [discriminate|].
  inversion E; subst w'; clear E. cbn [tickets with_tickets].
  assert (Hall : forall t, In t (map (fill_guild_id g) (tickets w)) ->
                           Ticket.guild_id t <> None).
  { intros t Ht. apply in_map_iff in Ht. destruct Ht as (t0 & <- & _).
    apply fill_guild_id_filled. }
  split; [exact Hall|]. split; [|split].
  - rewrite map_map. apply map_ext. intros t. unfold fill_guild_id.
    destruct (Ticket.guild_id t); reflexivity.
  - intros t Ht Hg. apply in_map_iff. exists t. split; [|exact Ht].
    unfold fill_guild_id. destruct (Ticket.guild_id t); [reflexivity | contradiction].
  - intros env2 sites2.
    destruct (backfill_guild_id_outcome env2 sites2
                (with_tickets w (map (fill_guild_id g) (tickets w)))) as [E2|(g2 & E2)];
      rewrite E2; [reflexivity|].
    cbn [snd tickets with_tickets]. apply fill_guild_id_fixed. exact Hall.
Qed.

Lemma backfill_guild_id_completes_witness :
  exists w',
    backfill_guild_id Scenario.env1 no_site_faults Situation.w_legacy = (Ok 0%nat, w') /\
    map Ticket.guild_id (tickets w') = [Some "G1"; Some "G2"].
Proof.
  eexists. split; [vm_compute; reflexivity|].
  destruct (backfill_guild_id_completes Scenario.env1 no_site_faults Situation.w_legacy
              _ eq_refl) as (_ & _).
  reflexivity.
Defined.

Lemma fetch_member_or_null_outcome (rejects : bool) (g : Guild) (id : string) (w : World) :
  exists m, fetch_member_or_null rejects g id w = (Ok m, w) /\
            (m = None \/ m = find (fun x => m_user x =? id) (g_members g)).
Proof.
  unfold fetch_member_or_null, try_catch, bind, failing, ret.
  destruct rejects; eexists; split; try reflexivity; auto.
Qed.

Lemma is_administrator_member (g : Guild) (id : string) (m : option Member) :
  (m = None \/ m = find (fun x => m_user x =? id) (g_members g)) ->
  is_administrator m = true ->
  exists x, find (fun x => m_user x =? id) (g_members g) = Some x /\
            m_administrator x = true.
Proof.
  intros [->| ->]; simpl; [discriminate|].
  destruct (find _ (g_members g)) as [x|]; simpl; [|discriminate].
  intros H. exists x. split; [reflexivity | exact H].
Qed.

Lemma administers_one_sound (sites : SiteFaults) (viewer : string)
  (configured : list GuildSetting.t) (w : World) :
  exists b, administers_one sites viewer configured w = (Ok b, w) /\
    (b = true ->
     exists cfg guild m,
       In cfg configured /\
       guilds_cache_get w (Some (GuildSetting.guild_id cfg)) = Some guild /\
       find (fun x => m_user x =? viewer) (g_members guild) = Some m /\
       m_administrator m = true).
Proof.
  induction configured as [|cfg rest IH]; simpl.
  - exists false. split; [reflexivity | discriminate].
  - unfold bind at 1. unfold get at 1.
    destruct (guilds_cache_get w (Some (GuildSetting.guild_id cfg))) as [guild|] eqn:Hg.
    + destruct (fetch_member_or_null_outcome (sites AD_member_fetch) guild viewer w)
        as (m & Em & Hm).
      unfold bind at 1. rewrite Em.
      destruct (is_administrator m) eqn:Hadm.
      * exists true. split; [reflexivity|]. intros _.
        destruct (is_administrator_member guild viewer m Hm Hadm) as (x & Hx & Hax).
        exists cfg, guild, x. split; [left; reflexivity|]. repeat split; auto.
      * destruct IH as (b & Eb & Hb). exists b. split; [exact Eb|].
        intros Hbt. destruct (Hb Hbt) as (c & g & x & Hin & H1 & H2 & H3).
        exists c, g, x. split; [right; exact Hin|]. repeat split; auto.
    + destruct IH as (b & Eb & Hb). exists b. split; [exact Eb|].
      intros Hbt. destruct (Hb Hbt) as (c & g & x & Hin & H1 & H2 & H3).
      exists c, g, x. split; [right; exact Hin|]. repeat split; auto.
Qed.

Lemma isAdmin_decision_outcome (env : Env) (sites : SiteFaults) (req : Request)
  (w : World) :
  exists d, isAdmin_decision env sites req w = (Ok d, w) /\
    (d = None ->
     exists viewer gid guild m,
       session_user req = Some viewer /\
       (GUILD_ID env = Some gid \/
        exists cfg, In cfg (guildsettings w) /\ GuildSetting.guild_id cfg = gid) /\
       guilds_cache_get w (Some gid) = Some guild /\
       find (fun x => m_user x =? viewer) (g_members guild) = Some m /\
       m_administrator m = true).
Proof.
  unfold isAdmin_decision. destruct (session_user req) as [viewer|].
  2:{ eexists. split; [reflexivity | discriminate]. }
  unfold try_catch. unfold bind at 1. unfold get at 1.
  destruct (guilds_cache_get w (GUILD_ID env)) as [mainGuild|] eqn:Hmain.
  - destruct (fetch_member_or_null_outcome (sites AD_member_fetch) mainGuild viewer w)
      as (m & Em & Hm).
    unfold bind at 1. unfold bind at 1. rewrite Em. unfold ret at 1.
    destruct (is_administrator m) eqn:Hadm.
    + exists None. split; [reflexivity|]. intros _.
      destruct (is_administrator_member mainGuild viewer m Hm Hadm) as (x & Hx & Hax).
      destruct (GUILD_ID env) as [gid|] eqn:Hgid.
      2:{ unfold guilds_cache_get in Hmain. simpl in Hmain.
          assert (Hn : forall l : list Guild, find (fun _ => false) l = None)
            by (induction l; auto).
          rewrite Hn in Hmain. discriminate. }
      exists viewer, gid, mainGuild, x.
      split; [reflexivity|]. split; [left; reflexivity|]. repeat split; auto.
    + unfold bind at 1. unfold failing at 1.
      destruct (sites AD_settings_find).
      { eexists. split; [reflexivity | discriminate]. }
      unfold bind at 1. unfold get at 1.
      destruct (administers_one_sound sites viewer (guildsettings w) w) as (b & Eb & Hb).
      unfold bind at 1. rewrite Eb. destruct b.
      * exists None. split; [reflexivity|]. intros _.
        destruct (Hb eq_refl) as (c & g & x & Hin & H1 & H2 & H3).
        exists viewer, (GuildSetting.guild_id c), g, x.
        split; [reflexivity|].
        split; [right; exists c; split; [exact Hin | reflexivity]|].
        repeat split; auto.
      * eexists. split; [reflexivity | discriminate].
  - unfold bind at 1. unfold ret at 1.
    unfold bind at 1. unfold failing at 1.
    destruct (sites AD_settings_find).
    { eexists. split; [reflexivity | discriminate]. }
    unfold bind at 1. unfold get at 1.
    destruct (administers_one_sound sites viewer (guildsettings w) w) as (b & Eb & Hb).
    unfold bind at 1. rewrite Eb. destruct b.
    * exists None. split; [reflexivity|]. intros _.
      destruct (Hb eq_refl) as (c & g & x & Hin & H1 & H2 & H3).
      exists viewer, (GuildSetting.guild_id c), g, x.
      split; [reflexivity|].
      split; [right; exists c; split; [exact Hin | reflexivity]|].
      repeat split; auto.
    * eexists. split; [reflexivity | discriminate].
Qed.

(** X23.  Who passes [isAdmin].  Whenever the middleware calls [next()],
    the session user is a member with the Administrator permission of a
    guild the bot is in, and that guild is the main guild [GUILD_ID] or a
    configured destination; the check itself changes nothing. *)
Theorem isAdmin_passes_only_administrators (env : Env) (sites : SiteFaults)
  (req : Request) (w w' : World) :
  isAdmin_decision env sites req w = (Ok None, w') ->
  w' = w /\
  exists viewer gid guild m,
    session_user req = Some viewer /\
    (GUILD_ID env = Some gid \/
     exists cfg, In cfg (guildsettings w) /\ GuildSetting.guild_id cfg = gid) /\
    guilds_cache_get w (Some gid) = Some guild /\
    find (fun x => m_user x =? viewer) (g_members guild) = Some m /\
    m_administrator m = true.
Proof.
  intros E. destruct (isAdmin_decision_outcome env sites req w) as (d & Ed & Hd).
  rewrite Ed in E. inversion E; subst. split; [reflexivity|]. apply Hd. reflexivity.
Qed.

Lemma isAdmin_passes_witness :
  exists viewer gid guild m,
    session_user (mkRequest (Some "S2") 0 None) = Some viewer /\
    (GUILD_ID Scenario.env1 = Some gid \/
     exists cfg, In cfg (guildsettings Situation.w_admin_elsewhere) /\
                 GuildSetting.guild_id cfg = gid) /\
    guilds_cache_get Situation.w_admin_elsewhere (Some gid) = Some guild /\
    find (fun x => m_user x =? viewer) (g_members guild) = Some m /\
    m_administrator m = true.
Proof.
  apply (isAdmin_passes_only_administrators Scenario.env1 no_site_faults
           (mkRequest (Some "S2") 0 None) Situation.w_admin_elsewhere
           Situation.w_admin_elsewhere eq_refl).
Defined.

Lemma count_app {A} (p : A -> bool) (l1 l2 : list A) :
  count p (l1 ++ l2) = (count p l1 + count p l2)%nat.
Proof. unfold count. rewrite filter_app, length_app. reflexivity. Qed.

Lemma count_clear_default (l : list GuildSetting.t) :
  count GuildSetting.is_default (map clear_default l) = 0%nat.
Proof. unfold count. induction l as [|c l IH]; simpl; auto. Qed.

Lemma map_guild_id_clear_default (l : list GuildSetting.t) :
  map GuildSetting.guild_id (map clear_default l) = map GuildSetting.guild_id l.
Proof. rewrite map_map. reflexivity. Qed.

Lemma find_guild_id_none (gid : string) (l : list GuildSetting.t) :
  find (fun c => GuildSetting.guild_id c =? gid) l = None ->
  ~ In gid (map GuildSetting.guild_id l).
Proof.
  intros Hf Hin. apply in_map_iff in Hin. destruct Hin as (c & Hc & Hin).
  apply (find_none _ _ Hf) in Hin. rewrite Hc, String.eqb_refl in Hin. discriminate.
Qed.

Lemma find_guild_id_clear_default (gid : string) (l : list GuildSetting.t) :
  find (fun c => GuildSetting.guild_id c =? gid) (map clear_default l)
  = option_map clear_default (find (fun c => GuildSetting.guild_id c =? gid) l).
Proof.
  induction l as [|c l IH]; simpl; [reflexivity|].
  destruct (GuildSetting.guild_id c =? gid); [reflexivity | exact IH].
Qed.

(** the settings the registration leaves behind, by the point it reached *)
Lemma register_server_outcome (sites : SiteFaults) (dir : Directory) (viewer : string)
  (form : ServerForm) (w : World) :
  exists a w', register_server sites dir viewer form w = (Ok a, w') /\
    ((w' = w /\ forall s, a <> Payload s) \/
     exists gid guild m,
       sf_guild_id form = Some gid /\
       guilds_cache_get w (Some gid) = Some guild /\
       find (fun x => m_user x =? viewer) (g_members guild) = Some m /\
       m_administrator m = true /\
       ((sf_is_default form = true /\
         w' = with_guildsettings w (map clear_default (guildsettings w)) /\
         forall s, a <> Payload s) \/
        (find (fun c => GuildSetting.guild_id c =? gid) (guildsettings w) = None /\
         a = Payload (GuildSetting.mk gid (sf_name form) (sf_modmail_category_id form)
                        (sf_staff_role_id form) (sf_log_channel_id form)
                        (sf_is_default form) (now w)) /\
         w' = with_guildsettings
                (if sf_is_default form
                 then with_guildsettings w (map clear_default (guildsettings w))
                 else w)
                ((if sf_is_default form
                  then map clear_default (guildsettings w)
                  else guildsettings w) ++
                 [GuildSetting.mk gid (sf_name form) (sf_modmail_category_id form)
                    (sf_staff_role_id form) (sf_log_channel_id form)
                    (sf_is_default form) (now w)])))).
Proof.
  unfold register_server. unfold try_catch at 1.
  destruct (truthy (sf_guild_id form)) eqn:Hgid; cbn [negb].
  2:{ do 2 eexists. split; [reflexivity|]. left. split; [reflexivity | discriminate]. }
  destruct (sf_guild_id form) as [gid|] eqn:Hform; [|discriminate].
  unfold bind at 1. unfold try_catch at 1, bind at 1, guilds_fetch, bind at 1, failing at 1.
  destruct (sites SV_guilds_fetch).
  { do 2 eexists. split; [reflexivity|]. left. split; [reflexivity | discriminate]. }
  unfold bind at 1, get at 1.
  destruct (guilds_cache_get w (Some gid)) as [guild|] eqn:Hg.
  2:{ do 2 eexists. split; [reflexivity|]. left. split; [reflexivity | discriminate]. }
  unfold ret at 1. unfold ret at 1.
  destruct (fetch_member_or_null_outcome (sites SV_member_fetch) guild viewer w)
    as (m & Em & Hm).
  unfold bind at 1. rewrite Em.
  destruct (is_administrator m) eqn:Hadm; cbn [negb].
  2:{ do 2 eexists. split; [reflexivity|]. left. split; [reflexivity | discriminate]. }
  destruct (is_administrator_member guild viewer m Hm Hadm) as (x & Hx & Hax).
  destruct (truthy (sf_staff_role_id form) && _).
  { do 2 eexists. split; [reflexivity|]. left. split; [reflexivity | discriminate]. }
  destruct (truthy (sf_modmail_category_id form) && _).
  { do 2 eexists. split; [reflexivity|]. left. split; [reflexivity | discriminate]. }
  destruct (sf_is_default form) eqn:Hdef.
  - unfold bind at 1, bind at 1, failing at 1.
    destruct (sites SV_updateMany).
    { do 2 eexists. split; [reflexivity|]. left. split; [reflexivity | discriminate]. }
    unfold modify at 1. unfold bind at 1, failing at 1.
    destruct (sites SV_findOne).
    { do 2 eexists. split; [reflexivity|]. right. exists gid, guild, x.
      repeat (split; [assumption || reflexivity|]). left.
      split; [reflexivity|]. split; [reflexivity | discriminate]. }
    unfold bind at 1, get at 1. cbn [guildsettings with_guildsettings].
    rewrite find_guild_id_clear_default.
    destruct (find (fun c => GuildSetting.guild_id c =? gid) (guildsettings w)) eqn:Hfind;
      cbn [option_map].
    { do 2 eexists. split; [reflexivity|]. right. exists gid, guild, x.
      repeat (split; [assumption || reflexivity|]). left.
      split; [reflexivity|]. split; [reflexivity | discriminate]. }
    unfold bind at 1, failing at 1.
    destruct (sites SV_save).
    { do 2 eexists. split; [reflexivity|]. right. exists gid, guild, x.
      repeat (split; [assumption || reflexivity|]). left.
      split; [reflexivity|]. split; [reflexivity | discriminate]. }
    do 2 eexists. split; [reflexivity|]. right. exists gid, guild, x.
    repeat (split; [assumption || reflexivity|]). right.
    split; [first [reflexivity | exact Hfind]|]. split; reflexivity.
  - unfold bind at 1, ret at 1. unfold bind at 1, failing at 1.
    destruct (sites SV_findOne).
    { do 2 eexists. split; [reflexivity|]. left. split; [reflexivity | discriminate]. }
    unfold bind at 1, get at 1.
    destruct (find (fun c => GuildSetting.guild_id c =? gid) (guildsettings w)) eqn:Hfind.
    { do 2 eexists. split; [reflexivity|]. left. split; [reflexivity | discriminate]. }
    unfold bind at 1, failing at 1.
    destruct (sites SV_save).
    { do 2 eexists. split; [reflexivity|]. left. split; [reflexivity | discriminate]. }
    do 2 eexists. split; [reflexivity|]. right. exists gid, guild, x.
    repeat (split; [assumption || reflexivity|]). right.
    split; [first [reflexivity | exact Hfind]|]. split; reflexivity.
Qed.

Lemma api_servers_post_outcome (env : Env) (sites : SiteFaults) (dir : Directory)
  (req : Request) (form : ServerForm) (w : World) :
  (exists a, api_servers_post env sites dir req form w = (Ok a, w) /\
             forall s, a <> Payload s) \/
  (exists viewer,
     session_user req = Some viewer /\
     isAdmin_decision env sites req w = (Ok None, w) /\
     api_servers_post env sites dir req form w = register_server sites dir viewer form w).
Proof.
  unfold api_servers_post. destruct (session_user req) as [viewer|] eqn:Hs.
  2:{ left. eexists. split; [reflexivity | discriminate]. }
  destruct (isAdmin_decision_outcome env sites req w) as (d & Ed & _).
  unfold bind. rewrite Ed. destruct d as [[code err]|].
  - left. eexists. split; [reflexivity | discriminate].
  - right. exists viewer. repeat split; reflexivity.
Qed.

(** X24.  The table of destinations stays well formed.  Whatever the
    request and whatever fails, [POST /api/servers] keeps the guild ids
    of the stored configurations distinct and leaves at most one
    configuration marked as default, when that was so before. *)
Theorem api_servers_post_keeps_settings_well_formed (env : Env) (sites : SiteFaults)
  (dir : Directory) (req : Request) (form : ServerForm) (w : World) :
  NoDup (map GuildSetting.guild_id (guildsettings w)) ->
  (count GuildSetting.is_default (guildsettings w) <= 1)%nat ->
  NoDup (map GuildSetting.guild_id
           (guildsettings (snd (api_servers_post env sites dir req form w)))) /\
  (count GuildSetting.is_default
     (guildsettings (snd (api_servers_post env sites dir req form w))) <= 1)%nat.
Proof.
  intros Hnd Hone.
  destruct (api_servers_post_outcome env sites dir req form w)
    as [(a & E & _)|(viewer & _ & _ & E)]; rewrite E; [split; assumption|].
  destruct (register_server_outcome sites dir viewer form w) as (a & w' & E' & H).
  rewrite E'. cbn [snd].
  destruct H as [[-> _]|(gid & guild & m & _ & _ & _ & _ & H)]; [split; assumption|].
  destruct H as [(_ & -> & _)|(Hfind & _ & ->)]; cbn [guildsettings with_guildsettings].
  - rewrite map_guild_id_clear_default, count_clear_default. split; [assumption | lia].
  - apply find_guild_id_none in Hfind.
    rewrite map_app, count_app. cbn [map GuildSetting.guild_id].
    destruct (sf_is_default form); cbn [guildsettings with_guildsettings].
    + rewrite map_guild_id_clear_default, count_clear_default. split.
      * apply NoDup_app; [assumption | repeat constructor; intros [] | ].
        intros x Hx [<-|[]]. contradiction.
      * unfold count. simpl. lia.
    + split.
      * apply NoDup_app; [assumption | repeat constructor; intros [] | ].
        intros x Hx [<-|[]]. contradiction.
      * unfold count at 2. simpl. lia.
Qed.

Lemma api_servers_post_well_formed_witness :
  NoDup (map GuildSetting.guild_id
           (guildsettings (snd (api_servers_post Scenario.env1 no_site_faults
                                  Situation.directory (mkRequest (Some "A") 0 None)
                                  Situation.form_G3 Situation.w_admin)))) /\
  (count GuildSetting.is_default
     (guildsettings (snd (api_servers_post Scenario.env1 no_site_faults
                            Situation.directory (mkRequest (Some "A") 0 None)
                            Situation.form_G3 Situation.w_admin))) <= 1)%nat.
Proof.
  apply (api_servers_post_keeps_settings_well_formed Scenario.env1 no_site_faults
           Situation.directory (mkRequest (Some "A") 0 None) Situation.form_G3
           Situation.w_admin).
  - simpl. repeat constructor; simpl; intuition discriminate.
  - vm_compute. lia.
Defined.

(** X25.  Who can change the destinations.  Whenever [POST /api/servers]
    leaves the stored configurations different from what they were, the
    session user passed [isAdmin] and is a member with the Administrator
    permission of the very guild named in the request, which the bot is
    in. *)
Theorem api_servers_post_change_needs_target_administrator (env : Env)
  (sites : SiteFaults) (dir : Directory) (req : Request) (form : ServerForm)
  (w : World) :
  guildsettings (snd (api_servers_post env sites dir req form w)) <> guildsettings w ->
  exists viewer gid guild m,
    session_user req = Some viewer /\
    isAdmin_decision env sites req w = (Ok None, w) /\
    sf_guild_id form = Some gid /\
    guilds_cache_get w (Some gid) = Some guild /\
    find (fun x => m_user x =? viewer) (g_members guild) = Some m /\
    m_administrator m = true.
Proof.
  intros Hch.
  destruct (api_servers_post_outcome env sites dir req form w)
    as [(a & E & _)|(viewer & Hs & Hadm & E)]; rewrite E in Hch;
    [contradiction Hch; reflexivity|].
  destruct (register_server_outcome sites dir viewer form w) as (a & w' & E' & H).
  rewrite E' in Hch. cbn [snd] in Hch.
  destruct H as [[-> _]|(gid & guild & m & H1 & H2 & H3 & H4 & _)];
    [contradiction Hch; reflexivity|].
  exists viewer, gid, guild, m. repeat split; assumption.
Qed.

Lemma api_servers_post_change_witness :
  exists viewer gid guild m,
    session_user (mkRequest (Some "A") 0 None) = Some viewer /\
    isAdmin_decision Scenario.env1 no_site_faults (mkRequest (Some "A") 0 None)
      Situation.w_admin = (Ok None, Situation.w_admin) /\
    sf_guild_id Situation.form_G3 = Some gid /\
    guilds_cache_get Situation.w_admin (Some gid) = Some guild /\
    find (fun x => m_user x =? viewer) (g_members guild) = Some m /\
    m_administrator m = true.
Proof.
  apply (api_servers_post_change_needs_target_administrator Scenario.env1
           no_site_faults Situation.directory (mkRequest (Some "A") 0 None)
           Situation.form_G3 Situation.w_admin).
  vm_compute. discriminate.
Defined.

(** X26.  What a registration adds.  When [POST /api/servers] answers with
    the new configuration, that guild was not configured before, the
    stored guild ids are the old ones followed by the new one, the new
    configuration carries the fields of the request, and the defaults are
    the new configuration alone when it was asked to be the default and
    the old defaults otherwise. *)
Theorem api_servers_post_registers (env : Env) (sites : SiteFaults) (dir : Directory)
  (req : Request) (form : ServerForm) (w w' : World) (server : GuildSetting.t) :
  api_servers_post env sites dir req form w = (Ok (Payload server), w') ->
  sf_guild_id form = Some (GuildSetting.guild_id server) /\
  ~ In (GuildSetting.guild_id server) (map GuildSetting.guild_id (guildsettings w)) /\
  map GuildSetting.guild_id (guildsettings w')
  = map GuildSetting.guild_id (guildsettings w) ++ [GuildSetting.guild_id server] /\
  In server (guildsettings w') /\
  GuildSetting.name server = sf_name form /\
  GuildSetting.modmail_category_id server = sf_modmail_category_id form /\
  GuildSetting.staff_role_id server = sf_staff_role_id form /\
  GuildSetting.log_channel_id server = sf_log_channel_id form /\
  GuildSetting.is_default server = sf_is_default form /\
  filter GuildSetting.is_default (guildsettings w')
  = (if sf_is_default form then [server]
     else filter GuildSetting.is_default (guildsettings w)) /\
  tickets w' = tickets w /\ messages w' = messages w.
Proof.
  intros E.
  destruct (api_servers_post_outcome env sites dir req form w)
    as [(a & E1 & Hn)|(viewer & _ & _ & E1)]; rewrite E1 in E.
  { inversion E; subst. contradiction (Hn server). reflexivity. }
  destruct (register_server_outcome sites dir viewer form w) as (a & w1 & E' & H).
  rewrite E' in E. inversion E; subst a w1. clear E.
  destruct H as [[_ Hn]|(gid & guild & m & Hgid & _ & _ & _ & H)].
  { contradiction (Hn server). reflexivity. }
  destruct H as [(_ & _ & Hn)|(Hfind & Hs & ->)].
  { contradiction (Hn server). reflexivity. }
  inversion Hs; subst server; clear Hs. cbn [GuildSetting.guild_id GuildSetting.name
    GuildSetting.modmail_category_id GuildSetting.staff_role_id
    GuildSetting.log_channel_id GuildSetting.is_default guildsettings with_guildsettings].
  split; [exact Hgid|]. split; [apply find_guild_id_none; exact Hfind|].
  split.
  { rewrite map_app. cbn [map GuildSetting.guild_id].
    destruct (sf_is_default form); [rewrite map_guild_id_clear_default|]; reflexivity. }
  split; [apply in_or_app; right; left; reflexivity|].
  do 5 (split; [reflexivity|]).
  split.
  { rewrite filter_app. cbn [filter GuildSetting.is_default].
    destruct (sf_is_default form).
    - assert (Hnone : forall l, filter GuildSetting.is_default (map clear_default l) = [])
        by (induction l; simpl; auto).
      rewrite Hnone. reflexivity.
    - rewrite app_nil_r. reflexivity. }
  destruct (sf_is_default form); split; reflexivity.
Qed.

Lemma api_servers_post_registers_witness :
  exists server w',
    api_servers_post Scenario.env1 no_site_faults Situation.directory
      (mkRequest (Some "A") 0 None) Situation.form_G3 Situation.w_admin
    = (Ok (Payload server), w') /\
    map GuildSetting.guild_id (guildsettings w') = ["G1"; "G2"; "G3"] /\
    filter GuildSetting.is_default (guildsettings w') = [server].
Proof.
  do 2 eexists. split; [vm_compute; reflexivity|].
  destruct (api_servers_post_registers Scenario.env1 no_site_faults Situation.directory
              (mkRequest (Some "A") 0 None) Situation.form_G3 Situation.w_admin
              _ _ eq_refl) as (_ & _).
  split; reflexivity.
Defined.

Lemma fetch_member_or_null_found (g : Guild) (id : string) (w : World) :
  fetch_member_or_null false g id w
  = (Ok (find (fun x => m_user x =? id) (g_members g)), w).
Proof. reflexivity. Qed.

Lemma administers_one_complete (viewer : string) (configured : list GuildSetting.t)
  (w : World) (cfg : GuildSetting.t) (guild : Guild) (m : Member) :
  In cfg configured ->
  guilds_cache_get w (Some (GuildSetting.guild_id cfg)) = Some guild ->
  find (fun x => m_user x =? viewer) (g_members guild) = Some m ->
  m_administrator m = true ->
  administers_one no_site_faults viewer configured w = (Ok true, w).
Proof.
  intros Hin Hg Hm Hadm. induction configured as [|c rest IH]; [contradiction|].
  simpl. unfold bind at 1, get at 1.
  destruct (guilds_cache_get w (Some (GuildSetting.guild_id c))) as [g|] eqn:Hc.
  - unfold bind at 1. cbn [no_site_faults]. rewrite fetch_member_or_null_found.
    destruct (is_administrator _) eqn:Ha; [reflexivity|].
    destruct Hin as [->|Hin]; [|exact (IH Hin)].
    rewrite Hg in Hc. inversion Hc; subst g. rewrite Hm in Ha. simpl in Ha. congruence.
  - destruct Hin as [->|Hin]; [congruence | exact (IH Hin)].
Qed.

Lemma isAdmin_decision_complete (env : Env) (req : Request) (w : World)
  (viewer : string) (cfg : GuildSetting.t) (guild : Guild) (m : Member) :
  session_user req = Some viewer ->
  In cfg (guildsettings w) ->
  guilds_cache_get w (Some (GuildSetting.guild_id cfg)) = Some guild ->
  find (fun x => m_user x =? viewer) (g_members guild) = Some m ->
  m_administrator m = true ->
  isAdmin_decision env no_site_faults req w = (Ok None, w).
Proof.
  intros Hs Hin Hg Hm Hadm. unfold isAdmin_decision. rewrite Hs.
  unfold try_catch. unfold bind at 1, get at 1.
  assert (Hrest :
    (failing (no_site_faults AD_settings_find) ;;;
     w0 <- get ;;
     found <- administers_one no_site_faults viewer (guildsettings w0) ;;
     (if found then ret None
      else ret (Some (403%nat,
                      "Admin access required in at least one configured guild")))) w
    = (Ok None, w)).
  { unfold bind at 1, failing at 1. cbn [no_site_faults].
    unfold bind at 1, get at 1. unfold bind at 1.
    rewrite (administers_one_complete viewer _ w cfg guild m Hin Hg Hm Hadm).
    reflexivity. }
  destruct (guilds_cache_get w (GUILD_ID env)) as [mainGuild|].
  - unfold bind at 1, bind at 1. cbn [no_site_faults].
    rewrite fetch_member_or_null_found. unfold ret at 1.
    destruct (is_administrator _); [reflexivity|]. rewrite Hrest. reflexivity.
  - unfold bind at 1, ret at 1. rewrite Hrest. reflexivity.
Qed.

(** X27.  A refused registration that still resets the default.  When an
    administrator of an already registered guild posts it again with
    [is_default] set, and nothing fails, [POST /api/servers] answers 400
    "Server already exists", and yet no stored configuration is marked as
    default afterwards: the defaults are cleared before the duplicate is
    looked up.  The configurations are otherwise the same. *)
Theorem api_servers_post_duplicate_clears_default (env : Env) (dir : Directory)
  (req : Request) (form : ServerForm) (w : World)
  (viewer gid : string) (cfg : GuildSetting.t) (guild : Guild) (m : Member) :
  session_user req = Some viewer ->
  sf_guild_id form = Some gid -> gid <> "" ->
  sf_is_default form = true ->
  In cfg (guildsettings w) -> GuildSetting.guild_id cfg = gid ->
  guilds_cache_get w (Some gid) = Some guild ->
  find (fun x => m_user x =? viewer) (g_members guild) = Some m ->
  m_administrator m = true ->
  (forall r, sf_staff_role_id form = Some r -> r <> "" ->
             listed (dir_roles dir) (g_id guild) r = true) ->
  (forall c, sf_modmail_category_id form = Some c -> c <> "" ->
             listed (dir_categories dir) (g_id guild) c = true) ->
  exists w',
    api_servers_post env no_site_faults dir req form w
    = (Ok (Failure 400 "Server already exists"), w') /\
    guildsettings w' = map clear_default (guildsettings w) /\
    (forall c, In c (guildsettings w') -> GuildSetting.is_default c = false) /\
    map GuildSetting.guild_id (guildsettings w')
    = map GuildSetting.guild_id (guildsettings w).
Proof.
  intros Hs Hgid Hne Hdef Hin Hcfg Hg Hm Hadm Hrole Hcat. subst gid.
  exists (with_guildsettings w (map clear_default (guildsettings w))).
  split; [|split; [reflexivity|split]].
  - unfold api_servers_post. rewrite Hs. unfold bind at 1.
    rewrite (isAdmin_decision_complete env req w viewer cfg guild m Hs Hin Hg Hm Hadm).
    unfold register_server. rewrite Hgid. apply String.eqb_neq in Hne.
    cbn [truthy]. rewrite Hne. cbn [negb].
    unfold try_catch at 1.
    unfold bind at 1. unfold try_catch at 1, bind at 1, guilds_fetch, bind at 1,
      failing at 1. cbn [no_site_faults].
    unfold bind at 1, get at 1. rewrite Hg. unfold ret at 1. unfold ret at 1.
    unfold bind at 1. rewrite fetch_member_or_null_found, Hm.
    cbn [is_administrator]. rewrite Hadm. cbn [negb].
    assert (Hr : truthy (sf_staff_role_id form)
                 && negb (listed (dir_roles dir) (g_id guild)
                            match sf_staff_role_id form with
                            | Some r => r
                            | None => ""
                            end) = false).
    { destruct (sf_staff_role_id form) as [r|]; [|reflexivity]. simpl.
      destruct (r =? "") eqn:Er; [reflexivity|]. apply String.eqb_neq in Er.
      rewrite (Hrole r eq_refl Er). reflexivity. }
    assert (Hc : truthy (sf_modmail_category_id form)
                 && negb (listed (dir_categories dir) (g_id guild)
                            match sf_modmail_category_id form with
                            | Some c => c
                            | None => ""
                            end) = false).
    { destruct (sf_modmail_category_id form) as [c|]; [|reflexivity]. simpl.
      destruct (c =? "") eqn:Ec; [reflexivity|]. apply String.eqb_neq in Ec.
      rewrite (Hcat c eq_refl Ec). reflexivity. }
    rewrite Hr, Hc, Hdef.
    unfold bind at 1, bind at 1, failing at 1. cbn [no_site_faults].
    unfold modify at 1.
    unfold bind at 1, failing at 1. cbn [no_site_faults].
    unfold bind at 1, get at 1.
    cbn [guildsettings with_guildsettings].
    rewrite find_guild_id_clear_default.
    destruct (find (fun c => GuildSetting.guild_id c =? GuildSetting.guild_id cfg)
                   (guildsettings w)) eqn:Hfind; [reflexivity|].
    apply (find_none _ _ Hfind) in Hin. rewrite String.eqb_refl in Hin. discriminate.
  - cbn [guildsettings with_guildsettings]. intros c Hc.
    apply in_map_iff in Hc. destruct Hc as (c0 & <- & _). reflexivity.
  - cbn [guildsettings with_guildsettings]. apply map_guild_id_clear_default.
Qed.

Lemma api_servers_post_duplicate_witness :
  exists w',
    api_servers_post Scenario.env1 no_site_faults Situation.directory
      (mkRequest (Some "A") 0 None) Situation.form_G1_again Situation.w_admin
    = (Ok (Failure 400 "Server already exists"), w') /\
    guildsettings w' = map clear_default (guildsettings Situation.w_admin) /\
    (forall c, In c (guildsettings w') -> GuildSetting.is_default c = false) /\
    map GuildSetting.guild_id (guildsettings w')
    = map GuildSetting.guild_id (guildsettings Situation.w_admin).
Proof.
  apply (api_servers_post_duplicate_clears_default Scenario.env1 Situation.directory
           (mkRequest (Some "A") 0 None) Situation.form_G1_again Situation.w_admin
           "A" "G1" Scenario.cfg1 (mkGuild "G1" [Situation.administrator])
           Situation.administrator);
    try reflexivity; try discriminate.
  left. reflexivity.
Defined.

Lemma classify_guilds_sound (sites : SiteFaults) (viewer : string)
  (configured : list GuildSetting.t) (w : World) :
  forall admin staff,
  exists admin' staff',
    classify_guilds sites viewer configured admin staff w = (Ok (admin', staff'), w) /\
    (forall g, In g admin' ->
       In g admin \/
       exists cfg guild m,
         In cfg configured /\ GuildSetting.guild_id cfg = g /\
         guilds_cache_get w (Some g) = Some guild /\
         find (fun x => m_user x =? viewer) (g_members guild) = Some m /\
         m_administrator m = true) /\
    (forall g, In g staff' ->
       In g staff \/
       exists cfg guild m,
         In cfg configured /\ GuildSetting.guild_id cfg = g /\
         guilds_cache_get w (Some g) = Some guild /\
         find (fun x => m_user x =? viewer) (g_members guild) = Some m /\
         m_administrator m = false /\
         truthy (GuildSetting.staff_role_id cfg) = true /\
         has (m_roles m) (GuildSetting.staff_role_id cfg) = true).
Proof.
  induction configured as [|cfg rest IH]; intros admin staff; simpl.
  - exists admin, staff. split; [reflexivity|]. split; intros g Hg; left; exact Hg.
  - assert (Hskip :
      exists admin' staff',
        classify_guilds sites viewer rest admin staff w = (Ok (admin', staff'), w) /\
        (forall g, In g admin' ->
           In g admin \/
           exists c guild m,
             In c (cfg :: rest) /\ GuildSetting.guild_id c = g /\
             guilds_cache_get w (Some g) = Some guild /\
             find (fun x => m_user x =? viewer) (g_members guild) = Some m /\
             m_administrator m = true) /\
        (forall g, In g staff' ->
           In g staff \/
           exists c guild m,
             In c (cfg :: rest) /\ GuildSetting.guild_id c = g /\
             guilds_cache_get w (Some g) = Some guild /\
             find (fun x => m_user x =? viewer) (g_members guild) = Some m /\
             m_administrator m = false /\
             truthy (GuildSetting.staff_role_id c) = true /\
             has (m_roles m) (GuildSetting.staff_role_id c) = true)).
    { destruct (IH admin staff) as (a' & s' & E & Ha & Hs).
      exists a', s'. split; [exact E|]. split; intros g Hg.
      - destruct (Ha g Hg) as [H|(c & gd & m & Hin & H)]; [left; exact H|].
        right. exists c, gd, m. split; [right; exact Hin | exact H].
      - destruct (Hs g Hg) as [H|(c & gd & m & Hin & H)]; [left; exact H|].
        right. exists c, gd, m. split; [right; exact Hin | exact H]. }
    unfold bind at 1, get at 1.
    destruct (guilds_cache_get w (Some (GuildSetting.guild_id cfg))) as [guild|] eqn:Hg;
      [|exact Hskip].
    destruct (fetch_member_or_null_outcome (sites DB_member_fetch) guild viewer w)
      as (mo & Em & Hm).
    unfold bind at 1. rewrite Em.
    destruct mo as [m|]; [|exact Hskip].
    destruct Hm as [Hm|Hm]; [discriminate|]. symmetry in Hm.
    destruct (m_administrator m) eqn:Hadm.
    + destruct (IH (admin ++ [GuildSetting.guild_id cfg]) staff)
        as (a' & s' & E & Ha & Hs).
      exists a', s'. split; [exact E|]. split; intros g Hin.
      * destruct (Ha g Hin) as [H|(c & gd & x & Hc & H)].
        -- apply in_app_or in H. destruct H as [H|[<-|[]]]; [left; exact H|].
           right. exists cfg, guild, m. split; [left; reflexivity|]. repeat split; auto.
        -- right. exists c, gd, x. split; [right; exact Hc | exact H].
      * destruct (Hs g Hin) as [H|(c & gd & x & Hc & H)]; [left; exact H|].
        right. exists c, gd, x. split; [right; exact Hc | exact H].
    + destruct (truthy (GuildSetting.staff_role_id cfg)
                && has (m_roles m) (GuildSetting.staff_role_id cfg)) eqn:Hrole;
        [|exact Hskip].
      apply andb_true_iff in Hrole. destruct Hrole as [Ht Hh].
      destruct (IH admin (staff ++ [GuildSetting.guild_id cfg]))
        as (a' & s' & E & Ha & Hs).
      exists a', s'. split; [exact E|]. split; intros g Hin.
      * destruct (Ha g Hin) as [H|(c & gd & x & Hc & H)]; [left; exact H|].
        right. exists c, gd, x. split; [right; exact Hc | exact H].
      * destruct (Hs g Hin) as [H|(c & gd & x & Hc & H)].
        -- apply in_app_or in H. destruct H as [H|[<-|[]]]; [left; exact H|].
           right. exists cfg, guild, m. split; [left; reflexivity|]. repeat split; auto.
        -- right. exists c, gd, x. split; [right; exact Hc | exact H].
Qed.

Lemma firstn_length_le {A} (n : nat) (l : list A) :
  (List.length (firstn n l) <= n)%nat /\ (List.length (firstn n l) <= List.length l)%nat.
Proof. rewrite length_firstn. lia. Qed.

Lemma count_split_status (p : Ticket.t -> bool) (l : list Ticket.t) :
  (count (fun t => p t && Status_eqb (Ticket.status t) open) l
   + count (fun t => p t && Status_eqb (Ticket.status t) closed) l
   <= count p l)%nat.
Proof.
  unfold count. induction l as [|a l IH]; simpl; [lia|].
  destruct (p a); simpl; [|exact IH].
  destruct (Ticket.status a); simpl; lia.
Qed.

Section Desk.

Variable sites : SiteFaults.
Variable start_of_day : Z -> Z.
Variable sort_by_created_desc : list Ticket.t -> list Ticket.t.
Variable sort_by_closed_desc : list Ticket.t -> list Ticket.t.
Hypothesis created_permutes : forall l, Permutation (sort_by_created_desc l) l.
Hypothesis closed_permutes : forall l, Permutation (sort_by_closed_desc l) l.

Lemma shown_In (n : nat) (sort : list Ticket.t -> list Ticket.t)
  (p : Ticket.t -> bool) (l : list Ticket.t) (t : Ticket.t) :
  (forall l, Permutation (sort l) l) ->
  In t (firstn n (sort (filter p l))) -> In t l /\ p t = true.
Proof.
  intros Hperm H. apply firstn_incl in H.
  apply (Permutation_in _ (Hperm _)) in H. apply filter_In in H. exact H.
Qed.

Lemma shown_length (n : nat) (sort : list Ticket.t -> list Ticket.t)
  (p : Ticket.t -> bool) (l : list Ticket.t) :
  (forall l, Permutation (sort l) l) ->
  (List.length (firstn n (sort (filter p l))) <= n)%nat /\
  (List.length (firstn n (sort (filter p l))) <= count p l)%nat.
Proof.
  intros Hperm. destruct (firstn_length_le n (sort (filter p l))) as [H1 H2].
  split; [exact H1|]. rewrite (Permutation_length (Hperm _)) in H2. exact H2.
Qed.

(** everything the page of a dashboard request tells, in one place *)
Lemma dashboard_page (req : Request) (w w' : World) (p : DashboardPage) :
  dashboard sites start_of_day sort_by_created_desc sort_by_closed_desc req w
  = (Ok (Payload p), w') ->
  w' = w /\
  exists viewer,
    session_user req = Some viewer /\
    (forall g, In g (dp_adminGuilds p) ->
       exists cfg guild m,
         In cfg (guildsettings w) /\ GuildSetting.guild_id cfg = g /\
         guilds_cache_get w (Some g) = Some guild /\
         find (fun x => m_user x =? viewer) (g_members guild) = Some m /\
         m_administrator m = true) /\
    (forall g, In g (dp_staffGuilds p) ->
       exists cfg guild m,
         In cfg (guildsettings w) /\ GuildSetting.guild_id cfg = g /\
         guilds_cache_get w (Some g) = Some guild /\
         find (fun x => m_user x =? viewer) (g_members guild) = Some m /\
         m_administrator m = false /\
         truthy (GuildSetting.staff_role_id cfg) = true /\
         has (m_roles m) (GuildSetting.staff_role_id cfg) = true) /\
    (dp_isAdmin p = true <-> dp_adminGuilds p <> []) /\
    (dp_isStaff p = true <-> dp_adminGuilds p ++ dp_staffGuilds p <> []) /\
    (forall t, In t (dp_openTickets p) ->
       In t (tickets w) /\ Ticket.status t = open /\
       if dp_isStaff p
       then exists g, Ticket.guild_id t = Some g /\
                      In g (dp_adminGuilds p ++ dp_staffGuilds p)
       else Ticket.user_id t = viewer) /\
    (forall t, In t (dp_closedTickets p) ->
       In t (tickets w) /\ Ticket.status t = closed /\
       if dp_isStaff p
       then exists g, Ticket.guild_id t = Some g /\
                      In g (dp_adminGuilds p ++ dp_staffGuilds p)
       else Ticket.user_id t = viewer) /\
    (List.length (dp_openTickets p) <= (if dp_isStaff p then 20 else 10))%nat /\
    (List.length (dp_closedTickets p) <= (if dp_isStaff p then 50 else 10))%nat /\
    (List.length (dp_openTickets p) <= ds_open (dp_stats p))%nat /\
    (List.length (dp_closedTickets p) <= ds_closed (dp_stats p))%nat /\
    (ds_open (dp_stats p) + ds_closed (dp_stats p) <= ds_total (dp_stats p))%nat /\
    (ds_today (dp_stats p) <= ds_total (dp_stats p))%nat /\
    (ds_claimed (dp_stats p) <= ds_open (dp_stats p))%nat /\
    (ds_total (dp_stats p) <= List.length (tickets w))%nat.
Proof.
  unfold dashboard. destruct (session_user req) as [viewer|]; [|discriminate].
  unfold try_catch. unfold bind at 1, get at 1.
  destruct (classify_guilds_sound sites viewer
              (if sites DB_settings_find then [] else guildsettings w) w [] [])
    as (admin & staff & Ec & Ha & Hs).
  unfold bind at 1. rewrite Ec. cbn [fst snd].
  unfold bind at 1, failing at 1.
  destruct (sites DB_query); [discriminate|].
  unfold bind at 1, get at 1.
  assert (Hin : forall c, In c (if sites DB_settings_find then [] else guildsettings w) ->
                          In c (guildsettings w))
    by (destruct (sites DB_settings_find); [intros c [] | auto]).
  assert (Hadmin : forall g, In g admin ->
            exists cfg guild m,
              In cfg (guildsettings w) /\ GuildSetting.guild_id cfg = g /\
              guilds_cache_get w (Some g) = Some guild /\
              find (fun x => m_user x =? viewer) (g_members guild) = Some m /\
              m_administrator m = true).
  { intros g Hg. destruct (Ha g Hg) as [[]|(c & gd & m & Hc & H)].
    exists c, gd, m. split; [apply Hin; exact Hc | exact H]. }
  assert (Hstaff : forall g, In g staff ->
            exists cfg guild m,
              In cfg (guildsettings w) /\ GuildSetting.guild_id cfg = g /\
              guilds_cache_get w (Some g) = Some guild /\
              find (fun x => m_user x =? viewer) (g_members guild) = Some m /\
              m_administrator m = false /\
              truthy (GuildSetting.staff_role_id cfg) = true /\
              has (m_roles m) (GuildSetting.staff_role_id cfg) = true).
  { intros g Hg. destruct (Hs g Hg) as [[]|(c & gd & m & Hc & H)].
    exists c, gd, m. split; [apply Hin; exact Hc | exact H]. }
  assert (Hpos : forall l : list string, (0 <? List.length l)%nat = true <-> l <> []).
  { intros l. destruct l; simpl; split; intros H; try discriminate; auto. }
  assert (Htheirs : forall t, guild_in (admin ++ staff) t = true ->
            exists g, Ticket.guild_id t = Some g /\ In g (admin ++ staff)).
  { intros t. unfold guild_in. destruct (Ticket.guild_id t) as [g|]; [|discriminate].
    intros H. apply includes_In in H. exists g. split; [reflexivity | exact H]. }
  assert (Hstatus : forall t s, Status_eqb (Ticket.status t) s = true ->
                                Ticket.status t = s).
  { intros t s. destruct (Ticket.status t), s; simpl; congruence. }
  destruct (0 <? List.length (admin ++ staff))%nat eqn:Hst; cbn [negb];
    unfold ret; intros E;
    set (shown_open := firstn _ (sort_by_created_desc _)) in E;
    set (shown_closed := firstn _ (sort_by_closed_desc _)) in E;
    injection E as Hp Hw; subst p w';
    cbn [dp_openTickets dp_closedTickets dp_stats dp_isStaff dp_isAdmin dp_adminGuilds
         dp_staffGuilds ds_total ds_open ds_closed ds_today ds_claimed];
    subst shown_open shown_closed;
    (split; [reflexivity|]); exists viewer; (split; [reflexivity|]);
    (split; [exact Hadmin|]); (split; [exact Hstaff|]);
    (split; [apply Hpos|]); (split; [rewrite <- Hpos; rewrite Hst; tauto|]).
  - (* staff *)
    split.
    { intros t Ht. apply shown_In in Ht; [|exact created_permutes].
      destruct Ht as [Ht Hp]. apply andb_true_iff in Hp. destruct Hp as [Hp1 Hp2].
      split; [exact Ht|]. split; [apply Hstatus; exact Hp2 | apply Htheirs; exact Hp1]. }
    split.
    { intros t Ht. apply shown_In in Ht; [|exact closed_permutes].
      destruct Ht as [Ht Hp]. apply andb_true_iff in Hp. destruct Hp as [Hp1 Hp2].
      split; [exact Ht|]. split; [apply Hstatus; exact Hp2 | apply Htheirs; exact Hp1]. }
    split; [apply shown_length; exact created_permutes|].
    split; [apply shown_length; exact closed_permutes|].
    split; [apply shown_length; exact created_permutes|].
    split; [apply shown_length; exact closed_permutes|].
    split; [apply count_split_status|].
    split; [apply count_monotone; intros x Hx; apply andb_true_iff in Hx; tauto|].
    split; [apply count_monotone; intros x Hx; apply andb_true_iff in Hx;
            destruct Hx as [Hx1 Hx2]; apply andb_true_iff in Hx1;
            apply andb_true_iff; tauto|].
    apply count_le_length.
  - (* not staff *)
    split.
    { intros t Ht. apply shown_In in Ht; [|exact created_permutes].
      destruct Ht as [Ht Hp]. apply andb_true_iff in Hp. destruct Hp as [Hp1 Hp2].
      split; [exact Ht|]. split; [apply Hstatus; exact Hp2|].
      apply String.eqb_eq. exact Hp1. }
    split.
    { intros t Ht. apply shown_In in Ht; [|exact closed_permutes].
      destruct Ht as [Ht Hp]. apply andb_true_iff in Hp. destruct Hp as [Hp1 Hp2].
      split; [exact Ht|]. split; [apply Hstatus; exact Hp2|].
      apply String.eqb_eq. exact Hp1. }
    split; [apply shown_length; exact created_permutes|].
    split; [apply shown_length; exact closed_permutes|].
    split; [apply Nat.le_refl|].
    split; [apply shown_length; exact closed_permutes|].
    split.
    { pose proof (count_split_status (fun t => Ticket.user_id t =? viewer) (tickets w)).
      pose proof (proj2 (shown_length 10 sort_by_created_desc
                           (fun t => (Ticket.user_id t =? viewer)
                                     && Status_eqb (Ticket.status t) open)
                           (tickets w) created_permutes)).
      lia. }
    split; [apply count_monotone; intros x Hx; apply andb_true_iff in Hx; tauto|].
    split; [lia|].
    apply count_le_length.
Qed.

(** X28.  The guilds on the dashboard are the viewer's.  On a rendered
    dashboard every guild listed as administered is a configured
    destination the bot is in, of which the viewer is a member with the
    Administrator permission; every guild listed as staffed is one where
    the viewer is a member without that permission who holds the staff
    role the destination configures.  The viewer counts as admin exactly
    when the first list is not empty and as staff exactly when one of the
    two is not; rendering changes nothing. *)
Theorem dashboard_lists_viewers_guilds (req : Request) (w w' : World)
  (p : DashboardPage) :
  dashboard sites start_of_day sort_by_created_desc sort_by_closed_desc req w
  = (Ok (Payload p), w') ->
  w' = w /\
  exists viewer,
    session_user req = Some viewer /\
    (forall g, In g (dp_adminGuilds p) ->
       exists cfg guild m,
         In cfg (guildsettings w) /\ GuildSetting.guild_id cfg = g /\
         guilds_cache_get w (Some g) = Some guild /\
         find (fun x => m_user x =? viewer) (g_members guild) = Some m /\
         m_administrator m = true) /\
    (forall g, In g (dp_staffGuilds p) ->
       exists cfg guild m,
         In cfg (guildsettings w) /\ GuildSetting.guild_id cfg = g /\
         guilds_cache_get w (Some g) = Some guild /\
         find (fun x => m_user x =? viewer) (g_members guild) = Some m /\
         m_administrator m = false /\
         truthy (GuildSetting.staff_role_id cfg) = true /\
         has (m_roles m) (GuildSetting.staff_role_id cfg) = true) /\
    (dp_isAdmin p = true <-> dp_adminGuilds p <> []) /\
    (dp_isStaff p = true <-> dp_adminGuilds p ++ dp_staffGuilds p <> []).
Proof.
  intros E. destruct (dashboard_page req w w' p E) as (Hw & viewer & H).
  split; [exact Hw|]. exists viewer.
  destruct H as (H1 & H2 & H3 & H4 & H5 & _).
  exact (conj H1 (conj H2 (conj H3 (conj H4 H5)))).
Qed.

(** X29.  Whose tickets the dashboard shows.  Every ticket on a rendered
    dashboard is a stored ticket, open in the open list and closed in
    the closed list.  For a viewer who is staff or admin somewhere it
    belongs to one of the guilds listed for the viewer; for any other
    viewer it is the viewer's own.  The lists hold at most 20 and 50
    tickets for staff and at most 10 each otherwise. *)
Theorem dashboard_shows_only_permitted_tickets (req : Request) (w w' : World)
  (p : DashboardPage) :
  dashboard sites start_of_day sort_by_created_desc sort_by_closed_desc req w
  = (Ok (Payload p), w') ->
  exists viewer,
    session_user req = Some viewer /\
    (forall t, In t (dp_openTickets p) ->
       In t (tickets w) /\ Ticket.status t = open /\
       if dp_isStaff p
       then exists g, Ticket.guild_id t = Some g /\
                      In g (dp_adminGuilds p ++ dp_staffGuilds p)
       else Ticket.user_id t = viewer) /\
    (forall t, In t (dp_closedTickets p) ->
       In t (tickets w) /\ Ticket.status t = closed /\
       if dp_isStaff p
       then exists g, Ticket.guild_id t = Some g /\
                      In g (dp_adminGuilds p ++ dp_staffGuilds p)
       else Ticket.user_id t = viewer) /\
    (List.length (dp_openTickets p) <= (if dp_isStaff p then 20 else 10))%nat /\
    (List.length (dp_closedTickets p) <= (if dp_isStaff p then 50 else 10))%nat.
Proof.
  intros E. destruct (dashboard_page req w w' p E) as (_ & viewer & H).
  exists viewer.
  destruct H as (H1 & _ & _ & _ & _ & H6 & H7 & H8 & H9 & _).
  exact (conj H1 (conj H6 (conj H7 (conj H8 H9)))).
Qed.

(** X30.  The counters of the dashboard agree with each other and with
    the lists: no list is longer than its counter, open and closed
    together do not exceed the total, nor does today's count, claimed
    tickets are among the open ones, and the total is at most the number
    of stored tickets. *)
Theorem dashboard_counters_consistent (req : Request) (w w' : World)
  (p : DashboardPage) :
  dashboard sites start_of_day sort_by_created_desc sort_by_closed_desc req w
  = (Ok (Payload p), w') ->
  (List.length (dp_openTickets p) <= ds_open (dp_stats p))%nat /\
  (List.length (dp_closedTickets p) <= ds_closed (dp_stats p))%nat /\
  (ds_open (dp_stats p) + ds_closed (dp_stats p) <= ds_total (dp_stats p))%nat /\
  (ds_today (dp_stats p) <= ds_total (dp_stats p))%nat /\
  (ds_claimed (dp_stats p) <= ds_open (dp_stats p))%nat /\
  (ds_total (dp_stats p) <= List.length (tickets w))%nat.
Proof.
  intros E. destruct (dashboard_page req w w' p E) as (_ & viewer & H).
  destruct H as (_ & _ & _ & _ & _ & _ & _ & _ & _ & H). exact H.
Qed.

End Desk.

Lemma dashboard_lists_viewers_guilds_witness :
  exists p,
    dashboard no_site_faults Situation.utc_midnight
      (Situation.sort_desc Ticket.created_at)
      (Situation.sort_desc (fun t => match Ticket.closed_at t with
                                     | Some z => z
                                     | None => 0%Z
                                     end))
      (mkRequest (Some "S2") 0 None) Situation.w_desk
    = (Ok (Payload p), Situation.w_desk) /\
    dp_adminGuilds p = [] /\ dp_staffGuilds p = ["G2"] /\
    dp_isStaff p = true /\ dp_isAdmin p = false.
Proof.
  eexists. split; [vm_compute; reflexivity|].
  destruct (dashboard_lists_viewers_guilds no_site_faults Situation.utc_midnight
              (Situation.sort_desc Ticket.created_at)
              (Situation.sort_desc (fun t => match Ticket.closed_at t with
                                             | Some z => z
                                             | None => 0%Z
                                             end))
              (sort_desc_permutation _) (sort_desc_permutation _)
              (mkRequest (Some "S2") 0 None) Situation.w_desk Situation.w_desk
              _ eq_refl) as (_ & _).
  repeat split.
Defined.

Lemma dashboard_shows_only_permitted_witness :
  exists p,
    dashboard no_site_faults Situation.utc_midnight
      (Situation.sort_desc Ticket.created_at)
      (Situation.sort_desc (fun t => match Ticket.closed_at t with
                                     | Some z => z
                                     | None => 0%Z
                                     end))
      (mkRequest (Some "S2") 0 None) Situation.w_desk
    = (Ok (Payload p), Situation.w_desk) /\
    map Ticket._id (dp_openTickets p) = [2%nat] /\ dp_closedTickets p = [].
Proof.
  eexists. split; [vm_compute; reflexivity|].
  destruct (dashboard_shows_only_permitted_tickets no_site_faults Situation.utc_midnight
              (Situation.sort_desc Ticket.created_at)
              (Situation.sort_desc (fun t => match Ticket.closed_at t with
                                             | Some z => z
                                             | None => 0%Z
                                             end))
              (sort_desc_permutation _) (sort_desc_permutation _)
              (mkRequest (Some "S2") 0 None) Situation.w_desk Situation.w_desk
              _ eq_refl) as (_ & _).
  repeat split.
Defined.

Lemma dashboard_counters_witness :
  exists p,
    dashboard no_site_faults Situation.utc_midnight
      (Situation.sort_desc Ticket.created_at)
      (Situation.sort_desc (fun t => match Ticket.closed_at t with
                                     | Some z => z
                                     | None => 0%Z
                                     end))
      (mkRequest (Some "U") 0 None) Situation.w_desk
    = (Ok (Payload p), Situation.w_desk) /\
    ds_total (dp_stats p) = 2%nat /\ ds_open (dp_stats p) = 2%nat /\
    ds_closed (dp_stats p) = 0%nat.
Proof.
  eexists. split; [vm_compute; reflexivity|].
  destruct (dashboard_counters_consistent no_site_faults Situation.utc_midnight
              (Situation.sort_desc Ticket.created_at)
              (Situation.sort_desc (fun t => match Ticket.closed_at t with
                                             | Some z => z
                                             | None => 0%Z
                                             end))
              (sort_desc_permutation _) (sort_desc_permutation _)
              (mkRequest (Some "U") 0 None) Situation.w_desk Situation.w_desk
              _ eq_refl) as (_ & _).
  repeat split.
Defined.
